(** * AgentCraft Academy flow editor: a shallow embedding of [flow.js]

    The development follows [src/A.C.A/AgentCraftAcademy/src/flow.js]:
    the classes [AgentNode], [AgentConnection] and [FlowDiagram] become
    modules of the same names, a JavaScript [Map] becomes an
    insertion-ordered association list ([JsMap]), a [Set] a [gset], an
    array a list whose last element is the one [pop] takes, and a number
    a binary64 float.  [Date.now()] and [Math.random()] are read from a
    [Fresh] value handed to each constructor call.

    Rendering, logging and the DOM updates of the panels do not touch the
    fields modelled here and are left out, and so is [emit]: listeners are
    taken not to call back into the diagram.  The toast notifier is kept
    as a log. *)

From Stdlib Require Import ZArith List Ascii String Bool Lia QArith Qfield.
From Stdlib Require Import Floats.PrimFloat.
From Stdlib Require Floats.
From stdpp Require Import gmap strings pretty.

Import ListNotations.

(* Decimal literals such as 0.9 denote the nearest binary64 value, as in
   JavaScript. *)
Set Warnings "-inexact-float".
Local Open Scope string_scope.
Local Open Scope list_scope.

(** ** JavaScript [Map] with string keys

    Iteration order is insertion order; [set] on a present key replaces
    the value where it stands, [set] on an absent key appends, [delete]
    takes the key out.  A [Map] holds a key once ([wf]); the operations
    are defined on every list and agree with [Map] on those. *)

Module JsMap.

Definition t (V : Type) : Type := list (string * V).

Section Operations.
Context {V : Type}.

Definition empty : t V := [].

Fixpoint get (k : string) (m : t V) : option V :=
  match m with
  | [] => None
  | (k', v) :: m' => if String.eqb k' k then Some v else get k m'
  end.

Definition has (k : string) (m : t V) : bool :=
  match get k m with Some _ => true | None => false end.

Fixpoint replace (k : string) (v : V) (m : t V) : t V :=
  match m with
  | [] => []
  | (k', v') :: m' =>
      if String.eqb k' k then (k', v) :: m' else (k', v') :: replace k v m'
  end.

Definition set (k : string) (v : V) (m : t V) : t V :=
  if has k m then replace k v m else m ++ [(k, v)].

Definition delete (k : string) (m : t V) : t V :=
  List.filter (fun e => negb (String.eqb (fst e) k)) m.

Definition keys (m : t V) : list string := map fst m.
Definition values (m : t V) : list V := map snd m.
Definition size (m : t V) : nat := length m.

(** What the type [Map] guarantees: a key occurs once. *)
Definition wf (m : t V) : Prop := List.NoDup (keys m).
End Operations.

End JsMap.

(** ** JavaScript arrays used as stacks ([push] / [pop]) *)

Module JsArray.

Section Operations.
Context {A : Type}.

Definition push (l : list A) (a : A) : list A := l ++ [a].

(** [pop] returns the last element ([None] for [undefined]) and the
    array without it. *)
Definition pop (l : list A) : option A * list A :=
  match rev l with
  | [] => (None, l)
  | a :: r => (Some a, rev r)
  end.
End Operations.

(** [forEach] with a callback that reads and writes a state [S] and may
    run out of fuel ([None]).  Whatever the callback returns (the [R]
    component) is dropped, as [Array.prototype.forEach] and
    [Map.prototype.forEach] drop it; only the state is handed on. *)
Fixpoint forEach {A S R : Type} (callback : A -> S -> option (R * S))
    (l : list A) (s : S) : option S :=
  match l with
  | [] => Some s
  | a :: l' =>
      match callback a s with
      | None => None
      | Some (_, s') => forEach callback l' s'
      end
  end.

End JsArray.

(** ** Object literals used as lookup tables

    [table[key]] on an object literal finds the own keys of the literal
    and, for every other key, what the literal inherits from
    [Object.prototype]: a function for eleven names, the prototype object
    for [__proto__].  These members are truthy, so [table[key] || default]
    gives the member and not the default. *)

Module JsObject.

(** The property names of [Object.prototype] in a browser. *)
Definition prototypeKeys : list string :=
  ["constructor"; "hasOwnProperty"; "isPrototypeOf"; "propertyIsEnumerable";
   "toLocaleString"; "toString"; "valueOf"; "__proto__";
   "__defineGetter__"; "__defineSetter__"; "__lookupGetter__";
   "__lookupSetter__"].

Definition inherited (key : string) : bool :=
  existsb (String.eqb key) prototypeKeys.

End JsObject.

(** ** The host: clock and random source read by the constructors

    [generateId] reads [Date.now()] and [Math.random()], the constructor
    reads [Date.now()] once more for [createdAt]. *)

Record Fresh : Type := mkFresh {
  stamp : Z;          (* Date.now() inside generateId *)
  suffix : string;    (* Math.random().toString(36).substr(2, 9) *)
  created : Z         (* Date.now() for createdAt *)
}.

(** ** class AgentNode *)

Module AgentNode.

Record t : Type := mk {
  id : string;
  type : string;
  x : float;
  y : float;
  name : string;
  status : string;
  capabilities : list string;
  createdAt : Z
}.

(** The plain object produced by [toJSON]. *)
Module Data.
Record t : Type := mk {
  id : string;
  type : string;
  x : float;
  y : float;
  name : string;
  status : string;
  capabilities : list string;
  createdAt : Z
}.
End Data.

(** The properties of an agent that hold a string.  [updateAgentProperty]
    is modelled on these: the configuration form assigns ['name'] and
    ['status']; a string assigned to a number, to the array or to a method
    gives an object this record cannot hold. *)
Module Property.
Inductive t : Type := id | type | name | status.

(** The property name in the source. *)
Definition key (p : t) : string :=
  match p with
  | id => "id"
  | type => "type"
  | name => "name"
  | status => "status"
  end.
End Property.

Definition generateId (h : Fresh) : string :=
  "agent-" +:+ pretty (stamp h) +:+ "-" +:+ suffix h.

(** The fields [name] and [capabilities] hold a string and an array of
    strings.  For a [type] with [JsObject.inherited type = true] the two
    lookups below give a member of [Object.prototype] instead, which these
    fields cannot hold: an agent whose name or capabilities come from
    such a lookup is not an [AgentNode.t].  Statements that name the
    default name or the default capabilities of a type carry
    [JsObject.inherited type = false]. *)

(** [typeNames[type] || 'UnknownAgent'] where [type] is no inherited
    name; the table has three own keys. *)
Definition generateName (type : string) : string :=
  if String.eqb type "planner" then "PlannerAgent"
  else if String.eqb type "executor" then "ExecutorAgent"
  else if String.eqb type "evaluator" then "EvaluatorAgent"
  else "UnknownAgent".

(** [capabilities[type] || ['basic']] where [type] is no inherited
    name. *)
Definition getDefaultCapabilities (type : string) : list string :=
  if String.eqb type "planner" then ["planning"; "reasoning"; "strategy"]
  else if String.eqb type "executor" then ["execution"; "action"; "implementation"]
  else if String.eqb type "evaluator" then ["evaluation"; "feedback"; "assessment"]
  else ["basic"].

(** [name || this.generateName(type)]: [null] and the empty string are
    the falsy names. *)
Definition nameOrDefault (name : option string) (type : string) : string :=
  match name with
  | None => generateName type
  | Some n => if String.eqb n EmptyString then generateName type else n
  end.

(** [new AgentNode(type, x, y, name = null)] *)
Definition new (h : Fresh) (type : string) (x y : float)
    (name : option string) : t :=
  {| id := generateId h;
     type := type;
     x := x;
     y := y;
     name := nameOrDefault name type;
     status := "idle";
     capabilities := getDefaultCapabilities type;
     createdAt := created h |}.

Definition toJSON (a : t) : Data.t :=
  {| Data.id := id a;
     Data.type := type a;
     Data.x := x a;
     Data.y := y a;
     Data.name := name a;
     Data.status := status a;
     Data.capabilities := capabilities a;
     Data.createdAt := createdAt a |}.

Definition fromJSON (h : Fresh) (data : Data.t) : t :=
  let agent := new h (Data.type data) (Data.x data) (Data.y data)
                   (Some (Data.name data)) in
  {| id := Data.id data;
     type := type agent;
     x := x agent;
     y := y agent;
     name := name agent;
     status := Data.status data;
     capabilities := Data.capabilities data;
     createdAt := Data.createdAt data |}.

End AgentNode.

(** ** class AgentConnection *)

Module AgentConnection.

Record t : Type := mk {
  id : string;
  sourceId : string;
  targetId : string;
  type : string;
  createdAt : Z
}.

Module Data.
Record t : Type := mk {
  id : string;
  sourceId : string;
  targetId : string;
  type : string;
  createdAt : Z
}.
End Data.

Definition generateId (h : Fresh) : string :=
  "conn-" +:+ pretty (stamp h) +:+ "-" +:+ suffix h.

(** [new AgentConnection(sourceId, targetId, type = 'data')] *)
Definition new (h : Fresh) (sourceId targetId type : string) : t :=
  {| id := generateId h;
     sourceId := sourceId;
     targetId := targetId;
     type := type;
     createdAt := created h |}.

Definition toJSON (c : t) : Data.t :=
  {| Data.id := id c;
     Data.sourceId := sourceId c;
     Data.targetId := targetId c;
     Data.type := type c;
     Data.createdAt := createdAt c |}.

Definition fromJSON (h : Fresh) (data : Data.t) : t :=
  let connection := new h (Data.sourceId data) (Data.targetId data)
                        (Data.type data) in
  {| id := Data.id data;
     sourceId := sourceId connection;
     targetId := targetId connection;
     type := type connection;
     createdAt := Data.createdAt data |}.

End AgentConnection.

(** ** History entries: [{ type, connection }] *)

Module Action.
Record t : Type := mk {
  type : string;
  connection : AgentConnection.t
}.
End Action.

(** The record returned by [export] and read by [import]. *)
Module FlowData.
Record t : Type := mk {
  agents : list AgentNode.Data.t;
  connections : list AgentConnection.Data.t;
  version : string
}.
End FlowData.

(** The record returned by [validateFlow]. *)
Module Validation.
Record t : Type := mk {
  isValid : bool;
  errors : list string;
  warnings : list string
}.
End Validation.

(** ** Numbers: [Math.min] and [Math.max] on binary64 *)

Module JsMath.

(** A NaN operand gives NaN, and [-0] is below [+0]. *)
Definition min (a b : float) : float :=
  if is_nan a || is_nan b then nan
  else if (a <? b)%float then a
  else if (b <? a)%float then b
  else if is_zero a && get_sign a then a else b.

Definition max (a b : float) : float :=
  if is_nan a || is_nan b then nan
  else if (a <? b)%float then b
  else if (b <? a)%float then a
  else if is_zero a && get_sign a then b else a.

End JsMath.

(** The part of a DOM event the handlers read. *)
Record MouseEvent : Type := mkMouseEvent {
  clientX : float;
  clientY : float;
  deltaY : float
}.

(** [canvas.getBoundingClientRect()], as far as it is read. *)
Record Rect : Type := mkRect {
  left : float;
  top : float
}.

(** ** class FlowDiagram *)

Module FlowDiagram.

Record t : Type := mk {
  canvas : option Rect;
  agents : JsMap.t AgentNode.t;
  connections : JsMap.t AgentConnection.t;
  selectedAgent : option string;
  undoStack : list Action.t;
  redoStack : list Action.t;
  offsetX : float;
  offsetY : float;
  scale : float;
  toasts : list (string * string)
}.

Definition constructor : t :=
  {| canvas := None;
     agents := JsMap.empty;
     connections := JsMap.empty;
     selectedAgent := None;
     undoStack := [];
     redoStack := [];
     offsetX := 0%float;
     offsetY := 0%float;
     scale := 1%float;
     toasts := [] |}.

(** Field assignments. *)

Definition set_canvas (c : option Rect) (d : t) : t :=
  mk c (agents d) (connections d) (selectedAgent d) (undoStack d)
     (redoStack d) (offsetX d) (offsetY d) (scale d) (toasts d).

Definition set_agents (a : JsMap.t AgentNode.t) (d : t) : t :=
  mk (canvas d) a (connections d) (selectedAgent d) (undoStack d)
     (redoStack d) (offsetX d) (offsetY d) (scale d) (toasts d).

Definition set_connections (c : JsMap.t AgentConnection.t) (d : t) : t :=
  mk (canvas d) (agents d) c (selectedAgent d) (undoStack d)
     (redoStack d) (offsetX d) (offsetY d) (scale d) (toasts d).

Definition set_selectedAgent (s : option string) (d : t) : t :=
  mk (canvas d) (agents d) (connections d) s (undoStack d)
     (redoStack d) (offsetX d) (offsetY d) (scale d) (toasts d).

Definition set_undoStack (u : list Action.t) (d : t) : t :=
  mk (canvas d) (agents d) (connections d) (selectedAgent d) u
     (redoStack d) (offsetX d) (offsetY d) (scale d) (toasts d).

Definition set_redoStack (r : list Action.t) (d : t) : t :=
  mk (canvas d) (agents d) (connections d) (selectedAgent d) (undoStack d)
     r (offsetX d) (offsetY d) (scale d) (toasts d).

Definition set_offsetX (o : float) (d : t) : t :=
  mk (canvas d) (agents d) (connections d) (selectedAgent d) (undoStack d)
     (redoStack d) o (offsetY d) (scale d) (toasts d).

Definition set_offsetY (o : float) (d : t) : t :=
  mk (canvas d) (agents d) (connections d) (selectedAgent d) (undoStack d)
     (redoStack d) (offsetX d) o (scale d) (toasts d).

Definition set_scale (s : float) (d : t) : t :=
  mk (canvas d) (agents d) (connections d) (selectedAgent d) (undoStack d)
     (redoStack d) (offsetX d) (offsetY d) s (toasts d).

(** [showToast(message, type)]: handed to the application's notifier. *)
Definition showToast (message type : string) (d : t) : t :=
  mk (canvas d) (agents d) (connections d) (selectedAgent d) (undoStack d)
     (redoStack d) (offsetX d) (offsetY d) (scale d)
     (toasts d ++ [(message, type)]).

(** *** Agents *)

Definition createAgent (h : Fresh) (type : string) (x y : float) (d : t)
    : AgentNode.t * t :=
  let agent := AgentNode.new h type x y None in
  (agent, set_agents (JsMap.set (AgentNode.id agent) agent (agents d)) d).

(** [addDummyAgents]: the three agents every session starts with. *)
Definition addDummyAgents (h1 h2 h3 : Fresh) (d : t) : t :=
  let d1 := snd (createAgent h1 "planner" 150%float 150%float d) in
  let d2 := snd (createAgent h2 "executor" 350%float 150%float d1) in
  snd (createAgent h3 "evaluator" 250%float 300%float d2).

(** The test of the [forEach] callback of [removeAgent]. *)
Definition involves (agentId : string) (connection : AgentConnection.t) : bool :=
  String.eqb (AgentConnection.sourceId connection) agentId
  || String.eqb (AgentConnection.targetId connection) agentId.

(** [this.connections.forEach(...)] of [removeAgent]: every entry is
    visited once, in insertion order, and the callback deletes the entry
    it is on from the live map. *)
Definition removeConnectionsOf (agentId : string)
    (conns : JsMap.t AgentConnection.t) : JsMap.t AgentConnection.t :=
  fold_left
    (fun live entry =>
       if involves agentId (snd entry) then JsMap.delete (fst entry) live
       else live)
    conns conns.

Definition removeAgent (agentId : string) (d : t) : t :=
  match JsMap.get agentId (agents d) with
  | None => d
  | Some agent =>
      let d1 := set_connections (removeConnectionsOf agentId (connections d)) d in
      let d2 := set_agents (JsMap.delete agentId (agents d1)) d1 in
      match selectedAgent d2 with
      | Some s => if String.eqb s agentId then set_selectedAgent None d2 else d2
      | None => d2
      end
  end.

Definition duplicateAgent (h : Fresh) (agentId : string) (d : t)
    : option AgentNode.t * t :=
  match JsMap.get agentId (agents d) with
  | None => (None, d)
  | Some original =>
      let newAgent :=
        AgentNode.new h (AgentNode.type original)
          (AgentNode.x original + 50)%float
          (AgentNode.y original + 50)%float
          (Some (AgentNode.name original +:+ "_copy")) in
      (Some newAgent,
       set_agents (JsMap.set (AgentNode.id newAgent) newAgent (agents d)) d)
  end.

(** [agent[property] = value] *)
Definition assignProperty (property : AgentNode.Property.t) (value : string)
    (a : AgentNode.t) : AgentNode.t :=
  let '(AgentNode.mk i ty x y n s c t) := a in
  match property with
  | AgentNode.Property.id => AgentNode.mk value ty x y n s c t
  | AgentNode.Property.type => AgentNode.mk i value x y n s c t
  | AgentNode.Property.name => AgentNode.mk i ty x y value s c t
  | AgentNode.Property.status => AgentNode.mk i ty x y n value c t
  end.

Definition updateAgentProperty (agentId : string)
    (property : AgentNode.Property.t) (value : string) (d : t) : t :=
  match JsMap.get agentId (agents d) with
  | None => d
  | Some agent =>
      set_agents
        (JsMap.replace agentId (assignProperty property value agent) (agents d)) d
  end.

(** *** History *)

Definition addToUndoStack (action : Action.t) (d : t) : t :=
  set_redoStack [] (set_undoStack (JsArray.push (undoStack d) action) d).

(** *** Connections *)

(** [Array.from(this.connections.values()).find(...)] *)
Definition findConnection (sourceId targetId : string)
    (conns : JsMap.t AgentConnection.t) : option AgentConnection.t :=
  List.find
    (fun conn =>
       String.eqb (AgentConnection.sourceId conn) sourceId
       && String.eqb (AgentConnection.targetId conn) targetId)
    (JsMap.values conns).

(** Returns [None] for [null]. *)
Definition createConnection (h : Fresh) (sourceId targetId type : string)
    (d : t) : option AgentConnection.t * t :=
  if String.eqb sourceId targetId then
    (None, showToast "Cannot connect agent to itself" "error" d)
  else
    match findConnection sourceId targetId (connections d) with
    | Some _ => (None, showToast "Connection already exists" "error" d)
    | None =>
        let connection := AgentConnection.new h sourceId targetId type in
        let d1 :=
          set_connections
            (JsMap.set (AgentConnection.id connection) connection
                       (connections d)) d in
        (Some connection,
         addToUndoStack (Action.mk "connection-created" connection) d1)
    end.

Definition removeConnection (connectionId : string) (d : t) : t :=
  match JsMap.get connectionId (connections d) with
  | None => d
  | Some connection =>
      let d1 := set_connections (JsMap.delete connectionId (connections d)) d in
      addToUndoStack (Action.mk "connection-removed" connection) d1
  end.

(** [undo]: [pop] yields nothing exactly when [undoStack.length === 0]. *)
Definition undo (d : t) : t :=
  match JsArray.pop (undoStack d) with
  | (None, _) => d
  | (Some action, rest) =>
      let d1 := set_undoStack rest d in
      let d2 := set_redoStack (JsArray.push (redoStack d1) action) d1 in
      let c := Action.connection action in
      if String.eqb (Action.type action) "connection-created" then
        set_connections (JsMap.delete (AgentConnection.id c) (connections d2)) d2
      else if String.eqb (Action.type action) "connection-removed" then
        set_connections (JsMap.set (AgentConnection.id c) c (connections d2)) d2
      else d2
  end.

Definition redo (d : t) : t :=
  match JsArray.pop (redoStack d) with
  | (None, _) => d
  | (Some action, rest) =>
      let d1 := set_redoStack rest d in
      let d2 := set_undoStack (JsArray.push (undoStack d1) action) d1 in
      let c := Action.connection action in
      if String.eqb (Action.type action) "connection-created" then
        set_connections (JsMap.set (AgentConnection.id c) c (connections d2)) d2
      else if String.eqb (Action.type action) "connection-removed" then
        set_connections (JsMap.delete (AgentConnection.id c) (connections d2)) d2
      else d2
  end.

(** *** Validation *)

(** The two sets of [detectCircularLoops]: [visited], [recursionStack]. *)
Definition Marks : Type := (gset string * gset string)%type.

(** The closure [hasCycle] of [detectCircularLoops].  [fuel] bounds the
    depth of the recursion and [None] means it ran out.  The callback
    handed to [forEach] returns [true] when the nested call does and
    nothing otherwise; [forEach] drops either. *)
Fixpoint hasCycle (fuel : nat) (conns : list AgentConnection.t)
    (agentId : string) (m : Marks) : option (bool * Marks) :=
  match fuel with
  | O => None
  | S fuel' =>
      if bool_decide (agentId ∈ snd m) then Some (true, m)
      else if bool_decide (agentId ∈ fst m) then Some (false, m)
      else
        let m1 := (fst m ∪ {[agentId]}, snd m ∪ {[agentId]}) in
        match
          JsArray.forEach
            (fun connection m =>
               if String.eqb (AgentConnection.sourceId connection) agentId
               then hasCycle fuel' conns (AgentConnection.targetId connection) m
               else Some (false, m))
            conns m1
        with
        | None => None
        | Some m2 => Some (false, (fst m2, snd m2 ∖ {[agentId]}))
        end
  end.

(** [for (const agentId of this.agents.keys())] *)
Fixpoint checkEachAgent (fuel : nat) (conns : list AgentConnection.t)
    (agentIds : list string) (m : Marks) : option bool :=
  match agentIds with
  | [] => Some false
  | agentId :: rest =>
      match hasCycle fuel conns agentId m with
      | None => None
      | Some (true, _) => Some true
      | Some (false, m') => checkEachAgent fuel conns rest m'
      end
  end.

(** The recursion never nests deeper than there are agents and
    connection targets (theorem [detectCircularLoops_returns]). *)
Definition recursionBound (d : t) : nat :=
  S (length (agents d) + length (connections d)).

Definition detectCircularLoops (d : t) : option bool :=
  checkEachAgent (recursionBound d) (JsMap.values (connections d))
    (JsMap.keys (agents d)) (∅, ∅).

Definition connectedAgents (conns : JsMap.t AgentConnection.t) : gset string :=
  fold_left
    (fun s connection =>
       s ∪ {[AgentConnection.sourceId connection]}
         ∪ {[AgentConnection.targetId connection]})
    (JsMap.values conns) ∅.

Definition quote : string := String "034"%char EmptyString.

Definition notConnected (agent : AgentNode.t) : string :=
  "Agent " +:+ quote +:+ AgentNode.name agent +:+ quote +:+ " is not connected".

Definition countType (type : string) (d : t) : nat :=
  length (List.filter (fun a => String.eqb (AgentNode.type a) type)
                 (JsMap.values (agents d))).

Definition validateFlow (d : t) : option Validation.t :=
  let connected := connectedAgents (connections d) in
  let warnings :=
    fold_left
      (fun warnings agent =>
         if bool_decide (AgentNode.id agent ∈ connected) then warnings
         else warnings ++ [notConnected agent])
      (JsMap.values (agents d)) [] in
  match detectCircularLoops d with
  | None => None
  | Some hasCircularLoop =>
      let errors1 :=
        if hasCircularLoop then ["Circular loop detected in flow"] else [] in
      let errors2 :=
        if Nat.eqb (countType "planner" d) 0
        then errors1 ++ ["Missing Planner agent"] else errors1 in
      let errors :=
        if Nat.eqb (countType "executor" d) 0
        then errors2 ++ ["Missing Executor agent"] else errors2 in
      Some {| Validation.isValid := Nat.eqb (length errors) 0;
              Validation.errors := errors;
              Validation.warnings := warnings |}
  end.

(** *** Viewport *)

(** Returns [None] for [null] (no canvas bound). *)
Definition getMousePosition (e : MouseEvent) (d : t) : option (float * float) :=
  match canvas d with
  | None => None
  | Some rect =>
      Some ((clientX e - left rect - offsetX d) / scale d,
            (clientY e - top rect - offsetY d) / scale d)%float
  end.

Definition handleWheel (e : MouseEvent) (d : t) : t :=
  let zoomFactor := if (0 <? deltaY e)%float then 0.9%float else 1.1%float in
  let newScale :=
    JsMath.max 0.1%float (JsMath.min 3%float (scale d * zoomFactor)%float) in
  let d1 :=
    match getMousePosition e d with
    | Some (mx, my) =>
        let dx := set_offsetX
                    (mx - (mx - offsetX d) * (newScale / scale d))%float d in
        set_offsetY (my - (my - offsetY dx) * (newScale / scale dx))%float dx
    | None => d
    end in
  set_scale newScale d1.

(** *** Export and import *)

Definition export (d : t) : FlowData.t :=
  {| FlowData.agents := map AgentNode.toJSON (JsMap.values (agents d));
     FlowData.connections :=
       map AgentConnection.toJSON (JsMap.values (connections d));
     FlowData.version := "1.0" |}.

(** [data.agents.forEach(...)]; the [i]-th constructor call of an import
    reads the host through [host i]. *)
Fixpoint importAgents (host : nat -> Fresh) (i : nat)
    (data : list AgentNode.Data.t) (m : JsMap.t AgentNode.t)
    : JsMap.t AgentNode.t :=
  match data with
  | [] => m
  | agentData :: rest =>
      let agent := AgentNode.fromJSON (host i) agentData in
      importAgents host (S i) rest (JsMap.set (AgentNode.id agent) agent m)
  end.

Fixpoint importConnections (host : nat -> Fresh) (i : nat)
    (data : list AgentConnection.Data.t) (m : JsMap.t AgentConnection.t)
    : JsMap.t AgentConnection.t :=
  match data with
  | [] => m
  | connData :: rest =>
      let connection := AgentConnection.fromJSON (host i) connData in
      importConnections host (S i) rest
        (JsMap.set (AgentConnection.id connection) connection m)
  end.

Definition import (host : nat -> Fresh) (data : FlowData.t) (d : t) : t :=
  let d0 := set_connections JsMap.empty (set_agents JsMap.empty d) in
  let d1 :=
    set_agents (importAgents host 0 (FlowData.agents data) (agents d0)) d0 in
  set_connections
    (importConnections host (length (FlowData.agents data))
       (FlowData.connections data) (connections d1)) d1.

End FlowDiagram.

(** ** Vocabulary of the specification *)

Module Graph.

(** [agentId] references a live node. *)
Definition live (agentId : string) (d : FlowDiagram.t) : bool :=
  JsMap.has agentId (FlowDiagram.agents d).

(** An edge with an endpoint that is not a live node. *)
Definition dangling (c : AgentConnection.t) (d : FlowDiagram.t) : bool :=
  negb (live (AgentConnection.sourceId c) d)
  || negb (live (AgentConnection.targetId c) d).

(** A node with zero incident edges, incoming or outgoing. *)
Definition isolated (a : AgentNode.t) (d : FlowDiagram.t) : bool :=
  forallb
    (fun c =>
       negb (String.eqb (AgentConnection.sourceId c) (AgentNode.id a))
       && negb (String.eqb (AgentConnection.targetId c) (AgentNode.id a)))
    (JsMap.values (FlowDiagram.connections d)).

(** An edge from [a] to [b] is in the edge set. *)
Definition edge (a b : string) (d : FlowDiagram.t) : Prop :=
  exists c, In c (JsMap.values (FlowDiagram.connections d))
            /\ AgentConnection.sourceId c = a
            /\ AgentConnection.targetId c = b.

(** Every entry of the two maps is filed under its own [id], as
    [createAgent], [createConnection] and [import] file it. *)
Definition keyedById (d : FlowDiagram.t) : Prop :=
  Forall (fun e => fst e = AgentNode.id (snd e)) (FlowDiagram.agents d)
  /\ Forall (fun e => fst e = AgentConnection.id (snd e))
            (FlowDiagram.connections d).

Definition wf (d : FlowDiagram.t) : Prop :=
  JsMap.wf (FlowDiagram.agents d) /\ JsMap.wf (FlowDiagram.connections d)
  /\ keyedById d.

End Graph.

(** ** Sessions used as concrete inputs *)

Module Scenario.

Definition host (n : nat) : Fresh :=
  mkFresh (1700000000000 + Z.of_nat n) "k3j9x2m1q" (1700000000000 + Z.of_nat n).

(** A bound canvas whose bounding rectangle starts at the window origin. *)
Definition session : FlowDiagram.t :=
  FlowDiagram.set_canvas (Some (mkRect 0 0)) FlowDiagram.constructor.

(** The session after [initialize]: planner, executor and evaluator. *)
Definition started : FlowDiagram.t :=
  FlowDiagram.addDummyAgents (host 1) (host 2) (host 3) session.

Definition P1 : string := AgentNode.generateId (host 1).
Definition E1 : string := AgentNode.generateId (host 2).
Definition V1 : string := AgentNode.generateId (host 3).

Definition connect (n : nat) (a b : string) (d : FlowDiagram.t)
    : FlowDiagram.t :=
  snd (FlowDiagram.createConnection (host n) a b "data" d).

(** P1 -> E1 -> V1 -> P1 *)
Definition threeCycle : FlowDiagram.t :=
  connect 6 V1 P1 (connect 5 E1 V1 (connect 4 P1 E1 started)).

(** A connection between two ids that name no agent, on an empty diagram. *)
Definition ghostEdge : FlowDiagram.t :=
  connect 1 "ghost-a" "ghost-b" FlowDiagram.constructor.

(** The user clears the name field of the planner. *)
Definition unnamed : FlowDiagram.t :=
  FlowDiagram.updateAgentProperty P1 AgentNode.Property.name EmptyString
    (snd (FlowDiagram.createAgent (host 1) "planner" 150 150 session)).

(** Connect P1 to E1, delete P1, then undo and redo. *)
Definition resurrected : FlowDiagram.t :=
  FlowDiagram.redo
    (FlowDiagram.undo (FlowDiagram.removeAgent P1 (connect 4 P1 E1 started))).

(** Two wheel events, both scrolling up (zooming in). *)
Definition wheel1 : MouseEvent := mkMouseEvent 100 100 (-100).
Definition wheel2 : MouseEvent := mkMouseEvent 210 210 (-100).

Definition zoomedOnce : FlowDiagram.t := FlowDiagram.handleWheel wheel1 session.
Definition zoomedTwice : FlowDiagram.t := FlowDiagram.handleWheel wheel2 zoomedOnce.

End Scenario.

(** ** The zoom arithmetic read over the rationals

    The same expressions as [getMousePosition] and [handleWheel], one
    axis, with exact arithmetic in place of binary64: what the formulas
    compute before any rounding. *)

Module Exact.

(** [(e.clientX - rect.left - this.offsetX) / this.scale] *)
Definition getMousePosition (client left offset scale : Q) : Q :=
  ((client - left - offset) / scale)%Q.

(** [mousePos.x - (mousePos.x - this.offsetX) * (newScale / this.scale)] *)
Definition wheelOffset (client left offset scale newScale : Q) : Q :=
  let mousePos := getMousePosition client left offset scale in
  (mousePos - (mousePos - offset) * (newScale / scale))%Q.

End Exact.

(** The contract of [zoomAt] in the words of the specification:
    [offset' = screenPoint - (screenPoint - offset) * (newScale / scale)],
    one axis, over the rationals; [handleWheel] is the code it is
    compared with. *)
Definition spec_zoomAt_offset (screenPoint offset scale newScale : Q) : Q :=
  (screenPoint - (screenPoint - offset) * (newScale / scale))%Q.

(** [screenToModel] in the words of the specification, one axis. *)
Definition spec_screenToModel (s offset scale : Q) : Q :=
  ((s - offset) / scale)%Q.

(** ** The rest of class FlowDiagram: status feed, pointer and keyboard

    The fields of a [FlowDiagram] that only the input handlers read and
    write ([connectionStart], [isDragging], [dragTarget], [isPanning],
    [lastPanPoint]) are kept beside the diagram in [Editor.t].
    [dragTarget] is a reference to an agent object.  It is modelled by
    the key under which that object sits in [agents] ([Filed]); once the
    object has left the map, by its removal or by another agent filed
    under its key, the reference is [Detached]: it still is an object, and
    writing through it changes nothing the diagram can see. *)

Module Editor.

(** [this.connectionStart], [{ agentId, x, y }] while a connection is
    pending. *)
Record ConnectionStart : Type := mkConnectionStart {
  agentId : string;
  startX : float;
  startY : float
}.

Inductive DragTarget : Type :=
| Filed (key : string)
| Detached.

Record t : Type := mk {
  diagram : FlowDiagram.t;
  connectionStart : option ConnectionStart;
  isDragging : bool;
  dragTarget : option DragTarget;
  isPanning : bool;
  lastPanPoint : float * float
}.

Definition constructor : t :=
  {| diagram := FlowDiagram.constructor;
     connectionStart := None;
     isDragging := false;
     dragTarget := None;
     isPanning := false;
     lastPanPoint := (0%float, 0%float) |}.

Definition set_diagram (d : FlowDiagram.t) (s : t) : t :=
  mk d (connectionStart s) (isDragging s) (dragTarget s) (isPanning s)
     (lastPanPoint s).

Definition set_connectionStart (c : option ConnectionStart) (s : t) : t :=
  mk (diagram s) c (isDragging s) (dragTarget s) (isPanning s)
     (lastPanPoint s).

(** The object under [key] leaves the map: a [dragTarget] that refers to
    it stays a reference to that object. *)
Definition detach (key : string) (s : t) : t :=
  match dragTarget s with
  | Some (Filed k) =>
      if String.eqb k key then
        mk (diagram s) (connectionStart s) (isDragging s) (Some Detached)
           (isPanning s) (lastPanPoint s)
      else s
  | _ => s
  end.

(** [this.config.nodeRadius] *)
Definition nodeRadius : float := 60%float.

(** *** Methods that need the diagram only *)

(** [selectAgent]; filling the info panel is left to the DOM. *)
Definition selectAgent (agentId : string) (d : FlowDiagram.t) : FlowDiagram.t :=
  match FlowDiagram.selectedAgent d with
  | Some s =>
      if String.eqb s agentId then d
      else FlowDiagram.set_selectedAgent (Some agentId) d
  | None => FlowDiagram.set_selectedAgent (Some agentId) d
  end.

Definition withStatus (status : string) (a : AgentNode.t) : AgentNode.t :=
  AgentNode.mk (AgentNode.id a) (AgentNode.type a) (AgentNode.x a)
    (AgentNode.y a) (AgentNode.name a) status (AgentNode.capabilities a)
    (AgentNode.createdAt a).

Definition withPosition (x y : float) (a : AgentNode.t) : AgentNode.t :=
  AgentNode.mk (AgentNode.id a) (AgentNode.type a) x y (AgentNode.name a)
    (AgentNode.status a) (AgentNode.capabilities a) (AgentNode.createdAt a).

(** One round of the [forEach] of [updateAgentStatus]: [agentData] is
    [{ id, status }]. *)
Definition updateOneStatus (agents : JsMap.t AgentNode.t)
    (agentData : string * string) : JsMap.t AgentNode.t :=
  match JsMap.get (fst agentData) agents with
  | Some agent => JsMap.replace (fst agentData)
                    (withStatus (snd agentData) agent) agents
  | None => agents
  end.

(** [updateAgentStatus(agents)], called by the protocol client with the
    [{ id, status }] pairs of a status message. *)
Definition updateAgentStatus (agents : list (string * string))
    (d : FlowDiagram.t) : FlowDiagram.t :=
  FlowDiagram.set_agents (fold_left updateOneStatus agents (FlowDiagram.agents d)) d.

(** [this.dragTarget.x = pos.x; this.dragTarget.y = pos.y] through the
    key of the dragged object. *)
Definition moveAgent (key : string) (x y : float)
    (agents : JsMap.t AgentNode.t) : JsMap.t AgentNode.t :=
  match JsMap.get key agents with
  | Some agent => JsMap.replace key (withPosition x y agent) agents
  | None => agents
  end.

(** The drop listener of [setupDragAndDrop]: the palette item's type is
    created at the drop point less the pan offset (the scale is not
    applied).  The listener sits on the canvas, so there is one. *)
Definition drop (h : Fresh) (agentType : string) (e : MouseEvent)
    (d : FlowDiagram.t) : FlowDiagram.t :=
  match FlowDiagram.canvas d with
  | None => d
  | Some rect =>
      snd (FlowDiagram.createAgent h agentType
             (clientX e - left rect - FlowDiagram.offsetX d)%float
             (clientY e - top rect - FlowDiagram.offsetY d)%float d)
  end.

(** *** Handlers *)

Definition deselectAgent (s : t) : t :=
  set_connectionStart None
    (set_diagram (FlowDiagram.set_selectedAgent None (diagram s)) s).

Definition handleMouseUp (s : t) : t :=
  mk (diagram s) (connectionStart s) false None false (lastPanPoint s).

(** [if (this.selectedAgent)]: [null] and the empty string are falsy. *)
Definition selectedTruthy (d : FlowDiagram.t) : option string :=
  match FlowDiagram.selectedAgent d with
  | Some id => if String.eqb id EmptyString then None else Some id
  | None => None
  end.

Definition handleKeyDown (key : string) (s : t) : t :=
  if String.eqb key "Delete" || String.eqb key "Backspace" then
    match selectedTruthy (diagram s) with
    | Some id =>
        deselectAgent
          (detach id (set_diagram (FlowDiagram.removeAgent id (diagram s)) s))
    | None => s
    end
  else if String.eqb key "Escape" then
    set_connectionStart None (deselectAgent s)
  else s.

Definition handleWheel (e : MouseEvent) (s : t) : t :=
  set_diagram (FlowDiagram.handleWheel e (diagram s)) s.

Section Host.
(** [Math.pow] and [Math.sqrt] of the host. *)
Variable Math_pow : float -> float -> float.
Variable Math_sqrt : float -> float.

Definition distance (x y : float) (agent : AgentNode.t) : float :=
  Math_sqrt (Math_pow (x - AgentNode.x agent) 2
             + Math_pow (y - AgentNode.y agent) 2)%float.

(** [getAgentAtPosition]: the first agent in iteration order whose centre
    is within [nodeRadius]; the entry is returned with its key. *)
Definition getAgentAtPosition (x y : float) (d : FlowDiagram.t)
    : option (string * AgentNode.t) :=
  List.find (fun entry => (distance x y (snd entry) <=? nodeRadius)%float)
    (FlowDiagram.agents d).

(** [handleMouseDown]; [button] is [e.button] and [h] what the host
    would hand to a connection constructed by this event. *)
Definition handleMouseDown (h : Fresh) (e : MouseEvent) (button : Z)
    (s : t) : t :=
  match FlowDiagram.getMousePosition e (diagram s) with
  | None => s
  | Some pos =>
      match getAgentAtPosition (fst pos) (snd pos) (diagram s) with
      | Some (key, clickedAgent) =>
          if Z.eqb button 0 then
            let s1 := set_diagram
                        (selectAgent (AgentNode.id clickedAgent) (diagram s)) s in
            match connectionStart s1 with
            | Some start =>
                let d2 := snd (FlowDiagram.createConnection h (agentId start)
                                 (AgentNode.id clickedAgent) "data" (diagram s1)) in
                set_connectionStart None (set_diagram d2 s1)
            | None =>
                mk (diagram s1) (connectionStart s1) true (Some (Filed key))
                   (isPanning s1) (lastPanPoint s1)
            end
          else s
      | None =>
          if Z.eqb button 0 then
            let s1 := deselectAgent s in
            match connectionStart s1 with
            | Some _ => set_connectionStart None s1
            | None =>
                mk (diagram s1) (connectionStart s1) (isDragging s1)
                   (dragTarget s1) true pos
            end
          else s
      end
  end.

Definition handleMouseMove (e : MouseEvent) (s : t) : t :=
  match FlowDiagram.getMousePosition e (diagram s) with
  | None => s
  | Some pos =>
      match isDragging s, dragTarget s with
      | true, Some (Filed key) =>
          set_diagram
            (FlowDiagram.set_agents
               (moveAgent key (fst pos) (snd pos) (FlowDiagram.agents (diagram s)))
               (diagram s)) s
      | true, Some Detached => s
      | _, _ =>
          if isPanning s then
            let d1 := FlowDiagram.set_offsetX
                        (FlowDiagram.offsetX (diagram s)
                         + (fst pos - fst (lastPanPoint s)))%float (diagram s) in
            let d2 := FlowDiagram.set_offsetY
                        (FlowDiagram.offsetY d1
                         + (snd pos - snd (lastPanPoint s)))%float d1 in
            mk d2 (connectionStart s) (isDragging s) (dragTarget s)
               (isPanning s) pos
          else s
      end
  end.

(** The drop listener on the editor's state: the new agent is filed under
    its generated id, whatever was there before. *)
Definition handleDrop (h : Fresh) (agentType : string) (e : MouseEvent)
    (s : t) : t :=
  match FlowDiagram.canvas (diagram s) with
  | None => s
  | Some _ =>
      detach (AgentNode.generateId h)
        (set_diagram (drop h agentType e (diagram s)) s)
  end.

(** The touch handlers hand a single touch on as a mouse event with
    button 0; [touches] are the [clientX], [clientY] of [e.touches]. *)
Definition handleTouchStart (h : Fresh) (touches : list (float * float))
    (s : t) : t :=
  match touches with
  | [touch] => handleMouseDown h (mkMouseEvent (fst touch) (snd touch) 0) 0 s
  | _ => s
  end.

Definition handleTouchMove (touches : list (float * float)) (s : t) : t :=
  match touches with
  | [touch] => handleMouseMove (mkMouseEvent (fst touch) (snd touch) 0) s
  | _ => s
  end.

Definition handleTouchEnd (s : t) : t := handleMouseUp s.

(** What the listeners of [setupEventListeners] and [setupDragAndDrop]
    receive. *)
Inductive Event : Type :=
| MouseDown (h : Fresh) (e : MouseEvent) (button : Z)
| MouseMove (e : MouseEvent)
| MouseUp
| Wheel (e : MouseEvent)
| TouchStart (h : Fresh) (touches : list (float * float))
| TouchMove (touches : list (float * float))
| TouchEnd
| KeyDown (key : string)
| Drop (h : Fresh) (agentType : string) (e : MouseEvent).

Definition dispatch (ev : Event) (s : t) : t :=
  match ev with
  | MouseDown h e button => handleMouseDown h e button s
  | MouseMove e => handleMouseMove e s
  | MouseUp => handleMouseUp s
  | Wheel e => handleWheel e s
  | TouchStart h touches => handleTouchStart h touches s
  | TouchMove touches => handleTouchMove touches s
  | TouchEnd => handleTouchEnd s
  | KeyDown key => handleKeyDown key s
  | Drop h agentType e => handleDrop h agentType e s
  end.

(** The events of a session, handled one after the other. *)
Definition run (events : list Event) (s : t) : t :=
  fold_left (fun s ev => dispatch ev s) events s.

End Host.

End Editor.

(** ** Calls of the programming interface, for statements about sequences *)

Module Api.

Inductive Command : Type :=
| CreateAgent (h : Fresh) (type : string) (x y : float)
| RemoveAgent (agentId : string)
| DuplicateAgent (h : Fresh) (agentId : string)
| UpdateAgentProperty (agentId : string) (property : AgentNode.Property.t)
    (value : string)
| UpdateAgentStatus (agents : list (string * string))
| CreateConnection (h : Fresh) (sourceId targetId type : string)
| RemoveConnection (connectionId : string)
| Undo
| Redo
| Import (host : nat -> Fresh) (data : FlowData.t).

Definition exec (c : Command) (d : FlowDiagram.t) : FlowDiagram.t :=
  match c with
  | CreateAgent h type x y => snd (FlowDiagram.createAgent h type x y d)
  | RemoveAgent agentId => FlowDiagram.removeAgent agentId d
  | DuplicateAgent h agentId => snd (FlowDiagram.duplicateAgent h agentId d)
  | UpdateAgentProperty agentId property value =>
      FlowDiagram.updateAgentProperty agentId property value d
  | UpdateAgentStatus agents => Editor.updateAgentStatus agents d
  | CreateConnection h sourceId targetId type =>
      snd (FlowDiagram.createConnection h sourceId targetId type d)
  | RemoveConnection connectionId => FlowDiagram.removeConnection connectionId d
  | Undo => FlowDiagram.undo d
  | Redo => FlowDiagram.redo d
  | Import host data => FlowDiagram.import host data d
  end.

Definition execAll (cs : list Command) (d : FlowDiagram.t) : FlowDiagram.t :=
  fold_left (fun d c => exec c d) cs d.

(** A call that assigns the [id] property of an agent. *)
Definition assignsId (c : Command) : bool :=
  match c with
  | UpdateAgentProperty _ AgentNode.Property.id _ => true
  | _ => false
  end.

(** A call that leaves the agents and connections to [undo] and [redo]. *)
Definition isHistory (c : Command) : bool :=
  match c with
  | Undo | Redo => true
  | _ => false
  end.

(** The status of the last [{ id, status }] pair for [agentId], if any. *)
Definition lastStatus (agentId : string) (agents : list (string * string))
    : option string :=
  fold_left
    (fun found agentData =>
       if String.eqb (fst agentData) agentId then Some (snd agentData)
       else found)
    agents None.

End Api.

(** Calls after which an edge between live nodes still is one: all but
    [undo], [redo] and [import], with [createConnection] only between two
    live agents. *)
Definition keepsEndpoints (c : Api.Command) (d : FlowDiagram.t) : bool :=
  match c with
  | Api.Undo | Api.Redo | Api.Import _ _ => false
  | Api.CreateConnection _ sourceId targetId _ =>
      Graph.live sourceId d && Graph.live targetId d
  | _ => true
  end.

Fixpoint connectsLiveOnly (cs : list Api.Command) (d : FlowDiagram.t) : bool :=
  match cs with
  | [] => true
  | c :: cs' => keepsEndpoints c d && connectsLiveOnly cs' (Api.exec c d)
  end.

(** The zoom range of [handleWheel]. *)
Definition scaleInRange (s : float) : bool :=
  ((0.1 <=? s) && (s <=? 3))%float.

(** * Properties *)

(** ** [JsMap] and [JsArray] *)

Section JsMapFacts.
Context {V : Type}.
Implicit Types (k : string) (v : V) (m : JsMap.t V).

Lemma JsMap_in_delete k m e :
  In e (JsMap.delete k m) <-> In e m /\ fst e <> k.
Proof.
  unfold JsMap.delete. rewrite filter_In.
  rewrite negb_true_iff, String.eqb_neq. reflexivity.
Qed.

Lemma JsMap_get_none k m :
  JsMap.get k m = None <-> ~ In k (JsMap.keys m).
Proof.
  induction m as [|[k' v'] m IH]; simpl.
  - tauto.
  - destruct (String.eqb_spec k' k) as [->|Hne].
    + split; [discriminate | intros H; exfalso; apply H; now left].
    + rewrite IH. split; [intros H [E|I]; [congruence | tauto] | tauto].
Qed.

Lemma JsMap_has_false k m :
  JsMap.has k m = false <-> ~ In k (JsMap.keys m).
Proof.
  unfold JsMap.has. rewrite <- JsMap_get_none.
  destruct (JsMap.get k m); split; congruence.
Qed.

Lemma JsMap_delete_absent k m :
  JsMap.has k m = false -> JsMap.delete k m = m.
Proof.
  rewrite JsMap_has_false. unfold JsMap.delete, JsMap.keys.
  induction m as [|[k' v'] m IH]; simpl; intros H; [reflexivity|].
  destruct (String.eqb_spec k' k) as [->|Hne]; simpl.
  - exfalso. apply H. now left.
  - f_equal. apply IH. tauto.
Qed.

Lemma JsMap_set_absent k v m :
  JsMap.has k m = false -> JsMap.set k v m = m ++ [(k, v)].
Proof. unfold JsMap.set. now intros ->. Qed.

Lemma JsMap_delete_set_absent k v m :
  JsMap.has k m = false -> JsMap.delete k (JsMap.set k v m) = m.
Proof.
  intros H. rewrite (JsMap_set_absent _ _ _ H).
  unfold JsMap.delete. rewrite List.filter_app. simpl.
  rewrite String.eqb_refl. simpl. rewrite app_nil_r.
  now apply JsMap_delete_absent.
Qed.

Lemma JsMap_get_replace k v m :
  JsMap.has k m = true -> JsMap.get k (JsMap.replace k v m) = Some v.
Proof.
  unfold JsMap.has.
  induction m as [|[k' v'] m IH]; simpl; [discriminate|].
  destruct (String.eqb_spec k' k) as [->|Hne]; simpl.
  - now rewrite String.eqb_refl.
  - intros H. apply String.eqb_neq in Hne. rewrite Hne. now apply IH.
Qed.

Lemma JsMap_get_app_absent k v m :
  JsMap.get k m = None -> JsMap.get k (m ++ [(k, v)]) = Some v.
Proof.
  induction m as [|[k' v'] m IH]; simpl.
  - now rewrite String.eqb_refl.
  - destruct (String.eqb k' k); [discriminate | exact IH].
Qed.

Lemma JsMap_get_set k v m : JsMap.get k (JsMap.set k v m) = Some v.
Proof.
  unfold JsMap.set. destruct (JsMap.has k m) eqn:H.
  - now apply JsMap_get_replace.
  - apply JsMap_get_app_absent. unfold JsMap.has in H.
    destruct (JsMap.get k m); [discriminate | reflexivity].
Qed.

Lemma JsMap_get_in k v m : JsMap.get k m = Some v -> In (k, v) m.
Proof.
  induction m as [|[k' v'] m IH]; simpl; [discriminate|].
  destruct (String.eqb_spec k' k) as [->|Hne].
  - intros [= ->]. now left.
  - intros H. right. now apply IH.
Qed.

Lemma JsMap_in_values k v m : In (k, v) m -> In v (JsMap.values m).
Proof. intros H. unfold JsMap.values. now apply (in_map snd) in H. Qed.

Lemma JsMap_in_set k v m : In v (JsMap.values (JsMap.set k v m)).
Proof.
  apply (JsMap_in_values k). apply JsMap_get_in, JsMap_get_set.
Qed.

End JsMapFacts.

Lemma JsArray_pop_push {A : Type} (l : list A) (a : A) :
  JsArray.pop (JsArray.push l a) = (Some a, l).
Proof.
  unfold JsArray.pop, JsArray.push. rewrite rev_app_distr. simpl.
  now rewrite rev_involutive.
Qed.

Lemma JsArray_pop_snoc {A : Type} (l : list A) (a : A) :
  JsArray.pop (l ++ [a]) = (Some a, l).
Proof. exact (JsArray_pop_push l a). Qed.

Lemma JsArray_pop_empty {A : Type} : JsArray.pop (@nil A) = (None, []).
Proof. reflexivity. Qed.

(** ** Removing an agent *)

Lemma involves_false agentId c :
  FlowDiagram.involves agentId c = false <->
  AgentConnection.sourceId c <> agentId /\ AgentConnection.targetId c <> agentId.
Proof.
  unfold FlowDiagram.involves. rewrite orb_false_iff.
  now rewrite !String.eqb_neq.
Qed.

(** The [forEach] of [removeAgent], started on any live map: an entry
    survives when no visited entry under the same key involves the agent. *)
Lemma forEach_delete_in agentId (visited live : JsMap.t AgentConnection.t) e :
  In e (fold_left
          (fun live entry =>
             if FlowDiagram.involves agentId (snd entry)
             then JsMap.delete (fst entry) live else live)
          visited live)
  <-> In e live
      /\ forall e', In e' visited ->
                    FlowDiagram.involves agentId (snd e') = true ->
                    fst e' <> fst e.
Proof.
  revert live. induction visited as [|a visited IH]; intros live; simpl.
  - split; [intros H; split; [exact H | tauto] | tauto].
  - rewrite IH. destruct (FlowDiagram.involves agentId (snd a)) eqn:Ha.
    + rewrite JsMap_in_delete. split.
      * intros [[Hin Hne] Hrest]. split; [exact Hin|].
        intros e' [<-|He'] Hinv; [congruence | now apply Hrest].
      * intros [Hin Hall]. repeat split; [exact Hin | | ].
        -- intros E. apply (Hall a); [now left | exact Ha | now symmetry].
        -- intros e' He'. apply Hall. now right.
    + split.
      * intros [Hin Hrest]. split; [exact Hin|].
        intros e' [<-|He'] Hinv; [congruence | now apply Hrest].
      * intros [Hin Hall]. split; [exact Hin|].
        intros e' He'. apply Hall. now right.
Qed.

Lemma removeConnectionsOf_sound agentId conns e :
  In e (FlowDiagram.removeConnectionsOf agentId conns) ->
  In e conns /\ FlowDiagram.involves agentId (snd e) = false.
Proof.
  unfold FlowDiagram.removeConnectionsOf. rewrite forEach_delete_in.
  intros [Hin Hall]. split; [exact Hin|].
  destruct (FlowDiagram.involves agentId (snd e)) eqn:He; [|reflexivity].
  exfalso. now apply (Hall e).
Qed.

Lemma NoDup_keys_unique {V : Type} (m : JsMap.t V) e e' :
  JsMap.wf m -> In e m -> In e' m -> fst e = fst e' -> e = e'.
Proof.
  unfold JsMap.wf, JsMap.keys.
  induction m as [|a m IH]; simpl; [tauto|].
  intros Hnd. apply List.NoDup_cons_iff in Hnd as [Hnotin Hnd].
  intros [<-|He] [<-|He'] Hk.
  - reflexivity.
  - exfalso. apply Hnotin. rewrite Hk. now apply in_map.
  - exfalso. apply Hnotin. rewrite <- Hk. now apply in_map.
  - now apply IH.
Qed.

(** On a map (keys occur once) the cascade removes the incident edges and
    nothing else. *)
Lemma removeConnectionsOf_exact agentId conns e :
  JsMap.wf conns ->
  In e (FlowDiagram.removeConnectionsOf agentId conns) <->
  In e conns /\ FlowDiagram.involves agentId (snd e) = false.
Proof.
  intros Hwf. split; [apply removeConnectionsOf_sound|].
  intros [Hin Hinv]. unfold FlowDiagram.removeConnectionsOf.
  rewrite forEach_delete_in. split; [exact Hin|].
  intros e' He' Hinv' Hk.
  assert (e' = e) by now apply (NoDup_keys_unique conns).
  congruence.
Qed.

Lemma JsMap_has_delete {V : Type} k (m : JsMap.t V) :
  JsMap.has k (JsMap.delete k m) = false.
Proof.
  rewrite JsMap_has_false. unfold JsMap.keys. rewrite in_map_iff.
  intros [e [Hk He]]. apply JsMap_in_delete in He. tauto.
Qed.

Lemma in_values_iff {V : Type} (m : JsMap.t V) v :
  In v (JsMap.values m) <-> exists k, In (k, v) m.
Proof.
  unfold JsMap.values. rewrite in_map_iff. split.
  - intros [[k v'] [<- H]]. now exists k.
  - intros [k H]. now exists (k, v).
Qed.

(** C1, as the code has it.  For the id of a live agent, [removeAgent]
    leaves no connection whose [sourceId] or [targetId] is that id, the
    agent is gone, and a selection that referenced it is cleared (any other
    selection is kept).  For an id that names no live agent the call
    returns at its guard and changes nothing, connections that mention the
    id included. *)
Theorem removeAgent_cascades (d : FlowDiagram.t) (agentId : string) :
  (Graph.live agentId d = true ->
   (forall c,
       In c (JsMap.values (FlowDiagram.connections
                             (FlowDiagram.removeAgent agentId d))) ->
       AgentConnection.sourceId c <> agentId
       /\ AgentConnection.targetId c <> agentId)
   /\ Graph.live agentId (FlowDiagram.removeAgent agentId d) = false
   /\ (FlowDiagram.selectedAgent d = Some agentId ->
       FlowDiagram.selectedAgent (FlowDiagram.removeAgent agentId d) = None)
   /\ (forall s, FlowDiagram.selectedAgent d = Some s -> s <> agentId ->
       FlowDiagram.selectedAgent (FlowDiagram.removeAgent agentId d) = Some s))
  /\ (Graph.live agentId d = false -> FlowDiagram.removeAgent agentId d = d).
Proof.
  unfold Graph.live, JsMap.has, FlowDiagram.removeAgent.
  destruct (JsMap.get agentId (FlowDiagram.agents d)) as [agent|] eqn:Hget.
  2:{ split; [discriminate | reflexivity]. }
  split; [intros _ | discriminate].
  assert (Hconn : forall c,
    In c (JsMap.values (FlowDiagram.removeConnectionsOf agentId
                          (FlowDiagram.connections d))) ->
    AgentConnection.sourceId c <> agentId
    /\ AgentConnection.targetId c <> agentId).
  { intros c Hc. apply in_values_iff in Hc as [k Hk].
    apply removeConnectionsOf_sound in Hk as [_ Hinv].
    now apply involves_false in Hinv. }
  assert (Hgone : JsMap.get agentId
                    (JsMap.delete agentId (FlowDiagram.agents d)) = None).
  { pose proof (JsMap_has_delete agentId (FlowDiagram.agents d)) as H.
    unfold JsMap.has in H.
    destruct (JsMap.get agentId (JsMap.delete agentId (FlowDiagram.agents d)));
      [discriminate | reflexivity]. }
  simpl. destruct (FlowDiagram.selectedAgent d) as [s|] eqn:Hsel; simpl.
  - destruct (String.eqb_spec s agentId) as [->|Hne]; simpl; rewrite Hgone;
      (split; [exact Hconn | split; [reflexivity | split]]).
    + reflexivity.
    + intros s' [= <-] Hs'. congruence.
    + congruence.
    + intros s' [= <-] _. exact Hsel.
  - rewrite Hgone. split; [exact Hconn | split; [reflexivity | split]];
      [discriminate | intros s; discriminate].
Qed.

Lemma removeAgent_cascades_witness :
  Graph.live Scenario.P1 Scenario.threeCycle = true
  /\ Graph.live Scenario.P1
       (FlowDiagram.removeAgent Scenario.P1 Scenario.threeCycle) = false
  /\ Graph.live "ghost-a" Scenario.ghostEdge = false
  /\ FlowDiagram.removeAgent "ghost-a" Scenario.ghostEdge = Scenario.ghostEdge.
Proof.
  destruct (removeAgent_cascades Scenario.threeCycle Scenario.P1) as [H1 _].
  destruct (removeAgent_cascades Scenario.ghostEdge "ghost-a") as [_ H2].
  assert (L1 : Graph.live Scenario.P1 Scenario.threeCycle = true)
    by (vm_compute; reflexivity).
  assert (L2 : Graph.live "ghost-a" Scenario.ghostEdge = false)
    by (vm_compute; reflexivity).
  split; [exact L1|]. split; [exact (proj1 (proj2 (H1 L1)))|].
  split; [exact L2 | exact (H2 L2)].
Defined.

(** C1 as stated fails for an id that names no live agent: the connection
    made between two such ids is still there after [removeAgent]. *)
Lemma removeAgent_unknown_keeps_edge :
  Graph.live "ghost-a" Scenario.ghostEdge = false
  /\ exists c,
       In c (JsMap.values (FlowDiagram.connections
                             (FlowDiagram.removeAgent "ghost-a"
                                Scenario.ghostEdge)))
       /\ AgentConnection.sourceId c = "ghost-a".
Proof.
  split; [vm_compute; reflexivity|].
  assert (H : existsb
            (fun c => String.eqb (AgentConnection.sourceId c) "ghost-a")
            (JsMap.values (FlowDiagram.connections
                             (FlowDiagram.removeAgent "ghost-a"
                                Scenario.ghostEdge))) = true)
    by (vm_compute; reflexivity).
  apply existsb_exists in H as [c [Hin Hc]]. exists c.
  split; [exact Hin | now apply String.eqb_eq].
Qed.

(** ** Cycle detection *)

Lemma size_list_to_set_le (l : list string) :
  size (list_to_set l : gset string) <= length l.
Proof.
  induction l as [|a l IH].
  - rewrite list_to_set_nil, size_empty. simpl. lia.
  - rewrite list_to_set_cons, size_union_alt, size_singleton. simpl.
    assert (size (list_to_set l ∖ {[a]} : gset string)
            <= size (list_to_set l : gset string))
      by (apply subseteq_size; set_solver).
    lia.
Qed.

Section CycleSearch.
Variable conns : list AgentConnection.t.
Variable U : gset string.
Hypothesis targets_in_U :
  forall c, In c conns -> AgentConnection.targetId c ∈ U.

(** With fuel above the number of ids not yet visited, [hasCycle] returns;
    its verdict is [true] exactly when the id it is called on is on the
    recursion stack at that moment, and it hands the recursion stack back
    as it found it. *)
Lemma hasCycle_returns (fuel : nat) :
  forall agentId (m : FlowDiagram.Marks),
    agentId ∈ U ->
    size (U ∖ fst m) < fuel ->
    exists visited',
      FlowDiagram.hasCycle fuel conns agentId m
      = Some (bool_decide (agentId ∈ snd m), (visited', snd m))
      /\ fst m ⊆ visited'.
Proof.
  induction fuel as [|fuel IH]; intros agentId [visited stack] HU Hsize;
    [lia|].
  simpl in *. case_bool_decide as Hstack.
  { exists visited. split; [reflexivity | set_solver]. }
  case_bool_decide as Hvis.
  { exists visited. split; [reflexivity | set_solver]. }
  set (callback := fun (connection : AgentConnection.t) (m : FlowDiagram.Marks) =>
         if String.eqb (AgentConnection.sourceId connection) agentId
         then FlowDiagram.hasCycle fuel conns
                (AgentConnection.targetId connection) m
         else Some (false, m)).
  assert (Hloop : forall cs (m : FlowDiagram.Marks),
             (forall c, In c cs -> AgentConnection.targetId c ∈ U) ->
             size (U ∖ fst m) < fuel ->
             exists visited',
               JsArray.forEach callback cs m = Some (visited', snd m)
               /\ fst m ⊆ visited').
  { induction cs as [|c cs IHcs]; intros [v s] Hcs Hsz; simpl in *.
    - exists v. split; [reflexivity | set_solver].
    - unfold callback at 1.
      destruct (String.eqb (AgentConnection.sourceId c) agentId).
      + destruct (IH (AgentConnection.targetId c) (v, s)) as [v1 [E1 S1]];
          [apply Hcs; now left | exact Hsz |].
        rewrite E1. simpl in *.
        destruct (IHcs (v1, s)) as [v2 [E2 S2]].
        * intros c' Hc'. apply Hcs. now right.
        * simpl. assert (size (U ∖ v1) <= size (U ∖ v))
            by (apply subseteq_size; set_solver). lia.
        * exists v2. split; [exact E2 | simpl in *; set_solver].
      + destruct (IHcs (v, s)) as [v2 [E2 S2]].
        * intros c' Hc'. apply Hcs. now right.
        * exact Hsz.
        * exists v2. split; [exact E2 | exact S2]. }
  destruct (Hloop conns (visited ∪ {[agentId]}, stack ∪ {[agentId]}))
    as [v' [E S']].
  - exact targets_in_U.
  - simpl. assert (size (U ∖ (visited ∪ {[agentId]})) < size (U ∖ visited))
      by (apply subset_size; set_solver). lia.
  - rewrite E. simpl in *. exists v'. split; [|set_solver].
    do 3 f_equal. set_solver.
Qed.

Lemma checkEachAgent_false (fuel : nat) (agentIds : list string) :
  forall visited : gset string,
    (forall a, In a agentIds -> a ∈ U) ->
    size (U ∖ visited) < fuel ->
    FlowDiagram.checkEachAgent fuel conns agentIds (visited, ∅) = Some false.
Proof.
  induction agentIds as [|a rest IH]; intros visited Hin Hsize; simpl;
    [reflexivity|].
  destruct (hasCycle_returns fuel a (visited, ∅)) as [v' [E S']];
    [apply Hin; now left | exact Hsize |].
  rewrite E. simpl in *.
  rewrite bool_decide_eq_false_2 by set_solver.
  apply IH.
  - intros a' Ha'. apply Hin. now right.
  - assert (size (U ∖ v') <= size (U ∖ visited))
      by (apply subseteq_size; set_solver). lia.
Qed.

End CycleSearch.

(** [detectCircularLoops] always returns, and what it returns is [false]:
    every top-level call of [hasCycle] starts with an empty recursion
    stack, and the verdicts of the nested calls are dropped by [forEach]. *)
Lemma detectCircularLoops_returns (d : FlowDiagram.t) :
  FlowDiagram.detectCircularLoops d = Some false.
Proof.
  unfold FlowDiagram.detectCircularLoops, FlowDiagram.recursionBound.
  set (conns := JsMap.values (FlowDiagram.connections d)).
  set (ids := JsMap.keys (FlowDiagram.agents d)).
  apply (checkEachAgent_false conns
           (list_to_set ids ∪ list_to_set (map AgentConnection.targetId conns))).
  - intros c Hc. apply elem_of_union_r, elem_of_list_to_set, list_elem_of_In.
    now apply in_map.
  - intros a Ha. apply elem_of_union_l, elem_of_list_to_set, list_elem_of_In.
    exact Ha.
  - pose proof (size_list_to_set_le ids) as H1.
    pose proof (size_list_to_set_le (map AgentConnection.targetId conns)) as H2.
    set (A := list_to_set ids : gset string) in *.
    set (B := list_to_set (map AgentConnection.targetId conns) : gset string) in *.
    assert (size ((A ∪ B) ∖ ∅) <= size A + size B).
    { transitivity (size (A ∪ B)); [apply subseteq_size; set_solver|].
      rewrite size_union_alt.
      assert (size (B ∖ A) <= size B) by (apply subseteq_size; set_solver).
      lia. }
    unfold ids, conns, JsMap.keys, JsMap.values in *.
    rewrite !length_map in *. lia.
Qed.

Lemma findConnection_some a b conns c :
  FlowDiagram.findConnection a b conns = Some c ->
  In c (JsMap.values conns)
  /\ AgentConnection.sourceId c = a /\ AgentConnection.targetId c = b.
Proof.
  unfold FlowDiagram.findConnection. intros H.
  apply find_some in H as [Hin H]. apply andb_true_iff in H as [H1 H2].
  rewrite String.eqb_eq in H1, H2. auto.
Qed.

Lemma findConnection_none a b (d : FlowDiagram.t) :
  FlowDiagram.findConnection a b (FlowDiagram.connections d) = None <->
  ~ Graph.edge a b d.
Proof.
  unfold Graph.edge. split.
  - intros H [c [Hin [H1 H2]]].
    pose proof (find_none _ _ H c Hin) as Hc. simpl in Hc.
    rewrite H1, H2, !String.eqb_refl in Hc. discriminate.
  - intros H.
    destruct (FlowDiagram.findConnection a b (FlowDiagram.connections d))
      as [c|] eqn:E; [|reflexivity].
    exfalso. apply H. exists c. now apply findConnection_some.
Qed.

Lemma edge_by_find a b (d : FlowDiagram.t) :
  match FlowDiagram.findConnection a b (FlowDiagram.connections d) with
  | Some _ => true
  | None => false
  end = true ->
  Graph.edge a b d.
Proof.
  destruct (FlowDiagram.findConnection a b (FlowDiagram.connections d))
    as [c|] eqn:E; [intros _ | discriminate].
  exists c. now apply findConnection_some.
Qed.

(** C2, the code at a 3-cycle.  The started session with the connections
    P1 -> E1, E1 -> V1 and V1 -> P1 holds a directed cycle and satisfies
    the role policy, yet [validateFlow] reports no error and
    [isValid = true]; and whatever the diagram, [detectCircularLoops]
    answers [false]. *)
Theorem validateFlow_misses_three_cycle :
  Graph.edge Scenario.P1 Scenario.E1 Scenario.threeCycle
  /\ Graph.edge Scenario.E1 Scenario.V1 Scenario.threeCycle
  /\ Graph.edge Scenario.V1 Scenario.P1 Scenario.threeCycle
  /\ FlowDiagram.validateFlow Scenario.threeCycle
     = Some {| Validation.isValid := true;
               Validation.errors := [];
               Validation.warnings := [] |}
  /\ forall d, FlowDiagram.detectCircularLoops d = Some false.
Proof.
  split; [|split; [|split; [|split]]].
  - apply edge_by_find. vm_compute. reflexivity.
  - apply edge_by_find. vm_compute. reflexivity.
  - apply edge_by_find. vm_compute. reflexivity.
  - vm_compute. reflexivity.
  - exact detectCircularLoops_returns.
Qed.

(** ** Validation: warnings and role checks *)

Lemma fold_left_push {A B : Type} (skip : A -> bool) (f : A -> B)
    (l : list A) (acc : list B) :
  fold_left (fun w a => if skip a then w else w ++ [f a]) l acc
  = acc ++ map f (List.filter (fun a => negb (skip a)) l).
Proof.
  revert acc. induction l as [|a l IH]; intros acc; simpl.
  - now rewrite app_nil_r.
  - rewrite IH. destruct (skip a); simpl; [reflexivity|].
    now rewrite <- app_assoc.
Qed.

Lemma connectedAgents_fold (l : list AgentConnection.t) (acc : gset string) x :
  x ∈ fold_left
        (fun s connection =>
           s ∪ {[AgentConnection.sourceId connection]}
             ∪ {[AgentConnection.targetId connection]})
        l acc
  <-> x ∈ acc
      \/ exists c, In c l
           /\ (AgentConnection.sourceId c = x \/ AgentConnection.targetId c = x).
Proof.
  revert acc. induction l as [|c l IH]; intros acc; simpl.
  - split; [now left | intros [H|[c [[] _]]]; exact H].
  - rewrite IH. rewrite !elem_of_union, !elem_of_singleton. split.
    + intros [[[H|H]|H]|[c' [Hc' H]]].
      * now left.
      * right. exists c. split; [now left | now left].
      * right. exists c. split; [now left | now right].
      * right. exists c'. split; [now right | exact H].
    + intros [H|[c' [[<-|Hc'] H]]].
      * left. now left; left.
      * destruct H as [H|H]; left; [left; right | right]; now symmetry.
      * right. exists c'. split; assumption.
Qed.

(** [connectedAgents.has(agent.id)] fails exactly on the isolated agents. *)
Lemma connected_isolated (d : FlowDiagram.t) (a : AgentNode.t) :
  negb (bool_decide
          (AgentNode.id a ∈ FlowDiagram.connectedAgents (FlowDiagram.connections d)))
  = Graph.isolated a d.
Proof.
  unfold FlowDiagram.connectedAgents, Graph.isolated.
  set (l := JsMap.values (FlowDiagram.connections d)).
  destruct (forallb _ l) eqn:Hall.
  - rewrite forallb_forall in Hall.
    apply negb_true_iff, bool_decide_eq_false_2.
    rewrite connectedAgents_fold. intros [H|[c [Hc H]]]; [set_solver|].
    specialize (Hall c Hc). apply andb_true_iff in Hall as [H1 H2].
    apply negb_true_iff, String.eqb_neq in H1.
    apply negb_true_iff, String.eqb_neq in H2. tauto.
  - apply negb_false_iff, bool_decide_eq_true_2.
    rewrite connectedAgents_fold. right.
    assert (Hex : existsb
              (fun c => String.eqb (AgentConnection.sourceId c) (AgentNode.id a)
                        || String.eqb (AgentConnection.targetId c) (AgentNode.id a))
              l = true).
    { clear -Hall. induction l as [|c l IH]; simpl in *; [discriminate|].
      destruct (String.eqb (AgentConnection.sourceId c) (AgentNode.id a)),
               (String.eqb (AgentConnection.targetId c) (AgentNode.id a));
        simpl in *; auto. }
    apply existsb_exists in Hex as [c [Hc H]]. exists c. split; [exact Hc|].
    apply orb_true_iff in H. now rewrite !String.eqb_eq in H.
Qed.

(** [validateFlow] always returns: the cycle search does, and the result
    is assembled from the warnings and the three error checks. *)
Lemma validateFlow_returns (d : FlowDiagram.t) :
  exists r,
    FlowDiagram.validateFlow d = Some r
    /\ Validation.warnings r
       = fold_left
           (fun warnings agent =>
              if bool_decide
                   (AgentNode.id agent
                    ∈ FlowDiagram.connectedAgents (FlowDiagram.connections d))
              then warnings
              else warnings ++ [FlowDiagram.notConnected agent])
           (JsMap.values (FlowDiagram.agents d)) []
    /\ Validation.isValid r = Nat.eqb (length (Validation.errors r)) 0
    /\ (FlowDiagram.countType "planner" d = 0%nat ->
        In "Missing Planner agent" (Validation.errors r))
    /\ (FlowDiagram.countType "executor" d = 0%nat ->
        In "Missing Executor agent" (Validation.errors r)).
Proof.
  unfold FlowDiagram.validateFlow. rewrite detectCircularLoops_returns.
  eexists. split; [reflexivity|]. simpl.
  split; [reflexivity | split; [reflexivity | split]].
  - intros ->. simpl.
    destruct (FlowDiagram.countType "executor" d =? 0)%nat; simpl; now left.
  - intros ->. simpl. apply in_or_app. right. now left.
Qed.

(** The errors, and with them the verdict, are those of the agents alone:
    other connections give the same ones. *)
Lemma validateFlow_errors_of_agents (conns : JsMap.t AgentConnection.t)
    (d : FlowDiagram.t) :
  exists r r',
    FlowDiagram.validateFlow d = Some r
    /\ FlowDiagram.validateFlow (FlowDiagram.set_connections conns d) = Some r'
    /\ Validation.errors r' = Validation.errors r
    /\ Validation.isValid r' = Validation.isValid r.
Proof.
  unfold FlowDiagram.validateFlow. rewrite !detectCircularLoops_returns.
  eexists. eexists. split; [reflexivity|]. split; [reflexivity|].
  split; reflexivity.
Qed.

(** C8.  [validateFlow] always returns a result.  Its warnings are, in
    iteration order, exactly one message for each agent with no incident
    connection (incoming or outgoing) and nothing else, and the message
    is [Agent "<name>" is not connected], the name between double quotes.
    [isValid] is [errors.length === 0], and the warnings never affect it:
    two results with the same errors have the same verdict whatever
    their warnings, and replacing the connections by any others, which
    changes who is warned about, leaves the errors and the verdict. *)
Theorem validateFlow_warnings_and_validity (d : FlowDiagram.t) :
  exists r,
    FlowDiagram.validateFlow d = Some r
    /\ Validation.warnings r
       = map (fun a =>
                "Agent " +:+ String "034"%char EmptyString
                +:+ AgentNode.name a
                +:+ String "034"%char EmptyString +:+ " is not connected")
           (List.filter (fun a => Graph.isolated a d)
              (JsMap.values (FlowDiagram.agents d)))
    /\ Validation.isValid r = Nat.eqb (length (Validation.errors r)) 0
    /\ (forall d' r',
          FlowDiagram.validateFlow d' = Some r' ->
          Validation.errors r' = Validation.errors r ->
          Validation.isValid r' = Validation.isValid r)
    /\ (forall conns,
          exists r',
            FlowDiagram.validateFlow (FlowDiagram.set_connections conns d)
            = Some r'
            /\ Validation.errors r' = Validation.errors r
            /\ Validation.isValid r' = Validation.isValid r).
Proof.
  destruct (validateFlow_returns d) as [r [E [W [V _]]]].
  exists r. split; [exact E|]. split; [|split; [exact V|split]].
  - rewrite W.
    (* pushing a message for the agents that are not skipped is mapping
       over the filtered list *)
    rewrite (fold_left_push
               (fun agent =>
                  bool_decide
                    (AgentNode.id agent
                     ∈ FlowDiagram.connectedAgents (FlowDiagram.connections d)))
               FlowDiagram.notConnected).
    simpl. f_equal. apply filter_ext.
    (* the agents not in [connectedAgents] are the isolated ones *)
    intros a. apply connected_isolated.
  - intros d' r' E' Herr.
    destruct (validateFlow_returns d') as [r'' [E'' [_ [V' _]]]].
    rewrite E' in E''. injection E'' as <-.
    rewrite V, V', Herr. reflexivity.
  - intros conns.
    destruct (validateFlow_errors_of_agents conns d)
      as [r0 [r' [E0 [E' [Herr Hval]]]]].
    rewrite E in E0. injection E0 as <-.
    exists r'. split; [exact E' | split; [exact Herr | exact Hval]].
Qed.

Lemma countType_none (type : string) (d : FlowDiagram.t) :
  (forall a, In a (JsMap.values (FlowDiagram.agents d)) ->
             AgentNode.type a <> type) ->
  FlowDiagram.countType type d = 0%nat.
Proof.
  unfold FlowDiagram.countType.
  induction (JsMap.values (FlowDiagram.agents d)) as [|a l IH]; intros H;
    simpl; [reflexivity|].
  destruct (String.eqb_spec (AgentNode.type a) type) as [E|_].
  - exfalso. apply (H a); [now left | exact E].
  - apply IH. intros a' Ha'. apply H. now right.
Qed.

Lemma no_agent_of_type (type : string) (d : FlowDiagram.t) :
  forallb (fun a => negb (String.eqb (AgentNode.type a) type))
    (JsMap.values (FlowDiagram.agents d)) = true ->
  forall a, In a (JsMap.values (FlowDiagram.agents d)) ->
            AgentNode.type a <> type.
Proof.
  intros H a Ha. rewrite forallb_forall in H. specialize (H a Ha).
  now apply negb_true_iff, String.eqb_neq in H.
Qed.

(** C9, as the code words it.  When no agent has type [planner] and none
    has type [executor], [validateFlow] returns a result whose errors
    contain ["Missing Planner agent"] and ["Missing Executor agent"], and
    [isValid] is [false]. *)
Theorem validateFlow_missing_roles (d : FlowDiagram.t) :
  (forall a, In a (JsMap.values (FlowDiagram.agents d)) ->
             AgentNode.type a <> "planner") ->
  (forall a, In a (JsMap.values (FlowDiagram.agents d)) ->
             AgentNode.type a <> "executor") ->
  exists r,
    FlowDiagram.validateFlow d = Some r
    /\ In "Missing Planner agent" (Validation.errors r)
    /\ In "Missing Executor agent" (Validation.errors r)
    /\ Validation.isValid r = false.
Proof.
  intros Hp He.
  destruct (validateFlow_returns d) as [r [E [_ [V [P X]]]]].
  specialize (P (countType_none _ _ Hp)).
  specialize (X (countType_none _ _ He)).
  exists r. repeat split; try assumption.
  rewrite V. destruct (Validation.errors r); [destruct P | reflexivity].
Qed.

Lemma validateFlow_missing_roles_witness :
  exists r,
    FlowDiagram.validateFlow
      (FlowDiagram.removeAgent Scenario.E1
         (FlowDiagram.removeAgent Scenario.P1 Scenario.started)) = Some r
    /\ In "Missing Planner agent" (Validation.errors r)
    /\ In "Missing Executor agent" (Validation.errors r)
    /\ Validation.isValid r = false.
Proof.
  apply validateFlow_missing_roles; apply no_agent_of_type;
    vm_compute; reflexivity.
Defined.

(** C9 as stated fails on scenario 10 of the specification (P1 and E1
    removed from the started session): neither ["Missing planner"] nor
    ["Missing executor"] is among the errors, nor part of any of them. *)
Lemma validateFlow_no_missing_role_text :
  forallb
    (fun a => negb (String.eqb (AgentNode.type a) "planner")
              && negb (String.eqb (AgentNode.type a) "executor"))
    (JsMap.values
       (FlowDiagram.agents
          (FlowDiagram.removeAgent Scenario.E1
             (FlowDiagram.removeAgent Scenario.P1 Scenario.started)))) = true
  /\ exists r,
    FlowDiagram.validateFlow
      (FlowDiagram.removeAgent Scenario.E1
         (FlowDiagram.removeAgent Scenario.P1 Scenario.started)) = Some r
    /\ ~ In "Missing planner" (Validation.errors r)
    /\ ~ In "Missing executor" (Validation.errors r)
    /\ forallb
         (fun e =>
            match String.index 0 "Missing planner" e,
                  String.index 0 "Missing executor" e with
            | None, None => true
            | _, _ => false
            end)
         (Validation.errors r) = true.
Proof.
  split; [vm_compute; reflexivity|].
  exists {| Validation.isValid := false;
            Validation.errors :=
              ["Missing Planner agent"; "Missing Executor agent"];
            Validation.warnings := [FlowDiagram.notConnected
               (AgentNode.new (Scenario.host 3) "evaluator" 250 300 None)] |}.
  split; [vm_compute; reflexivity|]. simpl.
  split; [|split]; [| |vm_compute; reflexivity];
    intros [H|[H|[]]]; discriminate.
Qed.

(** ** Creating connections *)

Lemma createConnection_reject h a b kind (d : FlowDiagram.t) :
  a = b \/ Graph.edge a b d ->
  fst (FlowDiagram.createConnection h a b kind d) = None
  /\ FlowDiagram.connections (snd (FlowDiagram.createConnection h a b kind d))
     = FlowDiagram.connections d.
Proof.
  intros H. unfold FlowDiagram.createConnection.
  destruct (String.eqb_spec a b) as [_|Hne]; [now split|].
  destruct H as [H|H]; [contradiction|].
  destruct (FlowDiagram.findConnection a b (FlowDiagram.connections d)) eqn:E;
    [now split|].
  apply findConnection_none in E. contradiction.
Qed.

Lemma createConnection_accept h a b kind (d : FlowDiagram.t) :
  a <> b -> ~ Graph.edge a b d ->
  FlowDiagram.createConnection h a b kind d
  = (Some (AgentConnection.new h a b kind),
     FlowDiagram.addToUndoStack
       (Action.mk "connection-created" (AgentConnection.new h a b kind))
       (FlowDiagram.set_connections
          (JsMap.set (AgentConnection.generateId h)
             (AgentConnection.new h a b kind) (FlowDiagram.connections d)) d)).
Proof.
  intros Hne Hedge. unfold FlowDiagram.createConnection.
  apply String.eqb_neq in Hne. rewrite Hne.
  apply findConnection_none in Hedge. now rewrite Hedge.
Qed.

Lemma edge_dec a b (d : FlowDiagram.t) : Graph.edge a b d \/ ~ Graph.edge a b d.
Proof.
  destruct (FlowDiagram.findConnection a b (FlowDiagram.connections d)) eqn:E.
  - left. exists t. now apply findConnection_some.
  - right. now apply findConnection_none.
Qed.

(** C4, as the code has it.  [createConnection] never looks at the agents.
    It returns [null] exactly when [sourceId === targetId] or a connection
    with the same source and target is present, and then the connections
    are unchanged; in every other case, whether or not the two ids name
    live agents, it returns the new connection, filed in the map under its
    id. *)
Theorem createConnection_ignores_liveness h a b kind (d : FlowDiagram.t) :
  (fst (FlowDiagram.createConnection h a b kind d) = None
   <-> a = b \/ Graph.edge a b d)
  /\ (fst (FlowDiagram.createConnection h a b kind d) = None ->
      FlowDiagram.connections (snd (FlowDiagram.createConnection h a b kind d))
      = FlowDiagram.connections d)
  /\ (fst (FlowDiagram.createConnection h a b kind d) <> None ->
      fst (FlowDiagram.createConnection h a b kind d)
      = Some (AgentConnection.new h a b kind)
      /\ FlowDiagram.connections (snd (FlowDiagram.createConnection h a b kind d))
         = JsMap.set (AgentConnection.generateId h)
             (AgentConnection.new h a b kind) (FlowDiagram.connections d))
  /\ (forall agents',
      fst (FlowDiagram.createConnection h a b kind
             (FlowDiagram.set_agents agents' d))
      = fst (FlowDiagram.createConnection h a b kind d)).
Proof.
  assert (Hagents : forall agents',
    fst (FlowDiagram.createConnection h a b kind
           (FlowDiagram.set_agents agents' d))
    = fst (FlowDiagram.createConnection h a b kind d)).
  { intros agents'. unfold FlowDiagram.createConnection. simpl.
    destruct (String.eqb a b); [reflexivity|].
    destruct (FlowDiagram.findConnection a b (FlowDiagram.connections d));
      reflexivity. }
  destruct (String.eqb_spec a b) as [Heq|Hne];
    [|destruct (edge_dec a b d) as [He|He]].
  1,2: assert (Hrej : a = b \/ Graph.edge a b d) by tauto;
       destruct (createConnection_reject h a b kind d Hrej) as [R1 R2];
       split; [tauto | split; [auto | split; [congruence | exact Hagents]]].
  pose proof (createConnection_accept h a b kind d Hne He) as Hacc.
  split; [|split; [|split; [|exact Hagents]]].
  - rewrite Hacc. simpl. split; [discriminate | tauto].
  - rewrite Hacc. discriminate.
  - intros _. rewrite Hacc. simpl. split; reflexivity.
Qed.

Lemma createConnection_ignores_liveness_witness :
  (Graph.live "ghost-a" FlowDiagram.constructor = false
   /\ fst (FlowDiagram.createConnection (Scenario.host 1) "ghost-a" "ghost-b"
             "data" FlowDiagram.constructor)
      = Some (AgentConnection.new (Scenario.host 1) "ghost-a" "ghost-b" "data"))
  /\ (fst (FlowDiagram.createConnection (Scenario.host 7) Scenario.P1
             Scenario.P1 "data" Scenario.started) = None
      /\ FlowDiagram.connections
           (snd (FlowDiagram.createConnection (Scenario.host 7) Scenario.P1
                   Scenario.P1 "data" Scenario.started))
         = FlowDiagram.connections Scenario.started).
Proof.
  split.
  - split; [reflexivity|].
    destruct (createConnection_ignores_liveness (Scenario.host 1) "ghost-a"
                "ghost-b" "data" FlowDiagram.constructor) as [_ [_ [H _]]].
    apply H. vm_compute. discriminate.
  - assert (Hnone : fst (FlowDiagram.createConnection (Scenario.host 7)
                           Scenario.P1 Scenario.P1 "data" Scenario.started)
                    = None) by (vm_compute; reflexivity).
    destruct (createConnection_ignores_liveness (Scenario.host 7) Scenario.P1
                Scenario.P1 "data" Scenario.started) as [_ [H _]].
    split; [exact Hnone | exact (H Hnone)].
Defined.

(** C4 as stated fails on the empty diagram: neither id names a live
    agent, and the call returns a connection and adds it. *)
Lemma createConnection_unknown_ids_accepted :
  Graph.live "ghost-a" FlowDiagram.constructor = false
  /\ Graph.live "ghost-b" FlowDiagram.constructor = false
  /\ fst (FlowDiagram.createConnection (Scenario.host 1) "ghost-a" "ghost-b"
            "data" FlowDiagram.constructor) <> None
  /\ FlowDiagram.connections
       (snd (FlowDiagram.createConnection (Scenario.host 1) "ghost-a"
               "ghost-b" "data" FlowDiagram.constructor))
     <> FlowDiagram.connections FlowDiagram.constructor.
Proof.
  split; [reflexivity|]. split; [reflexivity|].
  split; vm_compute; discriminate.
Qed.

Lemma edge_after_createConnection h a b kind (d : FlowDiagram.t) :
  a = b \/ Graph.edge a b (snd (FlowDiagram.createConnection h a b kind d)).
Proof.
  destruct (String.eqb_spec a b) as [Heq|Hne]; [now left | right].
  destruct (edge_dec a b d) as [He|He].
  - destruct (createConnection_reject h a b kind d (or_intror He)) as [_ R].
    unfold Graph.edge in *. now rewrite R.
  - rewrite (createConnection_accept h a b kind d Hne He). simpl.
    exists (AgentConnection.new h a b kind).
    split; [apply JsMap_in_set | split; reflexivity].
Qed.

(** C5.  A connection from an agent to itself is rejected with [null],
    whatever the id and the type; when a connection from [a] to [b] is
    present, another one is rejected whatever its type; in both cases the
    connections are untouched.  In particular the second of two calls
    [createConnection(a, b, _)] in a row is rejected and leaves the number
    of connections as the first call left it. *)
Theorem createConnection_rejects_self_and_duplicate
    h a b kind (d : FlowDiagram.t) :
  (fst (FlowDiagram.createConnection h a a kind d) = None
   /\ FlowDiagram.connections (snd (FlowDiagram.createConnection h a a kind d))
      = FlowDiagram.connections d)
  /\ (Graph.edge a b d ->
      fst (FlowDiagram.createConnection h a b kind d) = None
      /\ FlowDiagram.connections
           (snd (FlowDiagram.createConnection h a b kind d))
         = FlowDiagram.connections d)
  /\ (forall h' kind',
      fst (FlowDiagram.createConnection h' a b kind'
             (snd (FlowDiagram.createConnection h a b kind d))) = None
      /\ JsMap.size
           (FlowDiagram.connections
              (snd (FlowDiagram.createConnection h' a b kind'
                      (snd (FlowDiagram.createConnection h a b kind d)))))
         = JsMap.size
             (FlowDiagram.connections
                (snd (FlowDiagram.createConnection h a b kind d)))).
Proof.
  split; [|split].
  - apply createConnection_reject. now left.
  - intros He. apply createConnection_reject. now right.
  - intros h' kind'.
    destruct (createConnection_reject h' a b kind'
                (snd (FlowDiagram.createConnection h a b kind d))
                (edge_after_createConnection h a b kind d)) as [R1 R2].
    split; [exact R1 | now rewrite R2].
Qed.

Lemma createConnection_rejects_self_and_duplicate_witness :
  Graph.edge Scenario.P1 Scenario.E1 Scenario.threeCycle
  /\ fst (FlowDiagram.createConnection (Scenario.host 7) Scenario.P1
            Scenario.E1 "control" Scenario.threeCycle) = None
  /\ FlowDiagram.connections
       (snd (FlowDiagram.createConnection (Scenario.host 7) Scenario.P1
               Scenario.E1 "control" Scenario.threeCycle))
     = FlowDiagram.connections Scenario.threeCycle.
Proof.
  assert (He : Graph.edge Scenario.P1 Scenario.E1 Scenario.threeCycle)
    by (apply edge_by_find; vm_compute; reflexivity).
  split; [exact He|].
  destruct (createConnection_rejects_self_and_duplicate (Scenario.host 7)
              Scenario.P1 Scenario.E1 "control" Scenario.threeCycle)
    as [_ [H _]].
  exact (H He).
Defined.

(** ** Undo and redo *)

Lemma createConnection_success h a b kind (d d1 : FlowDiagram.t) c :
  FlowDiagram.createConnection h a b kind d = (Some c, d1) ->
  c = AgentConnection.new h a b kind
  /\ d1 = FlowDiagram.addToUndoStack (Action.mk "connection-created" c)
            (FlowDiagram.set_connections
               (JsMap.set (AgentConnection.id c) c (FlowDiagram.connections d))
               d).
Proof.
  unfold FlowDiagram.createConnection.
  destruct (String.eqb a b); [discriminate|].
  destruct (FlowDiagram.findConnection a b (FlowDiagram.connections d));
    [discriminate|].
  intros [= <- <-]. split; reflexivity.
Qed.

(** C7.  After a successful [createConnection], [undo] takes the key of
    the new connection, and no other entry, out of the connections, and
    [redo] files the same connection under the same id again.  When the
    generated id was not in use, [undo] gives back the connections as they
    were before the call and [redo] the whole state as it was after it.
    [undo] on an empty undo stack and [redo] on an empty redo stack change
    nothing, and [addToUndoStack] pushes the action and empties the redo
    stack. *)
Theorem undo_redo_createConnection h a b kind (d d1 : FlowDiagram.t) c :
  FlowDiagram.createConnection h a b kind d = (Some c, d1) ->
  (forall e, In e (FlowDiagram.connections (FlowDiagram.undo d1))
             <-> In e (FlowDiagram.connections d1)
                 /\ fst e <> AgentConnection.id c)
  /\ JsMap.get (AgentConnection.id c)
       (FlowDiagram.connections (FlowDiagram.redo (FlowDiagram.undo d1)))
     = Some c
  /\ (JsMap.has (AgentConnection.id c) (FlowDiagram.connections d) = false ->
      FlowDiagram.connections (FlowDiagram.undo d1) = FlowDiagram.connections d
      /\ FlowDiagram.redo (FlowDiagram.undo d1) = d1)
  /\ FlowDiagram.redoStack d1 = []
  /\ (forall d0, FlowDiagram.undo (FlowDiagram.set_undoStack [] d0)
                 = FlowDiagram.set_undoStack [] d0)
  /\ (forall d0, FlowDiagram.redo (FlowDiagram.set_redoStack [] d0)
                 = FlowDiagram.set_redoStack [] d0)
  /\ (forall action d0,
      FlowDiagram.redoStack (FlowDiagram.addToUndoStack action d0) = []
      /\ FlowDiagram.undoStack (FlowDiagram.addToUndoStack action d0)
         = FlowDiagram.undoStack d0 ++ [action]).
Proof.
  intros Hok. apply createConnection_success in Hok as [Hc ->].
  set (conns := FlowDiagram.connections d).
  set (k := AgentConnection.id c).
  assert (Hundo : FlowDiagram.connections
                    (FlowDiagram.undo
                       (FlowDiagram.addToUndoStack
                          (Action.mk "connection-created" c)
                          (FlowDiagram.set_connections (JsMap.set k c conns) d)))
                  = JsMap.delete k (JsMap.set k c conns)).
  { unfold FlowDiagram.undo. simpl. rewrite JsArray_pop_push. reflexivity. }
  assert (Hredo : FlowDiagram.redo
                    (FlowDiagram.undo
                       (FlowDiagram.addToUndoStack
                          (Action.mk "connection-created" c)
                          (FlowDiagram.set_connections (JsMap.set k c conns) d)))
                  = FlowDiagram.addToUndoStack
                      (Action.mk "connection-created" c)
                      (FlowDiagram.set_connections
                         (JsMap.set k c (JsMap.delete k (JsMap.set k c conns)))
                         d)).
  { unfold FlowDiagram.undo. simpl. rewrite JsArray_pop_push.
    unfold FlowDiagram.redo. simpl. rewrite ?JsArray_pop_push. reflexivity. }
  split; [|split; [|split; [|split; [|split; [|split]]]]].
  - intros e. rewrite Hundo. apply JsMap_in_delete.
  - rewrite Hredo. simpl. apply JsMap_get_set.
  - intros Hfresh. fold conns in Hfresh.
    rewrite Hundo, Hredo, (JsMap_delete_set_absent k c conns Hfresh).
    split; reflexivity.
  - reflexivity.
  - intros d0. reflexivity.
  - intros d0. reflexivity.
  - intros action d0. split; reflexivity.
Qed.

Lemma undo_redo_createConnection_witness :
  JsMap.get
    (AgentConnection.id
       (AgentConnection.new (Scenario.host 4) Scenario.P1 Scenario.E1 "data"))
    (FlowDiagram.connections
       (FlowDiagram.redo
          (FlowDiagram.undo
             (snd (FlowDiagram.createConnection (Scenario.host 4) Scenario.P1
                     Scenario.E1 "data" Scenario.started)))))
  = Some (AgentConnection.new (Scenario.host 4) Scenario.P1 Scenario.E1 "data")
  /\ FlowDiagram.connections
       (FlowDiagram.undo
          (snd (FlowDiagram.createConnection (Scenario.host 4) Scenario.P1
                  Scenario.E1 "data" Scenario.started)))
     = FlowDiagram.connections Scenario.started
  /\ FlowDiagram.redo
       (FlowDiagram.undo
          (snd (FlowDiagram.createConnection (Scenario.host 4) Scenario.P1
                  Scenario.E1 "data" Scenario.started)))
     = snd (FlowDiagram.createConnection (Scenario.host 4) Scenario.P1
              Scenario.E1 "data" Scenario.started).
Proof.
  assert (Hok : FlowDiagram.createConnection (Scenario.host 4) Scenario.P1
                  Scenario.E1 "data" Scenario.started
                = (Some (AgentConnection.new (Scenario.host 4) Scenario.P1
                           Scenario.E1 "data"),
                   snd (FlowDiagram.createConnection (Scenario.host 4)
                          Scenario.P1 Scenario.E1 "data" Scenario.started)))
    by (vm_compute; reflexivity).
  assert (Hfresh : JsMap.has
                     (AgentConnection.id
                        (AgentConnection.new (Scenario.host 4) Scenario.P1
                           Scenario.E1 "data"))
                     (FlowDiagram.connections Scenario.started) = false)
    by (vm_compute; reflexivity).
  destruct (undo_redo_createConnection _ _ _ _ _ _ _ Hok)
    as [_ [Hget [Hrestore _]]].
  split; [exact Hget | exact (Hrestore Hfresh)].
Defined.

(** C10.  [undo] of a ["connection-removed"] entry and [redo] of a
    ["connection-created"] entry file the stored connection under its id
    without looking at the agents.  In the started session, connecting P1
    to E1, removing P1 (which takes the connection away), then [undo] and
    [redo], leaves a connection whose source names no live agent. *)
Theorem undo_redo_reinsert_unchecked :
  (forall (d : FlowDiagram.t) c rest,
      FlowDiagram.connections
        (FlowDiagram.undo
           (FlowDiagram.set_undoStack
              (rest ++ [Action.mk "connection-removed" c]) d))
      = JsMap.set (AgentConnection.id c) c (FlowDiagram.connections d))
  /\ (forall (d : FlowDiagram.t) c rest,
      FlowDiagram.connections
        (FlowDiagram.redo
           (FlowDiagram.set_redoStack
              (rest ++ [Action.mk "connection-created" c]) d))
      = JsMap.set (AgentConnection.id c) c (FlowDiagram.connections d))
  /\ FlowDiagram.connections
       (FlowDiagram.removeAgent Scenario.P1
          (Scenario.connect 4 Scenario.P1 Scenario.E1 Scenario.started)) = []
  /\ exists c,
       In c (JsMap.values (FlowDiagram.connections Scenario.resurrected))
       /\ AgentConnection.sourceId c = Scenario.P1
       /\ Graph.live (AgentConnection.sourceId c) Scenario.resurrected = false.
Proof.
  split; [|split; [|split]].
  - intros d c rest. unfold FlowDiagram.undo. simpl.
    rewrite JsArray_pop_snoc. reflexivity.
  - intros d c rest. unfold FlowDiagram.redo. simpl.
    rewrite JsArray_pop_snoc. reflexivity.
  - vm_compute. reflexivity.
  - assert (H : existsb
              (fun c => String.eqb (AgentConnection.sourceId c) Scenario.P1
                        && negb (Graph.live (AgentConnection.sourceId c)
                                   Scenario.resurrected))
              (JsMap.values (FlowDiagram.connections Scenario.resurrected))
              = true) by (vm_compute; reflexivity).
    apply existsb_exists in H as [c [Hin Hc]]. exists c.
    apply andb_true_iff in Hc as [H1 H2].
    apply String.eqb_eq in H1. apply negb_true_iff in H2.
    split; [exact Hin | split; [exact H1 | exact H2]].
Qed.

(** ** Export and import *)

Lemma AgentNode_fromJSON_toJSON h (a : AgentNode.t) :
  AgentNode.name a <> EmptyString ->
  AgentNode.fromJSON h (AgentNode.toJSON a) = a.
Proof.
  destruct a as [i ty x y n s c t]. simpl. intros Hn.
  unfold AgentNode.fromJSON. simpl.
  apply String.eqb_neq in Hn. now rewrite Hn.
Qed.

Lemma AgentConnection_fromJSON_toJSON h (c : AgentConnection.t) :
  AgentConnection.fromJSON h (AgentConnection.toJSON c) = c.
Proof. now destruct c. Qed.

Lemma wf_app_head_absent {V : Type} (pre rest : JsMap.t V) k v :
  JsMap.wf (pre ++ (k, v) :: rest) -> JsMap.has k pre = false.
Proof.
  unfold JsMap.wf, JsMap.keys. rewrite map_app. simpl. intros H.
  apply List.NoDup_remove_2 in H. apply JsMap_has_false.
  intros Hin. apply H. apply in_or_app. now left.
Qed.

Lemma importAgents_values host (rest : JsMap.t AgentNode.t) :
  forall i (pre : JsMap.t AgentNode.t),
    JsMap.wf (pre ++ rest) ->
    Forall (fun e => fst e = AgentNode.id (snd e)) rest ->
    Forall (fun e => AgentNode.name (snd e) <> EmptyString) rest ->
    FlowDiagram.importAgents host i
      (map AgentNode.toJSON (JsMap.values rest)) pre
    = pre ++ rest.
Proof.
  induction rest as [|[k a] rest IH]; intros i pre Hwf Hkey Hname; simpl.
  - now rewrite app_nil_r.
  - apply Forall_cons_iff in Hkey as [Hk Hkey].
    apply Forall_cons_iff in Hname as [Hn Hname]. simpl in Hk, Hn.
    rewrite (AgentNode_fromJSON_toJSON _ _ Hn), <- Hk.
    rewrite (JsMap_set_absent _ _ _ (wf_app_head_absent _ _ _ _ Hwf)).
    rewrite IH; [now rewrite <- app_assoc | | exact Hkey | exact Hname].
    now rewrite <- app_assoc.
Qed.

Lemma importConnections_values host (rest : JsMap.t AgentConnection.t) :
  forall i (pre : JsMap.t AgentConnection.t),
    JsMap.wf (pre ++ rest) ->
    Forall (fun e => fst e = AgentConnection.id (snd e)) rest ->
    FlowDiagram.importConnections host i
      (map AgentConnection.toJSON (JsMap.values rest)) pre
    = pre ++ rest.
Proof.
  induction rest as [|[k c] rest IH]; intros i pre Hwf Hkey; simpl.
  - now rewrite app_nil_r.
  - apply Forall_cons_iff in Hkey as [Hk Hkey]. simpl in Hk.
    rewrite AgentConnection_fromJSON_toJSON, <- Hk.
    rewrite (JsMap_set_absent _ _ _ (wf_app_head_absent _ _ _ _ Hwf)).
    rewrite IH; [now rewrite <- app_assoc | | exact Hkey].
    now rewrite <- app_assoc.
Qed.

(** Where the round trip does hold: on a diagram whose maps are filed
    under the entries' own ids and whose agents all have a non-empty name,
    importing what was exported gives the diagram back, ids included,
    whatever the host hands the constructors. *)
Lemma import_export_named host (d : FlowDiagram.t) :
  Graph.wf d ->
  Forall (fun e => AgentNode.name (snd e) <> EmptyString) (FlowDiagram.agents d) ->
  FlowDiagram.import host (FlowDiagram.export d) d = d.
Proof.
  intros [Hwa [Hwc [Hka Hkc]]] Hname.
  destruct d as [cv ags cns sel us rs ox oy sc ts].
  unfold FlowDiagram.import, FlowDiagram.export, FlowDiagram.set_agents,
    FlowDiagram.set_connections, JsMap.empty.
  cbn [FlowDiagram.agents FlowDiagram.connections FlowData.agents
       FlowData.connections FlowDiagram.canvas FlowDiagram.selectedAgent
       FlowDiagram.undoStack FlowDiagram.redoStack FlowDiagram.offsetX
       FlowDiagram.offsetY FlowDiagram.scale FlowDiagram.toasts] in *.
  rewrite (importAgents_values host ags 0 [] Hwa Hka Hname).
  rewrite (importConnections_values host cns _ [] Hwc Hkc).
  reflexivity.
Qed.

(** C3, the code at an agent whose name is empty.  After the planner's
    name field is cleared the diagram is well formed (keys occur once and
    are the entries' ids) and holds one agent with the empty name;
    exporting it and importing the record yields the same id
    but the name ["PlannerAgent"], so the imported diagram is not the
    exported one. *)
Theorem import_export_resets_empty_name :
  Graph.wf Scenario.unnamed
  /\ map (fun a => (AgentNode.id a, AgentNode.name a))
       (JsMap.values (FlowDiagram.agents Scenario.unnamed))
     = [(Scenario.P1, EmptyString)]
  /\ map (fun a => (AgentNode.id a, AgentNode.name a))
       (JsMap.values
          (FlowDiagram.agents
             (FlowDiagram.import Scenario.host
                (FlowDiagram.export Scenario.unnamed) Scenario.unnamed)))
     = [(Scenario.P1, "PlannerAgent")]
  /\ FlowDiagram.import Scenario.host (FlowDiagram.export Scenario.unnamed)
       Scenario.unnamed
     <> Scenario.unnamed.
Proof.
  split.
  { unfold Graph.wf, Graph.keyedById, JsMap.wf.
    assert (Ha : FlowDiagram.agents Scenario.unnamed
                 = [(Scenario.P1,
                     AgentNode.mk Scenario.P1 "planner" 150 150 EmptyString
                       "idle" ["planning"; "reasoning"; "strategy"]
                       (created (Scenario.host 1)))])
      by (vm_compute; reflexivity).
    assert (Hc : FlowDiagram.connections Scenario.unnamed = [])
      by (vm_compute; reflexivity).
    rewrite Ha, Hc. simpl.
    repeat split; repeat constructor; intros []. }
  split; [vm_compute; reflexivity|].
  split; [vm_compute; reflexivity|].
  intros H.
  apply (f_equal (fun d => map AgentNode.name
                             (JsMap.values (FlowDiagram.agents d)))) in H.
  vm_compute in H. discriminate.
Qed.

(** ** Zooming with the wheel *)

(** The model point under the pointer after the wheel step, minus the one
    before it, in exact arithmetic: the formula of [handleWheel] is given
    the model-space position where the contract has the screen point. *)
Lemma Exact_wheel_drift (client left offset scale newScale : Q) :
  ~ scale == 0 -> ~ newScale == 0 ->
  Exact.getMousePosition client left
    (Exact.wheelOffset client left offset scale newScale) newScale
  - Exact.getMousePosition client left offset scale
  == (1 - newScale / scale)
     * (client - left - Exact.getMousePosition client left offset scale)
     / newScale.
Proof.
  intros Hs Hn. unfold Exact.wheelOffset, Exact.getMousePosition.
  field. split; assumption.
Qed.

(** In exact arithmetic the wheel step of the code keeps the anchor only
    when the scale does not change or the model point under the pointer
    has the coordinates of the pointer on the canvas. *)
Lemma Exact_wheel_anchor_iff (client left offset scale newScale : Q) :
  ~ scale == 0 -> ~ newScale == 0 ->
  Exact.getMousePosition client left
    (Exact.wheelOffset client left offset scale newScale) newScale
  == Exact.getMousePosition client left offset scale
  <-> newScale == scale
      \/ Exact.getMousePosition client left offset scale == client - left.
Proof.
  intros Hs Hn.
  pose proof (Exact_wheel_drift client left offset scale newScale Hs Hn) as D.
  set (m' := Exact.getMousePosition client left
               (Exact.wheelOffset client left offset scale newScale) newScale)
    in *.
  set (m := Exact.getMousePosition client left offset scale) in *.
  split.
  - intros E.
    assert (Z0 : (1 - newScale / scale) * (client - left - m) == 0).
    { assert (E0 : m' - m == 0) by (rewrite E; ring).
      rewrite D in E0.
      assert (E1 : (1 - newScale / scale) * (client - left - m)
                   == ((1 - newScale / scale) * (client - left - m) / newScale)
                      * newScale) by (field; repeat split; assumption).
      rewrite E1, E0. ring. }
    apply Qmult_integral in Z0 as [Z1|Z1].
    + left.
      assert (E2 : newScale == (newScale / scale) * scale)
        by (field; repeat split; assumption).
      assert (E3 : newScale / scale == 1).
      { assert (E4 : newScale / scale == 1 - (1 - newScale / scale)) by ring.
        rewrite E4, Z1. ring. }
      rewrite E2, E3. ring.
    + right.
      assert (E5 : m == client - left - (client - left - m)) by ring.
      rewrite E5, Z1. ring.
  - intros [E|E].
    + assert (E0 : m' == m + (m' - m)) by ring.
      rewrite E0, D, E. field. repeat split; assumption.
    + assert (E0 : m' == m + (m' - m)) by ring.
      rewrite E0, D, E. field. repeat split; assumption.
Qed.

(** The contract of the specification does keep the anchor. *)
Lemma spec_zoomAt_keeps_anchor (s offset scale newScale : Q) :
  ~ scale == 0 -> ~ newScale == 0 ->
  spec_screenToModel s (spec_zoomAt_offset s offset scale newScale) newScale
  == spec_screenToModel s offset scale.
Proof.
  intros Hs Hn. unfold spec_screenToModel, spec_zoomAt_offset.
  field. split; assumption.
Qed.

(** C6, the code at two wheel events.  From a fresh session (offset 0,
    scale 1), zoom in once at (100, 100); the viewport is then at offset
    -10 and scale 1.1.  Zoom in again at (210, 210): the model point under
    the pointer is 200 (up to rounding) before that step and 199.17... after
    it, more than 0.8 model units away, in binary64 as in exact
    arithmetic (24100/121). *)
Theorem handleWheel_moves_anchor :
  FlowDiagram.getMousePosition Scenario.wheel2 Scenario.zoomedOnce
  = Some (199.99999999999997, 199.99999999999997)%float
  /\ FlowDiagram.getMousePosition Scenario.wheel2 Scenario.zoomedTwice
     = Some (199.17355371900828, 199.17355371900828)%float
  /\ (0.8 <? abs (199.99999999999997 - 199.17355371900828))%float = true
  /\ Exact.getMousePosition 210 0 (-10) (11 # 10) == 200
  /\ Exact.getMousePosition 210 0
       (Exact.wheelOffset 210 0 (-10) (11 # 10) (121 # 100)) (121 # 100)
     == 24100 # 121.
Proof.
  split; [vm_compute; reflexivity|].
  split; [vm_compute; reflexivity|].
  split; [vm_compute; reflexivity|].
  split; vm_compute; reflexivity.
Qed.

(** * Further properties of the code *)

(** ** More on [JsMap] *)

Section JsMapMore.
Context {V : Type}.
Implicit Types (k : string) (v : V) (m : JsMap.t V).

Lemma JsMap_keys_replace k v m : JsMap.keys (JsMap.replace k v m) = JsMap.keys m.
Proof.
  unfold JsMap.keys.
  induction m as [|[k' v'] m IH]; simpl; [reflexivity|].
  destruct (String.eqb k' k); simpl; [reflexivity | now rewrite IH].
Qed.

Lemma JsMap_get_replace_ne k k' v m :
  k' <> k -> JsMap.get k' (JsMap.replace k v m) = JsMap.get k' m.
Proof.
  intros Hne. induction m as [|[k0 v0] m IH]; simpl; [reflexivity|].
  destruct (String.eqb_spec k0 k) as [->|Hk0]; simpl.
  - apply not_eq_sym, String.eqb_neq in Hne. now rewrite Hne.
  - destruct (String.eqb k0 k'); [reflexivity | exact IH].
Qed.

Lemma JsMap_get_app k m m' :
  JsMap.get k (m ++ m')
  = match JsMap.get k m with Some v => Some v | None => JsMap.get k m' end.
Proof.
  induction m as [|[k0 v0] m IH]; simpl; [reflexivity|].
  destruct (String.eqb k0 k); [reflexivity | exact IH].
Qed.

Lemma JsMap_get_set_ne k k' v m :
  k' <> k -> JsMap.get k' (JsMap.set k v m) = JsMap.get k' m.
Proof.
  intros Hne. unfold JsMap.set. destruct (JsMap.has k m).
  - now apply JsMap_get_replace_ne.
  - rewrite JsMap_get_app. destruct (JsMap.get k' m); [reflexivity|].
    simpl. apply not_eq_sym, String.eqb_neq in Hne. now rewrite Hne.
Qed.

Lemma JsMap_get_delete_ne k k' m :
  k' <> k -> JsMap.get k' (JsMap.delete k m) = JsMap.get k' m.
Proof.
  intros Hne. unfold JsMap.delete.
  induction m as [|[k0 v0] m IH]; simpl; [reflexivity|].
  destruct (String.eqb_spec k0 k) as [->|Hk0]; simpl.
  - apply not_eq_sym, String.eqb_neq in Hne. now rewrite Hne.
  - destruct (String.eqb k0 k'); [reflexivity | exact IH].
Qed.

Lemma JsMap_wf_replace k v m : JsMap.wf m -> JsMap.wf (JsMap.replace k v m).
Proof. unfold JsMap.wf. now rewrite JsMap_keys_replace. Qed.

Lemma JsMap_wf_set k v m : JsMap.wf m -> JsMap.wf (JsMap.set k v m).
Proof.
  intros Hwf. unfold JsMap.set. destruct (JsMap.has k m) eqn:Hk.
  - now apply JsMap_wf_replace.
  - unfold JsMap.wf, JsMap.keys in *. rewrite map_app. simpl.
    apply List.NoDup_app; [exact Hwf | | ].
    + constructor; [intros [] | constructor].
    + intros x Hx [<-|[]]. now apply JsMap_has_false in Hk.
Qed.

Lemma JsMap_wf_delete k m : JsMap.wf m -> JsMap.wf (JsMap.delete k m).
Proof.
  unfold JsMap.wf, JsMap.keys, JsMap.delete.
  induction m as [|[k0 v0] m IH]; simpl; intros Hwf; [exact Hwf|].
  apply List.NoDup_cons_iff in Hwf as [Hnotin Hwf].
  destruct (String.eqb k0 k); simpl; [now apply IH|].
  constructor; [|now apply IH].
  intros Hin. apply Hnotin. apply in_map_iff in Hin as [e [<- He]].
  apply filter_In in He as [He _]. now apply in_map.
Qed.

Lemma JsMap_Forall_replace (P : string * V -> Prop) k v m :
  Forall P m -> P (k, v) -> Forall P (JsMap.replace k v m).
Proof.
  intros Hm Hv. induction m as [|[k' v'] m IH]; simpl; [constructor|].
  apply Forall_cons_iff in Hm as [H1 H2].
  destruct (String.eqb_spec k' k) as [->|_]; constructor; auto.
Qed.

Lemma JsMap_Forall_set (P : string * V -> Prop) k v m :
  Forall P m -> P (k, v) -> Forall P (JsMap.set k v m).
Proof.
  intros Hm Hv. unfold JsMap.set. destruct (JsMap.has k m).
  - now apply JsMap_Forall_replace.
  - apply Forall_app. split; [exact Hm | constructor; [exact Hv | constructor]].
Qed.

Lemma JsMap_keys_set k v m x :
  In x (JsMap.keys (JsMap.set k v m)) <-> x = k \/ In x (JsMap.keys m).
Proof.
  unfold JsMap.set. destruct (JsMap.has k m) eqn:Hk.
  - rewrite JsMap_keys_replace. split; [tauto|].
    intros [->|H]; [|exact H].
    destruct (in_dec string_dec k (JsMap.keys m)) as [Hin|Hout]; [exact Hin|].
    apply JsMap_has_false in Hout. congruence.
  - unfold JsMap.keys. rewrite map_app, in_app_iff. simpl.
    split; [intros [H|[<-|[]]]; tauto | intros [->|H]; tauto].
Qed.

Lemma JsMap_Forall_delete (P : string * V -> Prop) k m :
  Forall P m -> Forall P (JsMap.delete k m).
Proof.
  rewrite !List.Forall_forall. intros H e He.
  apply JsMap_in_delete in He. now apply H.
Qed.

Lemma JsMap_get_delete_eq k m : JsMap.get k (JsMap.delete k m) = None.
Proof.
  apply JsMap_get_none. apply JsMap_has_false. apply JsMap_has_delete.
Qed.

Lemma JsMap_get_has k m v : JsMap.get k m = Some v -> JsMap.has k m = true.
Proof. unfold JsMap.has. now intros ->. Qed.

End JsMapMore.

(** ** Removing a connection, and the history *)

(** X1.  [removeConnection] on an id that is not a key of the connections
    changes nothing and records nothing.  On the key of a connection [c]
    it takes that entry, and no other, out; pushes a ["connection-removed"]
    entry holding [c] and empties the redo stack.  [undo] then files [c]
    again under [c.id], and when [c] was filed under its id in a map the
    connections are, as a set of entries, the ones before the removal;
    [redo] takes the key out again. *)
Theorem removeConnection_undo_redo (connectionId : string) (d : FlowDiagram.t) :
  (JsMap.get connectionId (FlowDiagram.connections d) = None ->
   FlowDiagram.removeConnection connectionId d = d)
  /\ (forall c,
      JsMap.get connectionId (FlowDiagram.connections d) = Some c ->
      (forall e,
          In e (FlowDiagram.connections
                  (FlowDiagram.removeConnection connectionId d))
          <-> In e (FlowDiagram.connections d) /\ fst e <> connectionId)
      /\ FlowDiagram.undoStack (FlowDiagram.removeConnection connectionId d)
         = FlowDiagram.undoStack d ++ [Action.mk "connection-removed" c]
      /\ FlowDiagram.redoStack (FlowDiagram.removeConnection connectionId d) = []
      /\ JsMap.get (AgentConnection.id c)
           (FlowDiagram.connections
              (FlowDiagram.undo (FlowDiagram.removeConnection connectionId d)))
         = Some c
      /\ (AgentConnection.id c = connectionId ->
          JsMap.wf (FlowDiagram.connections d) ->
          forall e,
            In e (FlowDiagram.connections
                    (FlowDiagram.undo
                       (FlowDiagram.removeConnection connectionId d)))
            <-> In e (FlowDiagram.connections d))
      /\ JsMap.get (AgentConnection.id c)
           (FlowDiagram.connections
              (FlowDiagram.redo
                 (FlowDiagram.undo
                    (FlowDiagram.removeConnection connectionId d))))
         = None).
Proof.
  split.
  { intros Hget. unfold FlowDiagram.removeConnection. now rewrite Hget. }
  intros c Hget.
  set (conns := FlowDiagram.connections d) in *.
  assert (Hrm : FlowDiagram.removeConnection connectionId d
                = FlowDiagram.addToUndoStack (Action.mk "connection-removed" c)
                    (FlowDiagram.set_connections
                       (JsMap.delete connectionId conns) d)).
  { unfold FlowDiagram.removeConnection. fold conns. now rewrite Hget. }
  assert (Hundo : FlowDiagram.connections
                    (FlowDiagram.undo
                       (FlowDiagram.removeConnection connectionId d))
                  = JsMap.set (AgentConnection.id c) c
                      (JsMap.delete connectionId conns)).
  { rewrite Hrm. unfold FlowDiagram.undo. simpl.
    rewrite JsArray_pop_push. reflexivity. }
  assert (Hredo : FlowDiagram.connections
                    (FlowDiagram.redo
                       (FlowDiagram.undo
                          (FlowDiagram.removeConnection connectionId d)))
                  = JsMap.delete (AgentConnection.id c)
                      (JsMap.set (AgentConnection.id c) c
                         (JsMap.delete connectionId conns))).
  { rewrite Hrm. unfold FlowDiagram.undo. simpl. rewrite JsArray_pop_push.
    unfold FlowDiagram.redo. simpl. rewrite ?JsArray_pop_push. reflexivity. }
  split; [|split; [|split; [|split; [|split]]]].
  - intros e. rewrite Hrm. simpl. apply JsMap_in_delete.
  - now rewrite Hrm.
  - now rewrite Hrm.
  - rewrite Hundo. apply JsMap_get_set.
  - intros Hid Hwf e. rewrite Hundo, Hid.
    rewrite (JsMap_set_absent _ _ _ (JsMap_has_delete connectionId conns)).
    rewrite in_app_iff, JsMap_in_delete. simpl.
    pose proof (JsMap_get_in _ _ _ Hget) as Hin.
    split.
    + intros [[He _]|[<-|[]]]; assumption.
    + intros He. destruct (String.eqb_spec (fst e) connectionId) as [Hk|Hk].
      * right. left. symmetry.
        apply (NoDup_keys_unique conns); auto.
      * left. now split.
  - rewrite Hredo. apply JsMap_get_delete_eq.
Qed.

Lemma removeConnection_undo_redo_witness :
  JsMap.get (AgentConnection.generateId (Scenario.host 5))
    (FlowDiagram.connections
       (FlowDiagram.undo
          (FlowDiagram.removeConnection
             (AgentConnection.generateId (Scenario.host 5))
             Scenario.threeCycle)))
  = Some (AgentConnection.new (Scenario.host 5) Scenario.E1 Scenario.V1 "data").
Proof.
  assert (Hget : JsMap.get (AgentConnection.generateId (Scenario.host 5))
                   (FlowDiagram.connections Scenario.threeCycle)
                 = Some (AgentConnection.new (Scenario.host 5) Scenario.E1
                           Scenario.V1 "data")) by (vm_compute; reflexivity).
  destruct (removeConnection_undo_redo
              (AgentConnection.generateId (Scenario.host 5))
              Scenario.threeCycle) as [_ H].
  exact (proj1 (proj2 (proj2 (proj2 (H _ Hget))))).
Defined.

(** X2.  [undo] moves the newest entry of the undo stack, and only it, to
    the top of the redo stack, and [redo] moves it back, so that after
    [undo] and [redo] both stacks are as they were; neither touches the
    agents, the selection or the viewport, and the number of history
    entries never changes. *)
Theorem undo_redo_stacks (d : FlowDiagram.t) :
  (forall rest action,
      FlowDiagram.undoStack d = rest ++ [action] ->
      FlowDiagram.undoStack (FlowDiagram.undo d) = rest
      /\ FlowDiagram.redoStack (FlowDiagram.undo d)
         = FlowDiagram.redoStack d ++ [action]
      /\ FlowDiagram.undoStack (FlowDiagram.redo (FlowDiagram.undo d))
         = FlowDiagram.undoStack d
      /\ FlowDiagram.redoStack (FlowDiagram.redo (FlowDiagram.undo d))
         = FlowDiagram.redoStack d)
  /\ (length (FlowDiagram.undoStack (FlowDiagram.undo d))
      + length (FlowDiagram.redoStack (FlowDiagram.undo d))
      = length (FlowDiagram.undoStack d) + length (FlowDiagram.redoStack d)
      /\ length (FlowDiagram.undoStack (FlowDiagram.redo d))
         + length (FlowDiagram.redoStack (FlowDiagram.redo d))
         = length (FlowDiagram.undoStack d) + length (FlowDiagram.redoStack d))%nat
  /\ (FlowDiagram.agents (FlowDiagram.undo d) = FlowDiagram.agents d
      /\ FlowDiagram.selectedAgent (FlowDiagram.undo d)
         = FlowDiagram.selectedAgent d
      /\ FlowDiagram.scale (FlowDiagram.undo d) = FlowDiagram.scale d
      /\ FlowDiagram.agents (FlowDiagram.redo d) = FlowDiagram.agents d
      /\ FlowDiagram.selectedAgent (FlowDiagram.redo d)
         = FlowDiagram.selectedAgent d
      /\ FlowDiagram.scale (FlowDiagram.redo d) = FlowDiagram.scale d).
Proof.
  assert (Hpop : forall (l : list Action.t),
             (l = [] /\ JsArray.pop l = (None, []))
             \/ exists rest a, l = rest ++ [a] /\ JsArray.pop l = (Some a, rest)).
  { intros l. induction l as [|a rest _] using rev_ind.
    - left. now split.
    - right. exists rest, a. split; [reflexivity | apply JsArray_pop_snoc]. }
  split; [|split].
  - intros rest action Hstack. unfold FlowDiagram.undo.
    rewrite Hstack, JsArray_pop_snoc.
    destruct (String.eqb (Action.type action) "connection-created");
      [|destruct (String.eqb (Action.type action) "connection-removed")];
      simpl; unfold FlowDiagram.redo; simpl; unfold JsArray.push;
      rewrite !JsArray_pop_snoc;
      destruct (String.eqb (Action.type action) "connection-created");
      try destruct (String.eqb (Action.type action) "connection-removed");
      simpl; rewrite ?Hstack; auto.
  - split.
    + unfold FlowDiagram.undo.
      destruct (Hpop (FlowDiagram.undoStack d)) as [[E ->]|[rest [a [E ->]]]];
        [reflexivity|].
      rewrite E.
      destruct (String.eqb (Action.type a) "connection-created");
        [|destruct (String.eqb (Action.type a) "connection-removed")];
        simpl; unfold JsArray.push; rewrite !length_app; simpl; lia.
    + unfold FlowDiagram.redo.
      destruct (Hpop (FlowDiagram.redoStack d)) as [[E ->]|[rest [a [E ->]]]];
        [reflexivity|].
      rewrite E.
      destruct (String.eqb (Action.type a) "connection-created");
        [|destruct (String.eqb (Action.type a) "connection-removed")];
        simpl; unfold JsArray.push; rewrite !length_app; simpl; lia.
  - unfold FlowDiagram.undo, FlowDiagram.redo.
    destruct (JsArray.pop (FlowDiagram.undoStack d)) as [[a|] rest];
      destruct (JsArray.pop (FlowDiagram.redoStack d)) as [[a'|] rest'];
      repeat match goal with
             | |- context [String.eqb ?x ?y] => destruct (String.eqb x y)
             end; simpl; auto 10.
Qed.

Lemma undo_redo_stacks_witness :
  FlowDiagram.undoStack
    (FlowDiagram.redo (FlowDiagram.undo Scenario.threeCycle))
  = FlowDiagram.undoStack Scenario.threeCycle.
Proof.
  assert (H : FlowDiagram.undoStack Scenario.threeCycle
              = [Action.mk "connection-created"
                   (AgentConnection.new (Scenario.host 4) Scenario.P1
                      Scenario.E1 "data");
                 Action.mk "connection-created"
                   (AgentConnection.new (Scenario.host 5) Scenario.E1
                      Scenario.V1 "data")]
                ++ [Action.mk "connection-created"
                      (AgentConnection.new (Scenario.host 6) Scenario.V1
                         Scenario.P1 "data")]) by (vm_compute; reflexivity).
  destruct (undo_redo_stacks Scenario.threeCycle) as [Hs _].
  exact (proj1 (proj2 (proj2 (Hs _ _ H)))).
Defined.

Lemma history_keeps_agents (cs : list Api.Command) :
  forall d, forallb Api.isHistory cs = true ->
            FlowDiagram.agents (Api.execAll cs d) = FlowDiagram.agents d.
Proof.
  unfold Api.execAll.
  induction cs as [|c cs IH]; intros d Hcs; simpl in *; [reflexivity|].
  apply andb_true_iff in Hcs as [Hc Hcs]. rewrite (IH _ Hcs).
  destruct c; try discriminate; simpl.
  - unfold FlowDiagram.undo.
    destruct (JsArray.pop (FlowDiagram.undoStack d)) as [[a|] rest];
      repeat match goal with
             | |- context [String.eqb ?x ?y] => destruct (String.eqb x y)
             end; reflexivity.
  - unfold FlowDiagram.redo.
    destruct (JsArray.pop (FlowDiagram.redoStack d)) as [[a|] rest];
      repeat match goal with
             | |- context [String.eqb ?x ?y] => destruct (String.eqb x y)
             end; reflexivity.
Qed.

(** X3.  Removing an agent is not recorded: [removeAgent] leaves the undo
    and redo stacks as they are (also for the connections it cascades
    away), and no sequence of [undo] and [redo] calls changes the agents,
    so the removed agent stays removed. *)
Theorem removeAgent_not_undoable (agentId : string) (d : FlowDiagram.t)
    (cs : list Api.Command) :
  Graph.live agentId d = true ->
  forallb Api.isHistory cs = true ->
  FlowDiagram.undoStack (FlowDiagram.removeAgent agentId d)
  = FlowDiagram.undoStack d
  /\ FlowDiagram.redoStack (FlowDiagram.removeAgent agentId d)
     = FlowDiagram.redoStack d
  /\ Graph.live agentId (Api.execAll cs (FlowDiagram.removeAgent agentId d))
     = false.
Proof.
  intros Hlive Hcs.
  assert (Hstacks : FlowDiagram.undoStack (FlowDiagram.removeAgent agentId d)
                    = FlowDiagram.undoStack d
                    /\ FlowDiagram.redoStack (FlowDiagram.removeAgent agentId d)
                       = FlowDiagram.redoStack d).
  { unfold FlowDiagram.removeAgent.
    destruct (JsMap.get agentId (FlowDiagram.agents d)); [|now split].
    simpl. destruct (FlowDiagram.selectedAgent d) as [s|]; [|now split].
    destruct (String.eqb s agentId); now split. }
  destruct Hstacks as [Hu Hr]. split; [exact Hu | split; [exact Hr|]].
  unfold Graph.live. rewrite (history_keeps_agents cs _ Hcs).
  unfold FlowDiagram.removeAgent, Graph.live, JsMap.has in *.
  destruct (JsMap.get agentId (FlowDiagram.agents d)); [|discriminate].
  simpl. destruct (FlowDiagram.selectedAgent d) as [s|];
    [destruct (String.eqb s agentId)|]; simpl;
    now rewrite JsMap_get_delete_eq.
Qed.

Lemma removeAgent_not_undoable_witness :
  Graph.live Scenario.P1
    (Api.execAll [Api.Undo; Api.Undo; Api.Redo]
       (FlowDiagram.removeAgent Scenario.P1 Scenario.threeCycle)) = false.
Proof.
  apply (removeAgent_not_undoable Scenario.P1 Scenario.threeCycle
           [Api.Undo; Api.Undo; Api.Redo]).
  - vm_compute. reflexivity.
  - reflexivity.
Defined.

(** ** Agents: creation, duplication, status feed *)

(** X4.  For a type that is no name inherited from [Object.prototype],
    [createAgent] returns an agent with the generated id, the default name
    and capabilities of its type (those of the three own keys of the
    tables, ["UnknownAgent"] and [["basic"]] for any other type) and status
    ["idle"], and files it under its id: looking the id up gives the agent
    back, every other key reads as before, and nothing but the agents
    changes.  When the id was free the agent is appended; when it was
    taken the entry under it is replaced where it stands. *)
Theorem createAgent_lookup h type x y (d : FlowDiagram.t) :
  JsObject.inherited type = false ->
  JsMap.get (AgentNode.id (fst (FlowDiagram.createAgent h type x y d)))
    (FlowDiagram.agents (snd (FlowDiagram.createAgent h type x y d)))
  = Some (fst (FlowDiagram.createAgent h type x y d))
  /\ fst (FlowDiagram.createAgent h type x y d)
     = AgentNode.mk (AgentNode.generateId h) type x y
         (AgentNode.generateName type) "idle"
         (AgentNode.getDefaultCapabilities type) (created h)
  /\ (forall k, k <> AgentNode.generateId h ->
      JsMap.get k (FlowDiagram.agents (snd (FlowDiagram.createAgent h type x y d)))
      = JsMap.get k (FlowDiagram.agents d))
  /\ FlowDiagram.connections (snd (FlowDiagram.createAgent h type x y d))
     = FlowDiagram.connections d
  /\ FlowDiagram.undoStack (snd (FlowDiagram.createAgent h type x y d))
     = FlowDiagram.undoStack d
  /\ (Graph.live (AgentNode.generateId h) d = false ->
      FlowDiagram.agents (snd (FlowDiagram.createAgent h type x y d))
      = FlowDiagram.agents d
        ++ [(AgentNode.generateId h, fst (FlowDiagram.createAgent h type x y d))])
  /\ (Graph.live (AgentNode.generateId h) d = true ->
      JsMap.keys (FlowDiagram.agents (snd (FlowDiagram.createAgent h type x y d)))
      = JsMap.keys (FlowDiagram.agents d))
  /\ (AgentNode.name (fst (FlowDiagram.createAgent h type x y d)),
      AgentNode.capabilities (fst (FlowDiagram.createAgent h type x y d)))
     = (if String.eqb type "planner"
        then ("PlannerAgent", ["planning"; "reasoning"; "strategy"])
        else if String.eqb type "executor"
        then ("ExecutorAgent", ["execution"; "action"; "implementation"])
        else if String.eqb type "evaluator"
        then ("EvaluatorAgent", ["evaluation"; "feedback"; "assessment"])
        else ("UnknownAgent", ["basic"])).
Proof.
  intros _. unfold FlowDiagram.createAgent, Graph.live. simpl.
  split; [apply JsMap_get_set|]. split; [reflexivity|].
  split; [intros k Hk; now apply JsMap_get_set_ne|].
  split; [reflexivity|]. split; [reflexivity|].
  split; [|split].
  - intros Hfree. now apply JsMap_set_absent.
  - intros Htaken. unfold JsMap.set. rewrite Htaken.
    apply JsMap_keys_replace.
  - unfold AgentNode.generateName, AgentNode.getDefaultCapabilities.
    destruct (String.eqb type "planner"); [reflexivity|].
    destruct (String.eqb type "executor"); [reflexivity|].
    destruct (String.eqb type "evaluator"); reflexivity.
Qed.

Lemma createAgent_lookup_witness :
  JsObject.inherited "evaluator" = false
  /\ FlowDiagram.agents
       (snd (FlowDiagram.createAgent (Scenario.host 9) "evaluator" 10 20
               Scenario.started))
     = FlowDiagram.agents Scenario.started
       ++ [(AgentNode.generateId (Scenario.host 9),
            fst (FlowDiagram.createAgent (Scenario.host 9) "evaluator" 10 20
                   Scenario.started))]
  /\ AgentNode.name
       (fst (FlowDiagram.createAgent (Scenario.host 9) "evaluator" 10 20
               Scenario.started))
     = "EvaluatorAgent".
Proof.
  split; [reflexivity|].
  destruct (createAgent_lookup (Scenario.host 9) "evaluator" 10%float
              20%float Scenario.started eq_refl)
    as [_ [_ [_ [_ [_ [Hfree [_ Hname]]]]]]].
  split.
  - apply Hfree. vm_compute. reflexivity.
  - apply (f_equal fst) in Hname. exact Hname.
Defined.

Lemma append_copy_not_empty (s : string) : s +:+ "_copy" <> EmptyString.
Proof. destruct s; discriminate. Qed.

(** X5.  [duplicateAgent] on an unknown id returns nothing and changes
    nothing.  On a live id whose agent's type is no name inherited from
    [Object.prototype] it files a new agent under a generated id with the
    original's type, its position moved by (+50, +50) and its name
    followed by ["_copy"]; status and capabilities are not copied but set
    to ["idle"] and the defaults of the type; connections and history are
    left alone. *)
Theorem duplicateAgent_copy h agentId (d : FlowDiagram.t) :
  (JsMap.get agentId (FlowDiagram.agents d) = None ->
   FlowDiagram.duplicateAgent h agentId d = (None, d))
  /\ (forall original,
      JsMap.get agentId (FlowDiagram.agents d) = Some original ->
      JsObject.inherited (AgentNode.type original) = false ->
      fst (FlowDiagram.duplicateAgent h agentId d)
      = Some (AgentNode.mk (AgentNode.generateId h) (AgentNode.type original)
                (AgentNode.x original + 50)%float
                (AgentNode.y original + 50)%float
                (AgentNode.name original +:+ "_copy") "idle"
                (AgentNode.getDefaultCapabilities (AgentNode.type original))
                (created h))
      /\ JsMap.get (AgentNode.generateId h)
           (FlowDiagram.agents (snd (FlowDiagram.duplicateAgent h agentId d)))
         = fst (FlowDiagram.duplicateAgent h agentId d)
      /\ (agentId <> AgentNode.generateId h ->
          JsMap.get agentId
            (FlowDiagram.agents (snd (FlowDiagram.duplicateAgent h agentId d)))
          = Some original)
      /\ FlowDiagram.connections (snd (FlowDiagram.duplicateAgent h agentId d))
         = FlowDiagram.connections d
      /\ FlowDiagram.undoStack (snd (FlowDiagram.duplicateAgent h agentId d))
         = FlowDiagram.undoStack d).
Proof.
  unfold FlowDiagram.duplicateAgent. split.
  - now intros ->.
  - intros original Hget _. rewrite Hget. simpl.
    assert (Hname : AgentNode.nameOrDefault
                      (Some (AgentNode.name original +:+ "_copy"))
                      (AgentNode.type original)
                    = AgentNode.name original +:+ "_copy").
    { unfold AgentNode.nameOrDefault.
      destruct (String.eqb_spec (AgentNode.name original +:+ "_copy")
                  EmptyString) as [E|_]; [|reflexivity].
      now apply append_copy_not_empty in E. }
    unfold AgentNode.new. rewrite Hname.
    split; [reflexivity|]. split; [apply JsMap_get_set|].
    split; [|split; reflexivity].
    intros Hne. rewrite JsMap_get_set_ne by exact Hne. exact Hget.
Qed.

Lemma duplicateAgent_copy_witness :
  JsObject.inherited "planner" = false
  /\ fst (FlowDiagram.duplicateAgent (Scenario.host 9) Scenario.P1
            Scenario.started)
     = Some (AgentNode.mk (AgentNode.generateId (Scenario.host 9)) "planner"
               200 200 "PlannerAgent_copy" "idle"
               ["planning"; "reasoning"; "strategy"]
               (created (Scenario.host 9))).
Proof.
  split; [reflexivity|].
  assert (Hget : JsMap.get Scenario.P1 (FlowDiagram.agents Scenario.started)
                 = Some (AgentNode.new (Scenario.host 1) "planner" 150 150 None))
    by (vm_compute; reflexivity).
  destruct (duplicateAgent_copy (Scenario.host 9) Scenario.P1 Scenario.started)
    as [_ H].
  destruct (H _ Hget eq_refl) as [Hcopy _]. rewrite Hcopy.
  vm_compute. reflexivity.
Defined.

Lemma lastStatus_init (agentId : string) (agents : list (string * string))
    (init : option string) :
  fold_left
    (fun found agentData =>
       if String.eqb (fst agentData) agentId then Some (snd agentData)
       else found)
    agents init
  = match Api.lastStatus agentId agents with
    | Some s => Some s
    | None => init
    end.
Proof.
  unfold Api.lastStatus. revert init.
  induction agents as [|u us IH]; intros init; simpl; [reflexivity|].
  rewrite (IH (if String.eqb (fst u) agentId then Some (snd u) else init)).
  rewrite (IH (if String.eqb (fst u) agentId then Some (snd u) else None)).
  destruct (fold_left _ us None); [reflexivity|].
  destruct (String.eqb (fst u) agentId); reflexivity.
Qed.

Lemma lastStatus_cons (agentId : string) (u : string * string)
    (us : list (string * string)) :
  Api.lastStatus agentId (u :: us)
  = match Api.lastStatus agentId us with
    | Some s => Some s
    | None => if String.eqb (fst u) agentId then Some (snd u) else None
    end.
Proof.
  unfold Api.lastStatus at 1. simpl. apply lastStatus_init.
Qed.

Lemma updateAgentStatus_get (agents : list (string * string)) :
  forall (m : JsMap.t AgentNode.t) k,
    JsMap.get k (fold_left Editor.updateOneStatus agents m)
    = match JsMap.get k m with
      | None => None
      | Some a =>
          Some match Api.lastStatus k agents with
               | Some s => Editor.withStatus s a
               | None => a
               end
      end.
Proof.
  induction agents as [|u us IH]; intros m k; simpl.
  - destruct (JsMap.get k m); reflexivity.
  - rewrite IH, lastStatus_cons. unfold Editor.updateOneStatus.
    destruct (String.eqb_spec (fst u) k) as [->|Hne].
    + destruct (JsMap.get k m) as [a|] eqn:Hk.
      * rewrite (JsMap_get_replace _ _ _ (JsMap_get_has _ _ _ Hk)).
        destruct (Api.lastStatus k us); reflexivity.
      * now rewrite Hk.
    + assert (Hsame : JsMap.get k
                        match JsMap.get (fst u) m with
                        | Some agent =>
                            JsMap.replace (fst u)
                              (Editor.withStatus (snd u) agent) m
                        | None => m
                        end = JsMap.get k m).
      { destruct (JsMap.get (fst u) m); [|reflexivity].
        apply JsMap_get_replace_ne. congruence. }
      rewrite Hsame. destruct (JsMap.get k m); [|reflexivity].
      destruct (Api.lastStatus k us); reflexivity.
Qed.

Lemma updateAgentStatus_keys (agents : list (string * string)) :
  forall m : JsMap.t AgentNode.t,
    JsMap.keys (fold_left Editor.updateOneStatus agents m) = JsMap.keys m.
Proof.
  induction agents as [|u us IH]; intros m; simpl; [reflexivity|].
  rewrite IH. unfold Editor.updateOneStatus.
  destruct (JsMap.get (fst u) m); [apply JsMap_keys_replace | reflexivity].
Qed.

(** X6.  [updateAgentStatus] keeps the keys of the agents and their order:
    pairs whose id names no agent are ignored and no agent is added or
    removed.  An agent named by the message gets the status of the last
    pair with its id and keeps every other field; an agent not named is
    unchanged.  Connections and selection are not touched. *)
Theorem updateAgentStatus_feed (agents : list (string * string))
    (d : FlowDiagram.t) :
  JsMap.keys (FlowDiagram.agents (Editor.updateAgentStatus agents d))
  = JsMap.keys (FlowDiagram.agents d)
  /\ (forall k,
      JsMap.get k (FlowDiagram.agents (Editor.updateAgentStatus agents d))
      = match JsMap.get k (FlowDiagram.agents d) with
        | None => None
        | Some a =>
            Some match Api.lastStatus k agents with
                 | Some s =>
                     AgentNode.mk (AgentNode.id a) (AgentNode.type a)
                       (AgentNode.x a) (AgentNode.y a) (AgentNode.name a) s
                       (AgentNode.capabilities a) (AgentNode.createdAt a)
                 | None => a
                 end
        end)
  /\ FlowDiagram.connections (Editor.updateAgentStatus agents d)
     = FlowDiagram.connections d
  /\ FlowDiagram.selectedAgent (Editor.updateAgentStatus agents d)
     = FlowDiagram.selectedAgent d.
Proof.
  unfold Editor.updateAgentStatus. simpl.
  split; [apply updateAgentStatus_keys|].
  split; [intros k; apply updateAgentStatus_get|].
  split; reflexivity.
Qed.

Lemma generateName_not_empty (type : string) :
  AgentNode.generateName type <> EmptyString.
Proof.
  unfold AgentNode.generateName.
  repeat match goal with
         | |- context [String.eqb ?a ?b] => destruct (String.eqb a b)
         end; discriminate.
Qed.

Lemma new_name_not_empty h type x y name :
  AgentNode.name (AgentNode.new h type x y name) <> EmptyString.
Proof.
  simpl. unfold AgentNode.nameOrDefault.
  destruct name as [n|]; [|apply generateName_not_empty].
  destruct (String.eqb_spec n EmptyString) as [_|Hn];
    [apply generateName_not_empty | exact Hn].
Qed.

Lemma importAgents_named host (data : list AgentNode.Data.t) :
  forall i (m : JsMap.t AgentNode.t),
    Forall (fun e => AgentNode.name (snd e) <> EmptyString) m ->
    Forall (fun e => AgentNode.name (snd e) <> EmptyString)
      (FlowDiagram.importAgents host i data m).
Proof.
  induction data as [|a data IH]; intros i m Hm; simpl; [exact Hm|].
  apply IH. apply JsMap_Forall_set; [exact Hm|].
  exact (new_name_not_empty (host i) (AgentNode.Data.type a)
           (AgentNode.Data.x a) (AgentNode.Data.y a)
           (Some (AgentNode.Data.name a))).
Qed.

(** X7.  The constructor never leaves an agent without a name: a name
    that is not empty is kept, and a missing or empty one is replaced by
    the default of the type, which for a type that is no name inherited
    from [Object.prototype] is a string and never the empty one.  So
    every agent made by [createAgent] from such a type, every agent made
    by [duplicateAgent], and every agent of an imported record whose
    entries have a name or such a type, has a non-empty name. *)
Theorem constructed_agents_are_named :
  (forall h type x y n,
      n <> EmptyString ->
      AgentNode.name (AgentNode.new h type x y (Some n)) = n)
  /\ (forall h type x y name,
      JsObject.inherited type = false ->
      AgentNode.name (AgentNode.new h type x y name) <> EmptyString)
  /\ (forall h type x y d,
      JsObject.inherited type = false ->
      AgentNode.name (fst (FlowDiagram.createAgent h type x y d))
      <> EmptyString)
  /\ (forall h agentId d copy,
      fst (FlowDiagram.duplicateAgent h agentId d) = Some copy ->
      exists original,
        JsMap.get agentId (FlowDiagram.agents d) = Some original
        /\ AgentNode.name copy = AgentNode.name original +:+ "_copy"
        /\ AgentNode.name copy <> EmptyString)
  /\ (forall host data d,
      Forall
        (fun a => AgentNode.Data.name a <> EmptyString
                  \/ JsObject.inherited (AgentNode.Data.type a) = false)
        (FlowData.agents data) ->
      Forall (fun e => AgentNode.name (snd e) <> EmptyString)
        (FlowDiagram.agents (FlowDiagram.import host data d))).
Proof.
  split; [|split; [|split; [|split]]].
  - intros h type x y n Hn. simpl. unfold AgentNode.nameOrDefault.
    apply String.eqb_neq in Hn. now rewrite Hn.
  - intros h type x y name _. apply new_name_not_empty.
  - intros h type x y d _. apply new_name_not_empty.
  - intros h agentId d copy. unfold FlowDiagram.duplicateAgent.
    destruct (JsMap.get agentId (FlowDiagram.agents d)) as [original|];
      [|discriminate].
    intros [= <-]. exists original. split; [reflexivity|].
    assert (Hname : AgentNode.name
                      (AgentNode.new h (AgentNode.type original)
                         (AgentNode.x original + 50)%float
                         (AgentNode.y original + 50)%float
                         (Some (AgentNode.name original +:+ "_copy")))
                    = AgentNode.name original +:+ "_copy").
    { simpl. unfold AgentNode.nameOrDefault.
      destruct (String.eqb_spec (AgentNode.name original +:+ "_copy")
                  EmptyString) as [E|_]; [|reflexivity].
      now apply append_copy_not_empty in E. }
    split; [exact Hname|]. rewrite Hname. apply append_copy_not_empty.
  - intros host data d _. unfold FlowDiagram.import. simpl.
    apply importAgents_named. constructor.
Qed.

Lemma constructed_agents_are_named_witness :
  JsObject.inherited "auditor" = false
  /\ AgentNode.name (AgentNode.new (Scenario.host 1) "auditor" 0 0
                       (Some EmptyString))
     <> EmptyString
  /\ AgentNode.name (AgentNode.new (Scenario.host 1) "planner" 0 0
                       (Some "Bob"))
     = "Bob".
Proof.
  destruct constructed_agents_are_named as [H1 [H2 _]].
  split; [reflexivity|].
  split; [apply H2; reflexivity | apply H1; discriminate].
Defined.

(** ** Import, export and well-formed maps *)

Lemma AgentNode_toJSON_fromJSON h (data : AgentNode.Data.t) :
  AgentNode.Data.name data <> EmptyString ->
  AgentNode.toJSON (AgentNode.fromJSON h data) = data.
Proof.
  destruct data as [i ty x y n s c t]. simpl. intros Hn.
  unfold AgentNode.toJSON, AgentNode.fromJSON. simpl.
  apply String.eqb_neq in Hn. now rewrite Hn.
Qed.

Lemma AgentConnection_toJSON_fromJSON h (data : AgentConnection.Data.t) :
  AgentConnection.toJSON (AgentConnection.fromJSON h data) = data.
Proof. now destruct data. Qed.

Lemma JsMap_has_app {V : Type} k (m m' : JsMap.t V) :
  JsMap.has k (m ++ m') = JsMap.has k m || JsMap.has k m'.
Proof.
  unfold JsMap.has. rewrite JsMap_get_app.
  destruct (JsMap.get k m); [reflexivity|]. now destruct (JsMap.get k m').
Qed.

Lemma importAgents_export host (data : list AgentNode.Data.t) :
  forall i (m : JsMap.t AgentNode.t),
    List.NoDup (map AgentNode.Data.id data) ->
    (forall a, In a data -> JsMap.has (AgentNode.Data.id a) m = false) ->
    Forall (fun a => AgentNode.Data.name a <> EmptyString) data ->
    map AgentNode.toJSON (JsMap.values (FlowDiagram.importAgents host i data m))
    = map AgentNode.toJSON (JsMap.values m) ++ data.
Proof.
  induction data as [|a data IH]; intros i m Hnd Hfree Hname; simpl.
  - now rewrite app_nil_r.
  - apply List.NoDup_cons_iff in Hnd as [Hnotin Hnd].
    apply Forall_cons_iff in Hname as [Hn Hname].
    change (AgentNode.id (AgentNode.fromJSON (host i) a))
      with (AgentNode.Data.id a).
    rewrite (JsMap_set_absent _ _ _ (Hfree a (or_introl eq_refl))).
    rewrite IH; [| exact Hnd | | exact Hname].
    + unfold JsMap.values. rewrite !map_app. simpl.
      rewrite (AgentNode_toJSON_fromJSON _ _ Hn), <- app_assoc. reflexivity.
    + intros a' Ha'. rewrite JsMap_has_app, (Hfree a' (or_intror Ha')). simpl.
      unfold JsMap.has. simpl.
      destruct (String.eqb_spec (AgentNode.Data.id a) (AgentNode.Data.id a'))
        as [E|_]; [|reflexivity].
      exfalso. apply Hnotin. rewrite E. now apply in_map.
Qed.

Lemma importConnections_export host (data : list AgentConnection.Data.t) :
  forall i (m : JsMap.t AgentConnection.t),
    List.NoDup (map AgentConnection.Data.id data) ->
    (forall c, In c data -> JsMap.has (AgentConnection.Data.id c) m = false) ->
    map AgentConnection.toJSON
      (JsMap.values (FlowDiagram.importConnections host i data m))
    = map AgentConnection.toJSON (JsMap.values m) ++ data.
Proof.
  induction data as [|c data IH]; intros i m Hnd Hfree; simpl.
  - now rewrite app_nil_r.
  - apply List.NoDup_cons_iff in Hnd as [Hnotin Hnd].
    change (AgentConnection.id (AgentConnection.fromJSON (host i) c))
      with (AgentConnection.Data.id c).
    rewrite (JsMap_set_absent _ _ _ (Hfree c (or_introl eq_refl))).
    rewrite IH; [| exact Hnd |].
    + unfold JsMap.values. rewrite !map_app. simpl.
      rewrite AgentConnection_toJSON_fromJSON, <- app_assoc. reflexivity.
    + intros c' Hc'. rewrite JsMap_has_app, (Hfree c' (or_intror Hc')). simpl.
      unfold JsMap.has. simpl.
      destruct (String.eqb_spec (AgentConnection.Data.id c)
                  (AgentConnection.Data.id c')) as [E|_]; [|reflexivity].
      exfalso. apply Hnotin. rewrite E. now apply in_map.
Qed.

(** X8.  Importing a record and exporting again gives the record back,
    entry for entry and in the same order, when the ids of its agents are
    pairwise distinct, likewise those of its connections, no agent name is
    empty and the version is ["1.0"]; the diagram imported into and the
    values the host hands the constructors play no part. *)
Theorem export_import_record host (data : FlowData.t) (d : FlowDiagram.t) :
  List.NoDup (map AgentNode.Data.id (FlowData.agents data)) ->
  List.NoDup (map AgentConnection.Data.id (FlowData.connections data)) ->
  Forall (fun a => AgentNode.Data.name a <> EmptyString) (FlowData.agents data) ->
  FlowData.version data = "1.0" ->
  FlowDiagram.export (FlowDiagram.import host data d) = data.
Proof.
  intros Hna Hnc Hname Hver. destruct data as [ags cns ver]. simpl in *.
  unfold FlowDiagram.export, FlowDiagram.import, FlowDiagram.set_agents,
    FlowDiagram.set_connections, JsMap.empty.
  cbn [FlowDiagram.agents FlowDiagram.connections FlowData.agents
       FlowData.connections].
  rewrite (importAgents_export host ags 0 [] Hna (fun _ _ => eq_refl) Hname).
  rewrite (importConnections_export host cns _ [] Hnc (fun _ _ => eq_refl)).
  simpl. now rewrite Hver.
Qed.

Lemma export_import_record_witness :
  FlowDiagram.export
    (FlowDiagram.import Scenario.host (FlowDiagram.export Scenario.threeCycle)
       FlowDiagram.constructor)
  = FlowDiagram.export Scenario.threeCycle.
Proof.
  apply export_import_record.
  - apply NoDup_ListNoDup. apply (bool_decide_unpack _). vm_compute. exact I.
  - apply NoDup_ListNoDup. apply (bool_decide_unpack _). vm_compute. exact I.
  - assert (H : forallb
                  (fun a => negb (String.eqb (AgentNode.Data.name a) EmptyString))
                  (FlowData.agents (FlowDiagram.export Scenario.threeCycle))
                = true) by (vm_compute; reflexivity).
    apply List.Forall_forall. intros a Ha.
    rewrite forallb_forall in H. specialize (H a Ha). clear Ha.
    apply negb_true_iff in H. apply String.eqb_neq in H. exact H.
  - reflexivity.
Defined.

Lemma importAgents_host host host' (data : list AgentNode.Data.t) :
  forall i i' (m : JsMap.t AgentNode.t),
    FlowDiagram.importAgents host i data m
    = FlowDiagram.importAgents host' i' data m.
Proof.
  induction data as [|a data IH]; intros i i' m; simpl; [reflexivity|].
  apply IH.
Qed.

Lemma importConnections_host host host' (data : list AgentConnection.Data.t) :
  forall i i' (m : JsMap.t AgentConnection.t),
    FlowDiagram.importConnections host i data m
    = FlowDiagram.importConnections host' i' data m.
Proof.
  induction data as [|c data IH]; intros i i' m; simpl; [reflexivity|].
  apply IH.
Qed.

Lemma importAgents_wf host (data : list AgentNode.Data.t) :
  forall i (m : JsMap.t AgentNode.t),
    JsMap.wf m ->
    Forall (fun e => fst e = AgentNode.id (snd e)) m ->
    JsMap.wf (FlowDiagram.importAgents host i data m)
    /\ Forall (fun e => fst e = AgentNode.id (snd e))
         (FlowDiagram.importAgents host i data m).
Proof.
  induction data as [|a data IH]; intros i m Hwf Hkey; simpl; [now split|].
  apply IH; [now apply JsMap_wf_set | now apply JsMap_Forall_set].
Qed.

Lemma importConnections_wf host (data : list AgentConnection.Data.t) :
  forall i (m : JsMap.t AgentConnection.t),
    JsMap.wf m ->
    Forall (fun e => fst e = AgentConnection.id (snd e)) m ->
    JsMap.wf (FlowDiagram.importConnections host i data m)
    /\ Forall (fun e => fst e = AgentConnection.id (snd e))
         (FlowDiagram.importConnections host i data m).
Proof.
  induction data as [|c data IH]; intros i m Hwf Hkey; simpl; [now split|].
  apply IH; [now apply JsMap_wf_set | now apply JsMap_Forall_set].
Qed.

Lemma importAgents_keys host (data : list AgentNode.Data.t) :
  forall i (m : JsMap.t AgentNode.t) k,
    In k (JsMap.keys (FlowDiagram.importAgents host i data m))
    <-> In k (JsMap.keys m) \/ In k (map AgentNode.Data.id data).
Proof.
  induction data as [|a data IH]; intros i m k; simpl; [tauto|].
  rewrite IH, JsMap_keys_set. simpl. intuition congruence.
Qed.

Lemma import_wf host (data : FlowData.t) (d : FlowDiagram.t) :
  Graph.wf (FlowDiagram.import host data d).
Proof.
  unfold Graph.wf, Graph.keyedById, FlowDiagram.import. simpl.
  destruct (importAgents_wf host (FlowData.agents data) 0 [])
    as [Ha Ka]; [constructor | constructor |].
  destruct (importConnections_wf host (FlowData.connections data)
              (length (FlowData.agents data)) [])
    as [Hc Kc]; [constructor | constructor |].
  repeat split; assumption.
Qed.

(** X9.  [import] builds the agents and connections from the record
    alone: the diagram imported into and the host contribute nothing to
    them, the live ids are exactly the agent ids of the record, and each
    of the two maps holds every key once, under the id of its entry.  The
    selection and the undo and redo stacks of the diagram imported into
    are kept as they are. *)
Theorem import_replaces_model host (data : FlowData.t) (d : FlowDiagram.t) :
  (forall host' d',
      FlowDiagram.agents (FlowDiagram.import host data d)
      = FlowDiagram.agents (FlowDiagram.import host' data d')
      /\ FlowDiagram.connections (FlowDiagram.import host data d)
         = FlowDiagram.connections (FlowDiagram.import host' data d'))
  /\ (forall k, Graph.live k (FlowDiagram.import host data d) = true
                <-> In k (map AgentNode.Data.id (FlowData.agents data)))
  /\ Graph.wf (FlowDiagram.import host data d)
  /\ FlowDiagram.selectedAgent (FlowDiagram.import host data d)
     = FlowDiagram.selectedAgent d
  /\ FlowDiagram.undoStack (FlowDiagram.import host data d)
     = FlowDiagram.undoStack d
  /\ FlowDiagram.redoStack (FlowDiagram.import host data d)
     = FlowDiagram.redoStack d.
Proof.
  split; [|split; [|split; [apply import_wf | repeat split]]].
  - intros host' d'. unfold FlowDiagram.import. simpl. split.
    + apply importAgents_host.
    + apply importConnections_host.
  - intros k. unfold Graph.live, FlowDiagram.import. simpl.
    pose proof (importAgents_keys host (FlowData.agents data) 0 [] k) as Hk.
    simpl in Hk.
    destruct (JsMap.has k (FlowDiagram.importAgents host 0
                             (FlowData.agents data) JsMap.empty)) eqn:Hhas.
    + split; [intros _ | reflexivity].
      destruct (in_dec string_dec k
                  (JsMap.keys (FlowDiagram.importAgents host 0
                                 (FlowData.agents data) JsMap.empty)))
        as [Hin|Hout].
      * apply Hk in Hin. tauto.
      * apply JsMap_has_false in Hout. congruence.
    + split; [discriminate|]. intros Hin. exfalso.
      apply JsMap_has_false in Hhas. apply Hhas, Hk. now right.
Qed.

(** ** Maps stay maps *)

Lemma forEach_delete_wf agentId (visited live : JsMap.t AgentConnection.t) :
  JsMap.wf live ->
  JsMap.wf (fold_left
              (fun live entry =>
                 if FlowDiagram.involves agentId (snd entry)
                 then JsMap.delete (fst entry) live else live)
              visited live).
Proof.
  revert live. induction visited as [|a visited IH]; intros live Hwf;
    simpl; [exact Hwf|].
  destruct (FlowDiagram.involves agentId (snd a)).
  - apply IH. now apply JsMap_wf_delete.
  - now apply IH.
Qed.

Lemma forEach_delete_Forall agentId
    (visited live : JsMap.t AgentConnection.t)
    (P : string * AgentConnection.t -> Prop) :
  Forall P live ->
  Forall P (fold_left
              (fun live entry =>
                 if FlowDiagram.involves agentId (snd entry)
                 then JsMap.delete (fst entry) live else live)
              visited live).
Proof.
  revert live. induction visited as [|a visited IH]; intros live HP;
    simpl; [exact HP|].
  destruct (FlowDiagram.involves agentId (snd a)).
  - apply IH. now apply JsMap_Forall_delete.
  - now apply IH.
Qed.

Lemma updateAgentStatus_keyed (agents : list (string * string)) :
  forall m : JsMap.t AgentNode.t,
    Forall (fun e => fst e = AgentNode.id (snd e)) m ->
    Forall (fun e => fst e = AgentNode.id (snd e))
      (fold_left Editor.updateOneStatus agents m).
Proof.
  induction agents as [|u us IH]; intros m Hm; simpl; [exact Hm|].
  apply IH. unfold Editor.updateOneStatus.
  destruct (JsMap.get (fst u) m) as [a|] eqn:Hget; [|exact Hm].
  apply JsMap_Forall_replace; [exact Hm|]. simpl.
  apply JsMap_get_in in Hget.
  rewrite List.Forall_forall in Hm. exact (Hm _ Hget).
Qed.

Lemma assignProperty_id property value (a : AgentNode.t) :
  property <> AgentNode.Property.id ->
  AgentNode.id (FlowDiagram.assignProperty property value a) = AgentNode.id a.
Proof.
  intros Hp. destruct a as [i ty x y n s c t].
  destruct property; [contradiction | reflexivity | reflexivity | reflexivity].
Qed.

(** One call keeps each map a map, and keeps the entries filed under
    their ids unless it assigns an agent's [id]. *)
Lemma exec_wf (c : Api.Command) (d : FlowDiagram.t) :
  (JsMap.wf (FlowDiagram.agents d) ->
   JsMap.wf (FlowDiagram.connections d) ->
   JsMap.wf (FlowDiagram.agents (Api.exec c d))
   /\ JsMap.wf (FlowDiagram.connections (Api.exec c d)))
  /\ (Api.assignsId c = false -> Graph.keyedById d ->
      Graph.keyedById (Api.exec c d)).
Proof.
  unfold Graph.keyedById.
  destruct c as [h type x y | agentId | h agentId | agentId property value
                 | agents | h a b kind | connectionId | | | host data]; simpl.
  - (* createAgent *)
    split; [intros Ha Hc | intros _ [Ka Kc]]; (split; [|assumption]).
    + now apply JsMap_wf_set.
    + now apply JsMap_Forall_set.
  - (* removeAgent *)
    unfold FlowDiagram.removeAgent.
    destruct (JsMap.get agentId (FlowDiagram.agents d)); [|tauto].
    assert (Hsel : forall d2 : FlowDiagram.t,
      FlowDiagram.agents
        match FlowDiagram.selectedAgent d2 with
        | Some s => if String.eqb s agentId
                    then FlowDiagram.set_selectedAgent None d2 else d2
        | None => d2
        end = FlowDiagram.agents d2
      /\ FlowDiagram.connections
           match FlowDiagram.selectedAgent d2 with
           | Some s => if String.eqb s agentId
                       then FlowDiagram.set_selectedAgent None d2 else d2
           | None => d2
           end = FlowDiagram.connections d2).
    { intros d2. destruct (FlowDiagram.selectedAgent d2) as [s|];
        [destruct (String.eqb s agentId)|]; now split. }
    match goal with
    | |- context [FlowDiagram.agents (match FlowDiagram.selectedAgent ?d2 with _ => _ end)] =>
        destruct (Hsel d2) as [-> ->]
    end. simpl.
    split; [intros Ha Hc | intros _ [Ka Kc]]; split.
    + now apply JsMap_wf_delete.
    + now apply forEach_delete_wf.
    + now apply JsMap_Forall_delete.
    + now apply forEach_delete_Forall.
  - (* duplicateAgent *)
    unfold FlowDiagram.duplicateAgent.
    destruct (JsMap.get agentId (FlowDiagram.agents d)); simpl; [|tauto].
    split; [intros Ha Hc | intros _ [Ka Kc]]; (split; [|assumption]).
    + now apply JsMap_wf_set.
    + now apply JsMap_Forall_set.
  - (* updateAgentProperty *)
    unfold FlowDiagram.updateAgentProperty.
    destruct (JsMap.get agentId (FlowDiagram.agents d)) as [a|] eqn:Hget;
      simpl; [|tauto].
    split; [intros Ha Hc | intros Hp [Ka Kc]]; (split; [|assumption]).
    + now apply JsMap_wf_replace.
    + apply JsMap_Forall_replace; [exact Ka|]. simpl.
      rewrite assignProperty_id by (intros ->; discriminate Hp).
      apply JsMap_get_in in Hget.
      rewrite List.Forall_forall in Ka. exact (Ka _ Hget).
  - (* updateAgentStatus *)
    split; [intros Ha Hc | intros _ [Ka Kc]]; (split; [|assumption]).
    + unfold JsMap.wf. now rewrite updateAgentStatus_keys.
    + now apply updateAgentStatus_keyed.
  - (* createConnection *)
    unfold FlowDiagram.createConnection.
    destruct (String.eqb a b); simpl; [tauto|].
    destruct (FlowDiagram.findConnection a b (FlowDiagram.connections d));
      simpl; [tauto|].
    split; [intros Ha Hc | intros _ [Ka Kc]]; (split; [assumption|]).
    + now apply JsMap_wf_set.
    + now apply JsMap_Forall_set.
  - (* removeConnection *)
    unfold FlowDiagram.removeConnection.
    destruct (JsMap.get connectionId (FlowDiagram.connections d)); simpl;
      [|tauto].
    split; [intros Ha Hc | intros _ [Ka Kc]]; (split; [assumption|]).
    + now apply JsMap_wf_delete.
    + now apply JsMap_Forall_delete.
  - (* undo *)
    unfold FlowDiagram.undo.
    destruct (JsArray.pop (FlowDiagram.undoStack d)) as [[action|] rest];
      [|tauto].
    destruct (String.eqb (Action.type action) "connection-created");
      [|destruct (String.eqb (Action.type action) "connection-removed")];
      simpl; try tauto;
      (split; [intros Ha Hc | intros _ [Ka Kc]]; (split; [assumption|])).
    + now apply JsMap_wf_delete.
    + now apply JsMap_Forall_delete.
    + now apply JsMap_wf_set.
    + now apply JsMap_Forall_set.
  - (* redo *)
    unfold FlowDiagram.redo.
    destruct (JsArray.pop (FlowDiagram.redoStack d)) as [[action|] rest];
      [|tauto].
    destruct (String.eqb (Action.type action) "connection-created");
      [|destruct (String.eqb (Action.type action) "connection-removed")];
      simpl; try tauto;
      (split; [intros Ha Hc | intros _ [Ka Kc]]; (split; [assumption|])).
    + now apply JsMap_wf_set.
    + now apply JsMap_Forall_set.
    + now apply JsMap_wf_delete.
    + now apply JsMap_Forall_delete.
  - (* import *)
    pose proof (import_wf host data d) as [Ha [Hc K]].
    split; [intros _ _; now split | intros _ _; exact K].
Qed.

(** X10.  Whatever sequence of calls of the programming interface is
    applied (creating, removing, duplicating and updating agents, status
    messages, creating and removing connections, undo, redo, import), the
    agents and the connections each keep every key once; and when no call
    assigns the [id] property of an agent, every entry stays filed under
    the id it carries. *)
Theorem api_keeps_maps_well_formed (cs : list Api.Command) (d : FlowDiagram.t) :
  (JsMap.wf (FlowDiagram.agents d) ->
   JsMap.wf (FlowDiagram.connections d) ->
   JsMap.wf (FlowDiagram.agents (Api.execAll cs d))
   /\ JsMap.wf (FlowDiagram.connections (Api.execAll cs d)))
  /\ (forallb (fun c => negb (Api.assignsId c)) cs = true ->
      Graph.wf d -> Graph.wf (Api.execAll cs d)).
Proof.
  unfold Api.execAll, Graph.wf. revert d.
  induction cs as [|c cs IH]; intros d; simpl; [tauto|].
  destruct (exec_wf c d) as [Hwf Hkey].
  destruct (IH (Api.exec c d)) as [IH1 IH2].
  split.
  - intros Ha Hc. destruct (Hwf Ha Hc). now apply IH1.
  - intros Hcs [Ha [Hc K]]. apply andb_true_iff in Hcs as [Hc0 Hcs].
    apply negb_true_iff in Hc0. destruct (Hwf Ha Hc) as [Ha' Hc'].
    apply IH2; [exact Hcs|].
    split; [exact Ha' | split; [exact Hc' | exact (Hkey Hc0 K)]].
Qed.

Lemma api_keeps_maps_well_formed_witness :
  Graph.wf
    (Api.execAll
       [Api.CreateAgent (Scenario.host 1) "planner" 150 150;
        Api.CreateAgent (Scenario.host 2) "executor" 350 150;
        Api.CreateConnection (Scenario.host 4) Scenario.P1 Scenario.E1 "data";
        Api.RemoveAgent Scenario.P1; Api.Undo; Api.Redo]
       FlowDiagram.constructor).
Proof.
  apply api_keeps_maps_well_formed.
  - reflexivity.
  - unfold Graph.wf, Graph.keyedById, JsMap.wf. simpl.
    repeat split; constructor.
Defined.

(** ** What validation depends on *)

Lemma countType_zero_iff (type : string) (d : FlowDiagram.t) :
  FlowDiagram.countType type d = 0%nat
  <-> ~ exists a, In a (JsMap.values (FlowDiagram.agents d))
                  /\ AgentNode.type a = type.
Proof.
  unfold FlowDiagram.countType.
  induction (JsMap.values (FlowDiagram.agents d)) as [|a l IH]; simpl.
  - split; [intros _ [a [[] _]] | reflexivity].
  - destruct (String.eqb_spec (AgentNode.type a) type) as [E|Hne]; simpl.
    + split; [discriminate|]. intros H. exfalso. apply H. exists a. auto.
    + rewrite IH. split.
      * intros H [a' [[<-|Ha'] E]]; [contradiction|]. apply H. now exists a'.
      * intros H [a' [Ha' E]]. apply H. exists a'. auto.
Qed.

Lemma classic_role (l : list AgentNode.t) (type : string) :
  (exists a, In a l /\ AgentNode.type a = type)
  \/ ~ (exists a, In a l /\ AgentNode.type a = type).
Proof.
  induction l as [|a l [[a' [Ha' E]]|IH]].
  - right. intros [a [[] _]].
  - left. exists a'. split; [now right | exact E].
  - destruct (String.eqb_spec (AgentNode.type a) type) as [E|Hne].
    + left. exists a. split; [now left | exact E].
    + right. intros [a' [[<-|Ha'] E]]; [contradiction|].
      apply IH. now exists a'.
Qed.

(** X11.  [validateFlow] always returns, and its verdict is decided by
    the agents' types alone: [isValid] is [true] exactly when some agent
    has type ["planner"] and some agent has type ["executor"]; replacing
    the connections by any others leaves [errors] and [isValid] as they
    are.  (This is what the "flow-validation" test of the test engine
    asserts on.) *)
Theorem validateFlow_valid_iff_roles (d : FlowDiagram.t) :
  exists r,
    FlowDiagram.validateFlow d = Some r
    /\ (Validation.isValid r = true
        <-> (exists a, In a (JsMap.values (FlowDiagram.agents d))
                       /\ AgentNode.type a = "planner")
            /\ (exists a, In a (JsMap.values (FlowDiagram.agents d))
                          /\ AgentNode.type a = "executor"))
    /\ (forall conns,
        exists r',
          FlowDiagram.validateFlow (FlowDiagram.set_connections conns d)
          = Some r'
          /\ Validation.errors r' = Validation.errors r
          /\ Validation.isValid r' = Validation.isValid r).
Proof.
  unfold FlowDiagram.validateFlow. rewrite detectCircularLoops_returns.
  eexists. split; [reflexivity|]. simpl. split.
  - pose proof (countType_zero_iff "planner" d) as Hp.
    pose proof (countType_zero_iff "executor" d) as He.
    destruct (FlowDiagram.countType "planner" d) as [|np];
      destruct (FlowDiagram.countType "executor" d) as [|ne]; simpl.
    + split; [discriminate|]. intros [H _]. now apply Hp in H.
    + split; [discriminate|]. intros [H _]. now apply Hp in H.
    + split; [discriminate|]. intros [_ H]. now apply He in H.
    + split; [intros _ | reflexivity].
      split.
      * destruct (classic_role (JsMap.values (FlowDiagram.agents d)) "planner")
          as [H|H]; [exact H|]. apply Hp in H. discriminate.
      * destruct (classic_role (JsMap.values (FlowDiagram.agents d)) "executor")
          as [H|H]; [exact H|]. apply He in H. discriminate.
  - intros conns. rewrite detectCircularLoops_returns.
    eexists. split; [reflexivity|]. simpl. split; reflexivity.
Qed.

Lemma warnings_isolated (d : FlowDiagram.t) :
  exists r,
    FlowDiagram.validateFlow d = Some r
    /\ Validation.warnings r
       = map FlowDiagram.notConnected
           (List.filter (fun a => Graph.isolated a d)
              (JsMap.values (FlowDiagram.agents d))).
Proof.
  destruct (validateFlow_returns d) as [r [E [W _]]].
  exists r. split; [exact E|]. rewrite W.
  rewrite (fold_left_push
             (fun agent =>
                bool_decide
                  (AgentNode.id agent
                   ∈ FlowDiagram.connectedAgents (FlowDiagram.connections d)))
             FlowDiagram.notConnected).
  simpl. f_equal. apply filter_ext. intros a. apply connected_isolated.
Qed.

(** X12.  After a successful [createConnection(a, b)] under an id not in
    use, validation warns about exactly the agents it warned about before
    except those whose id is [a] or [b]: connecting two agents silences
    their warnings and no others. *)
Theorem createConnection_silences_endpoints
    h a b kind (d d1 : FlowDiagram.t) c :
  FlowDiagram.createConnection h a b kind d = (Some c, d1) ->
  JsMap.has (AgentConnection.id c) (FlowDiagram.connections d) = false ->
  exists r1,
    FlowDiagram.validateFlow d1 = Some r1
    /\ Validation.warnings r1
       = map FlowDiagram.notConnected
           (List.filter
              (fun x => Graph.isolated x d
                        && negb (String.eqb (AgentNode.id x) a)
                        && negb (String.eqb (AgentNode.id x) b))
              (JsMap.values (FlowDiagram.agents d))).
Proof.
  intros Hok Hfresh. apply createConnection_success in Hok as [Hc ->].
  destruct (warnings_isolated
              (FlowDiagram.addToUndoStack (Action.mk "connection-created" c)
                 (FlowDiagram.set_connections
                    (JsMap.set (AgentConnection.id c) c
                       (FlowDiagram.connections d)) d))) as [r1 [E W]].
  exists r1. split; [exact E|]. rewrite W. simpl. f_equal.
  apply filter_ext. intros x. unfold Graph.isolated. simpl.
  rewrite (JsMap_set_absent _ _ _ Hfresh).
  unfold JsMap.values. rewrite map_app, forallb_app. simpl.
  rewrite Hc. simpl. rewrite andb_true_r.
  rewrite (String.eqb_sym a), (String.eqb_sym b), andb_assoc. reflexivity.
Qed.

Lemma createConnection_silences_endpoints_witness :
  exists r1,
    FlowDiagram.validateFlow
      (snd (FlowDiagram.createConnection (Scenario.host 4) Scenario.P1
              Scenario.E1 "data" Scenario.started)) = Some r1
    /\ Validation.warnings r1
       = map FlowDiagram.notConnected
           (List.filter
              (fun x => Graph.isolated x Scenario.started
                        && negb (String.eqb (AgentNode.id x) Scenario.P1)
                        && negb (String.eqb (AgentNode.id x) Scenario.E1))
              (JsMap.values (FlowDiagram.agents Scenario.started))).
Proof.
  apply (createConnection_silences_endpoints (Scenario.host 4) Scenario.P1
           Scenario.E1 "data" Scenario.started _
           (AgentConnection.new (Scenario.host 4) Scenario.P1 Scenario.E1
              "data")).
  - vm_compute. reflexivity.
  - vm_compute. reflexivity.
Defined.

(** ** The zoom range

    Binary64 facts are read off the specification of the primitive
    operations ([FloatAxioms]). *)

Section Binary64.
Import SpecFloat FloatOps FloatAxioms.

Lemma SFcompare_refl (x : spec_float) :
  x <> S754_nan -> SFcompare x x = Some Eq.
Proof.
  destruct x as [s|s| |s m e]; simpl; try congruence.
  - now destruct s.
  - intros _. destruct s; rewrite Z.compare_refl, Pos.compare_cont_refl;
      reflexivity.
Qed.

Lemma SFcompare_antisym (x y : spec_float) :
  SFcompare y x = option_map CompOpp (SFcompare x y).
Proof.
  destruct x as [sx|sx| |sx mx ex], y as [sy|sy| |sy my ey]; simpl;
    try reflexivity; try (destruct sx; reflexivity);
    try (destruct sy; reflexivity);
    try (destruct sx, sy; reflexivity).
  destruct sx, sy; simpl; try reflexivity;
    rewrite (Z.compare_antisym ex ey);
    destruct (ex ?= ey)%Z; simpl; try reflexivity;
    rewrite (Pos.compare_cont_antisym mx my Eq); reflexivity.
Qed.

Lemma is_nan_false (a : float) :
  is_nan a = false <-> Prim2SF a <> S754_nan.
Proof.
  unfold is_nan. rewrite eqb_spec. unfold SFeqb. split.
  - intros H E. rewrite E in H. discriminate.
  - intros H. now rewrite (SFcompare_refl _ H).
Qed.

Lemma leb_not_nan (a b : float) :
  (a <=? b)%float = true -> is_nan a = false /\ is_nan b = false.
Proof.
  rewrite leb_spec, !is_nan_false. unfold SFleb.
  destruct (Prim2SF a), (Prim2SF b); simpl; try discriminate;
    intros _; split; discriminate.
Qed.

Lemma ltb_leb (a b : float) :
  (a <? b)%float = true -> (a <=? b)%float = true.
Proof.
  rewrite ltb_spec, leb_spec. unfold SFltb, SFleb.
  destruct (SFcompare (Prim2SF a) (Prim2SF b)) as [[]|]; congruence.
Qed.

Lemma leb_refl (a : float) : is_nan a = false -> (a <=? a)%float = true.
Proof.
  rewrite is_nan_false, leb_spec. unfold SFleb. intros H.
  now rewrite (SFcompare_refl _ H).
Qed.

Lemma not_ltb_leb (a b : float) :
  is_nan a = false -> is_nan b = false ->
  (a <? b)%float = false -> (b <=? a)%float = true.
Proof.
  rewrite !is_nan_false, ltb_spec, leb_spec. unfold SFltb, SFleb.
  rewrite (SFcompare_antisym (Prim2SF a) (Prim2SF b)).
  destruct (Prim2SF a) as [sa|sa| |sa ma ea] eqn:Ea,
           (Prim2SF b) as [sb|sb| |sb mb eb] eqn:Eb;
    try congruence; intros _ _;
    match goal with
    | |- context [SFcompare ?x ?y] => destruct (SFcompare x y) as [[]|] eqn:Ec
    end; simpl; try congruence;
    simpl in Ec; try discriminate;
    destruct sa; try destruct sb; discriminate.
Qed.

(** [Math.min] and [Math.max] on numbers that are not NaN return one of
    the two operands, below (above) both. *)
Lemma JsMath_min_spec (a b : float) :
  is_nan a = false -> is_nan b = false ->
  (JsMath.min a b = a \/ JsMath.min a b = b)
  /\ (JsMath.min a b <=? a)%float = true
  /\ (JsMath.min a b <=? b)%float = true.
Proof.
  intros Ha Hb. unfold JsMath.min. rewrite Ha, Hb. simpl.
  destruct (a <? b)%float eqn:Hab.
  { split; [now left | split; [now apply leb_refl | now apply ltb_leb]]. }
  destruct (b <? a)%float eqn:Hba.
  { split; [now right | split; [now apply ltb_leb | now apply leb_refl]]. }
  pose proof (not_ltb_leb a b Ha Hb Hab) as H1.
  pose proof (not_ltb_leb b a Hb Ha Hba) as H2.
  destruct (is_zero a && get_sign a).
  - split; [now left | split; [now apply leb_refl | exact H2]].
  - split; [now right | split; [exact H1 | now apply leb_refl]].
Qed.

Lemma JsMath_max_spec (a b : float) :
  is_nan a = false -> is_nan b = false ->
  (JsMath.max a b = a \/ JsMath.max a b = b)
  /\ (a <=? JsMath.max a b)%float = true
  /\ (b <=? JsMath.max a b)%float = true.
Proof.
  intros Ha Hb. unfold JsMath.max. rewrite Ha, Hb. simpl.
  destruct (a <? b)%float eqn:Hab.
  { split; [now right | split; [now apply ltb_leb | now apply leb_refl]]. }
  destruct (b <? a)%float eqn:Hba.
  { split; [now left | split; [now apply leb_refl | now apply ltb_leb]]. }
  pose proof (not_ltb_leb a b Ha Hb Hab) as H1.
  pose proof (not_ltb_leb b a Hb Ha Hba) as H2.
  destruct (is_zero a && get_sign a).
  - split; [now right | split; [exact H2 | now apply leb_refl]].
  - split; [now left | split; [now apply leb_refl | exact H1]].
Qed.

Lemma clamp_in_range (v : float) :
  is_nan v = false ->
  scaleInRange (JsMath.max 0.1 (JsMath.min 3 v)) = true.
Proof.
  intros Hv.
  assert (H3 : is_nan 3 = false) by reflexivity.
  assert (H01 : is_nan 0.1 = false) by reflexivity.
  destruct (JsMath_min_spec 3 v H3 Hv) as [Hmin [Hle3 _]].
  assert (Hw : is_nan (JsMath.min 3 v) = false)
    by (destruct Hmin as [-> | ->]; assumption).
  destruct (JsMath_max_spec 0.1 (JsMath.min 3 v) H01 Hw) as [Hmax [Hge _]].
  unfold scaleInRange. rewrite Hge. simpl.
  destruct Hmax as [-> | ->]; [reflexivity | exact Hle3].
Qed.

Lemma shr_1_nonneg (mrs : shr_record) :
  (0 <= shr_m mrs)%Z -> (0 <= shr_m (shr_1 mrs))%Z.
Proof.
  destruct mrs as [m r s]. simpl.
  destruct m as [|[p|p|]|[p|p|]]; simpl; lia.
Qed.

Lemma iter_pos_shr_1_nonneg (p : positive) :
  forall mrs, (0 <= shr_m mrs)%Z -> (0 <= shr_m (iter_pos shr_1 p mrs))%Z.
Proof.
  induction p as [p IH|p IH|]; intros mrs H; simpl.
  - apply IH, IH. now apply shr_1_nonneg.
  - now apply IH, IH.
  - now apply shr_1_nonneg.
Qed.

Lemma shr_fexp_nonneg prec emax m e l :
  (0 <= m)%Z -> (0 <= shr_m (fst (shr_fexp prec emax m e l)))%Z.
Proof.
  intros H. unfold shr_fexp, shr.
  assert (H0 : (0 <= shr_m (shr_record_of_loc m l))%Z)
    by (destruct l as [|[]]; exact H).
  destruct (fexp prec emax (Zdigits2 m + e) - e)%Z; simpl;
    [exact H0 | now apply iter_pos_shr_1_nonneg | exact H0].
Qed.

Lemma binary_round_aux_not_nan prec emax sx mx ex lx :
  (0 <= mx)%Z -> binary_round_aux prec emax sx mx ex lx <> S754_nan.
Proof.
  intros H. unfold binary_round_aux.
  pose proof (shr_fexp_nonneg prec emax mx ex lx H) as H1.
  destruct (shr_fexp prec emax mx ex lx) as [mrs' e']. simpl in H1.
  assert (H2 : (0 <= round_nearest_even (shr_m mrs') (loc_of_shr_record mrs'))%Z).
  { unfold round_nearest_even.
    destruct (loc_of_shr_record mrs') as [|[]]; try lia.
    destruct (Z.even (shr_m mrs')); lia. }
  pose proof (shr_fexp_nonneg prec emax _ e' loc_Exact H2) as H3.
  destruct (shr_fexp prec emax
              (round_nearest_even (shr_m mrs') (loc_of_shr_record mrs'))
              e' loc_Exact) as [mrs'' e'']. simpl in H3.
  destruct (shr_m mrs'') as [|m|m]; try discriminate.
  - destruct (e'' <=? emax - prec)%Z; discriminate.
  - lia.
Qed.

(** A scale within the zoom range times a zoom factor is a number. *)
Lemma zoom_product_not_nan (s c : float) :
  scaleInRange s = true -> c = 0.9%float \/ c = 1.1%float ->
  is_nan (s * c) = false.
Proof.
  unfold scaleInRange. intros Hs Hc. apply andb_true_iff in Hs as [Hlo Hhi].
  rewrite leb_spec in Hlo, Hhi. apply is_nan_false. rewrite mul_spec.
  assert (Hfin : exists mc ec, Prim2SF c = S754_finite false mc ec).
  { destruct Hc as [-> | ->]; vm_compute; eauto. }
  destruct Hfin as [mc [ec ->]].
  assert (H01 : exists m e, Prim2SF 0.1 = S754_finite false m e)
    by (vm_compute; eauto).
  assert (H3 : exists m e, Prim2SF 3 = S754_finite false m e)
    by (vm_compute; eauto).
  destruct H01 as [m1 [e1 E1]], H3 as [m3 [e3 E3]].
  rewrite E1 in Hlo. rewrite E3 in Hhi.
  unfold SFleb in Hlo, Hhi.
  destruct (Prim2SF s) as [ss|[|]| |ss ms es]; simpl in *; try discriminate.
  apply binary_round_aux_not_nan. lia.
Qed.

Lemma scale_not_zero (s : float) :
  (0.1 <=? s)%float = true -> (s =? 0)%float = false.
Proof.
  rewrite leb_spec, eqb_spec. unfold SFleb, SFeqb.
  assert (H01 : exists m e, Prim2SF 0.1 = S754_finite false m e)
    by (vm_compute; eauto).
  assert (H0 : Prim2SF 0 = S754_zero false) by (vm_compute; reflexivity).
  destruct H01 as [m1 [e1 ->]]. rewrite H0.
  destruct (Prim2SF s) as [ss|[|]|ss|[|] ms es]; simpl; try discriminate;
    reflexivity.
Qed.

End Binary64.

Lemma handleWheel_scale_in_range (e : MouseEvent) (d : FlowDiagram.t) :
  scaleInRange (FlowDiagram.scale d) = true ->
  scaleInRange (FlowDiagram.scale (FlowDiagram.handleWheel e d)) = true.
Proof.
  intros Hs. unfold FlowDiagram.handleWheel. simpl.
  apply clamp_in_range. apply zoom_product_not_nan; [exact Hs|].
  destruct (0 <? deltaY e)%float; [now left | now right].
Qed.

(** X13.  The zoom stays within its range: from a scale between 0.1 and
    3 (the constructor's scale is 1), any sequence of wheel events, with
    whatever positions and deltas, leaves the scale between 0.1 and 3, a
    number and never zero. *)
Theorem handleWheel_keeps_scale_in_range
    (events : list MouseEvent) (d : FlowDiagram.t) :
  scaleInRange (FlowDiagram.scale d) = true ->
  scaleInRange
    (FlowDiagram.scale
       (fold_left (fun d e => FlowDiagram.handleWheel e d) events d)) = true
  /\ is_nan
       (FlowDiagram.scale
          (fold_left (fun d e => FlowDiagram.handleWheel e d) events d)) = false
  /\ (FlowDiagram.scale
        (fold_left (fun d e => FlowDiagram.handleWheel e d) events d)
      =? 0)%float = false.
Proof.
  revert d. induction events as [|e events IH]; intros d Hs; simpl.
  - split; [exact Hs|]. unfold scaleInRange in Hs.
    apply andb_true_iff in Hs as [Hlo Hhi].
    split; [exact (proj2 (leb_not_nan _ _ Hlo))|].
    apply scale_not_zero. exact Hlo.
  - apply IH. now apply handleWheel_scale_in_range.
Qed.

Lemma handleWheel_keeps_scale_in_range_witness :
  scaleInRange
    (FlowDiagram.scale
       (fold_left (fun d e => FlowDiagram.handleWheel e d)
          [Scenario.wheel1; Scenario.wheel2] Scenario.session)) = true.
Proof.
  apply (handleWheel_keeps_scale_in_range [Scenario.wheel1; Scenario.wheel2]
           Scenario.session).
  vm_compute. reflexivity.
Defined.

(** ** Pointer and keyboard input *)

Lemma find_first {A : Type} (p : A -> bool) (l : list A) (x : A) :
  List.find p l = Some x ->
  exists before after,
    l = before ++ x :: after /\ p x = true
    /\ forall y, In y before -> p y = false.
Proof.
  induction l as [|a l IH]; simpl; [discriminate|].
  destruct (p a) eqn:Ha.
  - intros [= <-]. exists [], l. split; [reflexivity|].
    split; [exact Ha | intros y []].
  - intros H. destruct (IH H) as [before [after [-> [Hx Hb]]]].
    exists (a :: before), after. split; [reflexivity|].
    split; [exact Hx|]. intros y [<-|Hy]; [exact Ha | now apply Hb].
Qed.

Lemma JsMap_in_get {V : Type} (m : JsMap.t V) k v :
  JsMap.wf m -> In (k, v) m -> JsMap.get k m = Some v.
Proof.
  intros Hwf Hin. destruct (JsMap.get k m) as [v'|] eqn:Hget.
  - apply JsMap_get_in in Hget.
    pose proof (NoDup_keys_unique m (k, v) (k, v') Hwf Hin Hget eq_refl) as E.
    congruence.
  - apply JsMap_get_none in Hget. exfalso. apply Hget.
    unfold JsMap.keys. now apply (in_map fst) in Hin.
Qed.

Lemma removeAgent_live (agentId : string) (d : FlowDiagram.t) :
  Graph.live agentId d = true ->
  FlowDiagram.agents (FlowDiagram.removeAgent agentId d)
  = JsMap.delete agentId (FlowDiagram.agents d)
  /\ FlowDiagram.connections (FlowDiagram.removeAgent agentId d)
     = FlowDiagram.removeConnectionsOf agentId (FlowDiagram.connections d).
Proof.
  unfold Graph.live, JsMap.has, FlowDiagram.removeAgent.
  destruct (JsMap.get agentId (FlowDiagram.agents d)); [intros _ | discriminate].
  simpl. destruct (FlowDiagram.selectedAgent d) as [s|];
    [destruct (String.eqb s agentId)|]; now split.
Qed.

Lemma removeAgent_keeps (agentId : string) (d : FlowDiagram.t) :
  FlowDiagram.undoStack (FlowDiagram.removeAgent agentId d)
  = FlowDiagram.undoStack d
  /\ FlowDiagram.redoStack (FlowDiagram.removeAgent agentId d)
     = FlowDiagram.redoStack d
  /\ FlowDiagram.scale (FlowDiagram.removeAgent agentId d)
     = FlowDiagram.scale d
  /\ forall e, In e (FlowDiagram.connections (FlowDiagram.removeAgent agentId d))
               -> In e (FlowDiagram.connections d).
Proof.
  unfold FlowDiagram.removeAgent.
  destruct (JsMap.get agentId (FlowDiagram.agents d)); [|now repeat split].
  assert (Hin : forall e,
             In e (FlowDiagram.removeConnectionsOf agentId
                     (FlowDiagram.connections d)) ->
             In e (FlowDiagram.connections d))
    by (intros e He; now apply removeConnectionsOf_sound in He).
  simpl. destruct (FlowDiagram.selectedAgent d) as [s|];
    [destruct (String.eqb s agentId)|]; simpl;
    (split; [reflexivity | split; [reflexivity | split; [reflexivity | exact Hin]]]).
Qed.

Lemma handleWheel_keeps (e : MouseEvent) (d : FlowDiagram.t) :
  FlowDiagram.undoStack (FlowDiagram.handleWheel e d) = FlowDiagram.undoStack d
  /\ FlowDiagram.redoStack (FlowDiagram.handleWheel e d)
     = FlowDiagram.redoStack d
  /\ FlowDiagram.connections (FlowDiagram.handleWheel e d)
     = FlowDiagram.connections d.
Proof.
  unfold FlowDiagram.handleWheel.
  destruct (FlowDiagram.getMousePosition e d) as [[mx my]|]; now repeat split.
Qed.

Section Pointer.
Variable Math_pow : float -> float -> float.
Variable Math_sqrt : float -> float.

Local Abbreviation getAgentAtPosition :=
  (Editor.getAgentAtPosition Math_pow Math_sqrt).
Local Abbreviation handleMouseDown :=
  (Editor.handleMouseDown Math_pow Math_sqrt).
Local Abbreviation distance := (Editor.distance Math_pow Math_sqrt).
Local Abbreviation run := (Editor.run Math_pow Math_sqrt).
Local Abbreviation dispatch := (Editor.dispatch Math_pow Math_sqrt).

(* Five-part invariants whose parts hold as they stand. *)
Ltac kept :=
  split; [|split; [|split; [|split]]];
  [ first [reflexivity | assumption]
  | reflexivity
  | reflexivity
  | intros c Hc; exact Hc
  | intros Hs; exact Hs ].

(** X14.  A press that lands on agents goes to the first agent, in
    iteration order, whose centre is within the node radius of the
    pointer's model position.  With another button than the left one it
    changes nothing.  With the left button and no pending connection it
    selects that agent by its id and starts dragging it, and touches
    nothing else. *)
Theorem handleMouseDown_on_agent h (e : MouseEvent) (s : Editor.t)
    (pos : float * float) (key : string) (agent : AgentNode.t) :
  FlowDiagram.getMousePosition e (Editor.diagram s) = Some pos ->
  getAgentAtPosition (fst pos) (snd pos) (Editor.diagram s)
  = Some (key, agent) ->
  (exists before after,
      FlowDiagram.agents (Editor.diagram s) = before ++ (key, agent) :: after
      /\ (distance (fst pos) (snd pos) agent <=? Editor.nodeRadius)%float = true
      /\ forall entry, In entry before ->
           (distance (fst pos) (snd pos) (snd entry) <=? Editor.nodeRadius)%float
           = false)
  /\ (forall button, button <> 0%Z -> handleMouseDown h e button s = s)
  /\ (Editor.connectionStart s = None ->
      handleMouseDown h e 0 s
      = Editor.mk
          (FlowDiagram.set_selectedAgent (Some (AgentNode.id agent))
             (Editor.diagram s))
          None true (Some (Editor.Filed key)) (Editor.isPanning s)
          (Editor.lastPanPoint s)).
Proof.
  intros Hpos Hhit. split; [|split].
  - unfold Editor.getAgentAtPosition in Hhit.
    destruct (find_first _ _ _ Hhit) as [before [after [E [Hx Hb]]]].
    exists before, after. auto.
  - intros button Hb. unfold Editor.handleMouseDown. rewrite Hpos, Hhit.
    apply Z.eqb_neq in Hb. now rewrite Hb.
  - intros Hcs. unfold Editor.handleMouseDown. rewrite Hpos, Hhit. simpl.
    rewrite Hcs. f_equal. unfold Editor.selectAgent.
    destruct (Editor.diagram s) as [cv ags cns sel us rs ox oy sc ts]. simpl.
    destruct sel as [x|]; [|reflexivity].
    destruct (String.eqb_spec x (AgentNode.id agent)) as [->|_]; reflexivity.
Qed.

(** X15.  A left press that lands on no agent (none has its centre within
    the node radius) clears the selection and any pending connection and
    always starts panning from the pointer's model position, whether or
    not a connection was pending; the drag flags, the agents and the
    connections are left as they are. *)
Theorem handleMouseDown_on_empty_space h (e : MouseEvent) (s : Editor.t)
    (pos : float * float) :
  FlowDiagram.getMousePosition e (Editor.diagram s) = Some pos ->
  (forall entry, In entry (FlowDiagram.agents (Editor.diagram s)) ->
     (distance (fst pos) (snd pos) (snd entry) <=? Editor.nodeRadius)%float
     = false) ->
  handleMouseDown h e 0 s
  = Editor.mk (FlowDiagram.set_selectedAgent None (Editor.diagram s))
      None (Editor.isDragging s) (Editor.dragTarget s) true pos.
Proof.
  intros Hpos Hnone. unfold Editor.handleMouseDown. rewrite Hpos.
  assert (Hfind : getAgentAtPosition (fst pos) (snd pos) (Editor.diagram s)
                  = None).
  { unfold Editor.getAgentAtPosition.
    destruct (List.find _ _) as [entry|] eqn:E; [|reflexivity].
    apply find_some in E as [Hin Hd]. rewrite (Hnone _ Hin) in Hd.
    discriminate. }
  rewrite Hfind. reflexivity.
Qed.

Lemma detach_diagram (key : string) (s : Editor.t) :
  Editor.diagram (Editor.detach key s) = Editor.diagram s.
Proof.
  unfold Editor.detach.
  destruct (Editor.dragTarget s) as [[k|]|]; [|reflexivity|reflexivity].
  destruct (String.eqb k key); reflexivity.
Qed.

Lemma detach_connectionStart (key : string) (s : Editor.t) :
  Editor.connectionStart (Editor.detach key s) = Editor.connectionStart s.
Proof.
  unfold Editor.detach.
  destruct (Editor.dragTarget s) as [[k|]|]; [|reflexivity|reflexivity].
  destruct (String.eqb k key); reflexivity.
Qed.

(** What every event keeps, when no connection is pending. *)
Lemma dispatch_invariant (ev : Editor.Event) (s : Editor.t) :
  Editor.connectionStart s = None ->
  Editor.connectionStart (dispatch ev s) = None
  /\ FlowDiagram.undoStack (Editor.diagram (dispatch ev s))
     = FlowDiagram.undoStack (Editor.diagram s)
  /\ FlowDiagram.redoStack (Editor.diagram (dispatch ev s))
     = FlowDiagram.redoStack (Editor.diagram s)
  /\ (forall c, In c (FlowDiagram.connections (Editor.diagram (dispatch ev s)))
                -> In c (FlowDiagram.connections (Editor.diagram s)))
  /\ (scaleInRange (FlowDiagram.scale (Editor.diagram s)) = true ->
      scaleInRange (FlowDiagram.scale (Editor.diagram (dispatch ev s))) = true).
Proof.
  intros Hcs.
  assert (Hdown : forall h e button,
    Editor.connectionStart (handleMouseDown h e button s) = None
    /\ FlowDiagram.undoStack (Editor.diagram (handleMouseDown h e button s))
       = FlowDiagram.undoStack (Editor.diagram s)
    /\ FlowDiagram.redoStack (Editor.diagram (handleMouseDown h e button s))
       = FlowDiagram.redoStack (Editor.diagram s)
    /\ (forall c,
          In c (FlowDiagram.connections
                  (Editor.diagram (handleMouseDown h e button s)))
          -> In c (FlowDiagram.connections (Editor.diagram s)))
    /\ (scaleInRange (FlowDiagram.scale (Editor.diagram s)) = true ->
        scaleInRange
          (FlowDiagram.scale (Editor.diagram (handleMouseDown h e button s)))
        = true)).
  { intros h e button. unfold Editor.handleMouseDown.
    destruct (FlowDiagram.getMousePosition e (Editor.diagram s)) as [pos|];
      [|kept].
    destruct (getAgentAtPosition (fst pos) (snd pos) (Editor.diagram s))
      as [[key agent]|]; (destruct (Z.eqb button 0); [|kept]).
    - simpl. rewrite Hcs. simpl. unfold Editor.selectAgent.
      destruct (FlowDiagram.selectedAgent (Editor.diagram s)) as [x|];
        [destruct (String.eqb x (AgentNode.id agent))|]; kept.
    - simpl. kept. }
  assert (Hmove : forall e,
    Editor.connectionStart (Editor.handleMouseMove e s) = None
    /\ FlowDiagram.undoStack (Editor.diagram (Editor.handleMouseMove e s))
       = FlowDiagram.undoStack (Editor.diagram s)
    /\ FlowDiagram.redoStack (Editor.diagram (Editor.handleMouseMove e s))
       = FlowDiagram.redoStack (Editor.diagram s)
    /\ (forall c,
          In c (FlowDiagram.connections
                  (Editor.diagram (Editor.handleMouseMove e s)))
          -> In c (FlowDiagram.connections (Editor.diagram s)))
    /\ (scaleInRange (FlowDiagram.scale (Editor.diagram s)) = true ->
        scaleInRange
          (FlowDiagram.scale (Editor.diagram (Editor.handleMouseMove e s)))
        = true)).
  { intros e. unfold Editor.handleMouseMove.
    destruct (FlowDiagram.getMousePosition e (Editor.diagram s)) as [pos|];
      [|kept].
    destruct (Editor.isDragging s), (Editor.dragTarget s) as [[key|]|],
             (Editor.isPanning s); simpl; kept. }
  destruct ev as [h e button | e | | e | h touches | touches | | key
                  | h agentType e]; cbn [Editor.dispatch].
  - apply Hdown.
  - apply Hmove.
  - kept.
  - destruct (handleWheel_keeps e (Editor.diagram s)) as [Hu [Hr Hc]].
    unfold Editor.handleWheel. cbn [Editor.diagram Editor.set_diagram
                                      Editor.connectionStart].
    rewrite Hu, Hr, Hc.
    split; [exact Hcs | split; [reflexivity | split; [reflexivity | split]]].
    + intros c Hin. exact Hin.
    + apply handleWheel_scale_in_range.
  - unfold Editor.handleTouchStart.
    destruct touches as [|t [|t' ts]]; [kept | apply Hdown | kept].
  - unfold Editor.handleTouchMove.
    destruct touches as [|t [|t' ts]]; [kept | apply Hmove | kept].
  - kept.
  - unfold Editor.handleKeyDown.
    destruct (String.eqb key "Delete" || String.eqb key "Backspace").
    + destruct (Editor.selectedTruthy (Editor.diagram s)) as [id|];
        [|kept].
      destruct (removeAgent_keeps id (Editor.diagram s)) as [Hu [Hr [Hsc Hin]]].
      unfold Editor.deselectAgent.
      cbn [Editor.diagram Editor.set_diagram Editor.connectionStart
           Editor.set_connectionStart].
      rewrite detach_diagram.
      cbn [Editor.diagram Editor.set_diagram FlowDiagram.set_selectedAgent
           FlowDiagram.undoStack FlowDiagram.redoStack FlowDiagram.connections
           FlowDiagram.scale].
      rewrite Hsc.
      split; [reflexivity | split; [exact Hu | split; [exact Hr | split]]].
      * exact Hin.
      * intros Hs. exact Hs.
    + destruct (String.eqb key "Escape"); simpl; kept.
  - unfold Editor.handleDrop, Editor.drop.
    destruct (FlowDiagram.canvas (Editor.diagram s)); [|kept].
    rewrite detach_diagram, detach_connectionStart. simpl. kept.
Qed.

(** X16.  The handlers never set [connectionStart].  So when no
    connection is pending (as in the constructor's state), no sequence of
    mouse, touch, wheel, key and drop events leaves one pending, creates
    a connection or changes the undo and redo stacks: every connection
    there afterwards was there before.  And a zoom within 0.1 and 3
    stays within it. *)
Theorem events_never_connect (events : list Editor.Event) (s : Editor.t) :
  Editor.connectionStart s = None ->
  Editor.connectionStart (run events s) = None
  /\ FlowDiagram.undoStack (Editor.diagram (run events s))
     = FlowDiagram.undoStack (Editor.diagram s)
  /\ FlowDiagram.redoStack (Editor.diagram (run events s))
     = FlowDiagram.redoStack (Editor.diagram s)
  /\ (forall c, In c (FlowDiagram.connections (Editor.diagram (run events s)))
                -> In c (FlowDiagram.connections (Editor.diagram s)))
  /\ (scaleInRange (FlowDiagram.scale (Editor.diagram s)) = true ->
      scaleInRange (FlowDiagram.scale (Editor.diagram (run events s))) = true).
Proof.
  unfold Editor.run. revert s.
  induction events as [|ev events IH]; intros s Hcs; simpl.
  - kept.
  - destruct (dispatch_invariant ev s Hcs) as [H1 [H2 [H3 [H4 H5]]]].
    destruct (IH (dispatch ev s) H1) as [I1 [I2 [I3 [I4 I5]]]].
    split; [exact I1|]. split; [congruence|]. split; [congruence|].
    split; [intros c Hc; apply H4, I4, Hc | intros Hs; apply I5, H5, Hs].
Qed.

End Pointer.

(** X17.  With [Delete] or [Backspace], a selected live agent is removed
    together with every connection that has it as source or target, the
    selection and any pending connection are cleared, and nothing is
    recorded for undo.  With no selection, or with the empty string
    selected (which the test [if (this.selectedAgent)] takes for none),
    the key changes nothing; so does every key other than these two and
    [Escape]. *)
Theorem handleKeyDown_delete (key : string) (s : Editor.t) :
  (key = "Delete" \/ key = "Backspace" ->
   forall id,
     FlowDiagram.selectedAgent (Editor.diagram s) = Some id ->
     id <> EmptyString ->
     Graph.live id (Editor.diagram s) = true ->
     Graph.live id (Editor.diagram (Editor.handleKeyDown key s)) = false
     /\ (forall c,
           In c (JsMap.values
                   (FlowDiagram.connections
                      (Editor.diagram (Editor.handleKeyDown key s)))) ->
           AgentConnection.sourceId c <> id /\ AgentConnection.targetId c <> id)
     /\ FlowDiagram.selectedAgent (Editor.diagram (Editor.handleKeyDown key s))
        = None
     /\ Editor.connectionStart (Editor.handleKeyDown key s) = None
     /\ FlowDiagram.undoStack (Editor.diagram (Editor.handleKeyDown key s))
        = FlowDiagram.undoStack (Editor.diagram s))
  /\ (key = "Delete" \/ key = "Backspace" ->
      Editor.selectedTruthy (Editor.diagram s) = None ->
      Editor.handleKeyDown key s = s)
  /\ (key <> "Delete" -> key <> "Backspace" -> key <> "Escape" ->
      Editor.handleKeyDown key s = s).
Proof.
  split; [|split].
  - intros Hkey id Hsel Hid Hlive.
    assert (Hk : String.eqb key "Delete" || String.eqb key "Backspace" = true)
      by (destruct Hkey as [-> | ->]; reflexivity).
    unfold Editor.handleKeyDown. rewrite Hk.
    unfold Editor.selectedTruthy. rewrite Hsel.
    apply String.eqb_neq in Hid. rewrite Hid.
    destruct (removeAgent_live id (Editor.diagram s) Hlive) as [Ha Hc].
    destruct (removeAgent_keeps id (Editor.diagram s)) as [Hu _].
    cbn [Editor.deselectAgent Editor.set_diagram Editor.set_connectionStart
         Editor.diagram Editor.connectionStart].
    rewrite detach_diagram.
    unfold Graph.live. cbn [Editor.diagram Editor.set_diagram].
    cbn [FlowDiagram.set_selectedAgent FlowDiagram.agents
                            FlowDiagram.connections FlowDiagram.selectedAgent
                            FlowDiagram.undoStack].
    rewrite Ha, Hc, Hu.
    split; [apply JsMap_has_delete|].
    split; [|split; [reflexivity | split; reflexivity]].
    intros c Hin. apply in_values_iff in Hin as [k Hin].
    apply removeConnectionsOf_sound in Hin as [_ Hinv].
    now apply involves_false in Hinv.
  - intros Hkey Hnone.
    assert (Hk : String.eqb key "Delete" || String.eqb key "Backspace" = true)
      by (destruct Hkey as [-> | ->]; reflexivity).
    unfold Editor.handleKeyDown. now rewrite Hk, Hnone.
  - intros H1 H2 H3. unfold Editor.handleKeyDown.
    apply String.eqb_neq in H1, H2, H3. now rewrite H1, H2, H3.
Qed.

Lemma handleKeyDown_delete_witness :
  Graph.live Scenario.E1
    (Editor.diagram
       (Editor.handleKeyDown "Delete"
          (Editor.mk
             (FlowDiagram.set_selectedAgent (Some Scenario.E1)
                Scenario.threeCycle)
             None false None false (0%float, 0%float)))) = false
  /\ Editor.handleKeyDown "Backspace" Editor.constructor = Editor.constructor
  /\ Editor.handleKeyDown "Enter" Editor.constructor = Editor.constructor.
Proof.
  split; [|split].
  - destruct (handleKeyDown_delete "Delete"
                (Editor.mk
                   (FlowDiagram.set_selectedAgent (Some Scenario.E1)
                      Scenario.threeCycle)
                   None false None false (0%float, 0%float))) as [H _].
    apply (H (or_introl eq_refl) Scenario.E1).
    + reflexivity.
    + vm_compute. discriminate.
    + vm_compute. reflexivity.
  - destruct (handleKeyDown_delete "Backspace" Editor.constructor)
      as [_ [H _]].
    apply H; [now right | reflexivity].
  - destruct (handleKeyDown_delete "Enter" Editor.constructor) as [_ [_ H]].
    apply H; discriminate.
Defined.

Lemma moveAgent_get (key : string) (x y : float) (m : JsMap.t AgentNode.t) :
  JsMap.keys (Editor.moveAgent key x y m) = JsMap.keys m
  /\ (forall a, JsMap.get key m = Some a ->
      JsMap.get key (Editor.moveAgent key x y m)
      = Some (Editor.withPosition x y a))
  /\ (forall k, k <> key ->
      JsMap.get k (Editor.moveAgent key x y m) = JsMap.get k m).
Proof.
  unfold Editor.moveAgent.
  destruct (JsMap.get key m) as [a|] eqn:Hget.
  - split; [apply JsMap_keys_replace|]. split.
    + intros a' [= <-]. apply JsMap_get_replace. now apply (JsMap_get_has _ _ a).
    + intros k Hk. now apply JsMap_get_replace_ne.
  - split; [reflexivity|]. split; [discriminate | reflexivity].
Qed.

Section Drag.
Variable Math_pow : float -> float -> float.
Variable Math_sqrt : float -> float.

(** X18.  Dragging: after a left press on an agent with no connection
    pending, a move puts that agent, and no other, at the model position
    of the pointer (every other field of it, the keys and their order,
    the connections, both pan offsets and the scale stay), even while a
    pan is in progress; and after the release a move changes nothing. *)
Theorem drag_moves_pressed_agent h (e1 e2 e3 : MouseEvent) (s : Editor.t)
    (pos1 pos2 : float * float) (key : string) (agent : AgentNode.t) :
  JsMap.wf (FlowDiagram.agents (Editor.diagram s)) ->
  Editor.connectionStart s = None ->
  FlowDiagram.getMousePosition e1 (Editor.diagram s) = Some pos1 ->
  Editor.getAgentAtPosition Math_pow Math_sqrt (fst pos1) (snd pos1)
    (Editor.diagram s) = Some (key, agent) ->
  FlowDiagram.getMousePosition e2 (Editor.diagram s) = Some pos2 ->
  JsMap.get key
    (FlowDiagram.agents
       (Editor.diagram
          (Editor.handleMouseMove e2
             (Editor.handleMouseDown Math_pow Math_sqrt h e1 0 s))))
  = Some (AgentNode.mk (AgentNode.id agent) (AgentNode.type agent)
            (fst pos2) (snd pos2) (AgentNode.name agent)
            (AgentNode.status agent) (AgentNode.capabilities agent)
            (AgentNode.createdAt agent))
  /\ (forall k, k <> key ->
      JsMap.get k
        (FlowDiagram.agents
           (Editor.diagram
              (Editor.handleMouseMove e2
                 (Editor.handleMouseDown Math_pow Math_sqrt h e1 0 s))))
      = JsMap.get k (FlowDiagram.agents (Editor.diagram s)))
  /\ JsMap.keys
       (FlowDiagram.agents
          (Editor.diagram
             (Editor.handleMouseMove e2
                (Editor.handleMouseDown Math_pow Math_sqrt h e1 0 s))))
     = JsMap.keys (FlowDiagram.agents (Editor.diagram s))
  /\ FlowDiagram.connections
       (Editor.diagram
          (Editor.handleMouseMove e2
             (Editor.handleMouseDown Math_pow Math_sqrt h e1 0 s)))
     = FlowDiagram.connections (Editor.diagram s)
  /\ FlowDiagram.offsetX
       (Editor.diagram
          (Editor.handleMouseMove e2
             (Editor.handleMouseDown Math_pow Math_sqrt h e1 0 s)))
     = FlowDiagram.offsetX (Editor.diagram s)
  /\ FlowDiagram.offsetY
       (Editor.diagram
          (Editor.handleMouseMove e2
             (Editor.handleMouseDown Math_pow Math_sqrt h e1 0 s)))
     = FlowDiagram.offsetY (Editor.diagram s)
  /\ FlowDiagram.scale
       (Editor.diagram
          (Editor.handleMouseMove e2
             (Editor.handleMouseDown Math_pow Math_sqrt h e1 0 s)))
     = FlowDiagram.scale (Editor.diagram s)
  /\ Editor.handleMouseMove e3
       (Editor.handleMouseUp
          (Editor.handleMouseMove e2
             (Editor.handleMouseDown Math_pow Math_sqrt h e1 0 s)))
     = Editor.handleMouseUp
         (Editor.handleMouseMove e2
            (Editor.handleMouseDown Math_pow Math_sqrt h e1 0 s)).
Proof.
  intros Hwf Hcs Hpos1 Hhit Hpos2.
  assert (Hin : In (key, agent) (FlowDiagram.agents (Editor.diagram s))).
  { unfold Editor.getAgentAtPosition in Hhit. now apply find_some in Hhit. }
  pose proof (JsMap_in_get _ _ _ Hwf Hin) as Hget.
  assert (Hdown : Editor.handleMouseDown Math_pow Math_sqrt h e1 0 s
                  = Editor.mk
                      (Editor.selectAgent (AgentNode.id agent) (Editor.diagram s))
                      None true (Some (Editor.Filed key))
                      (Editor.isPanning s)
                      (Editor.lastPanPoint s)).
  { unfold Editor.handleMouseDown. rewrite Hpos1, Hhit. simpl.
    now rewrite Hcs. }
  assert (Hsel : FlowDiagram.getMousePosition e2
                   (Editor.selectAgent (AgentNode.id agent) (Editor.diagram s))
                 = Some pos2
                 /\ FlowDiagram.agents
                      (Editor.selectAgent (AgentNode.id agent) (Editor.diagram s))
                    = FlowDiagram.agents (Editor.diagram s)
                 /\ FlowDiagram.connections
                      (Editor.selectAgent (AgentNode.id agent) (Editor.diagram s))
                    = FlowDiagram.connections (Editor.diagram s)
                 /\ FlowDiagram.offsetX
                      (Editor.selectAgent (AgentNode.id agent) (Editor.diagram s))
                    = FlowDiagram.offsetX (Editor.diagram s)
                 /\ FlowDiagram.offsetY
                      (Editor.selectAgent (AgentNode.id agent) (Editor.diagram s))
                    = FlowDiagram.offsetY (Editor.diagram s)
                 /\ FlowDiagram.scale
                      (Editor.selectAgent (AgentNode.id agent) (Editor.diagram s))
                    = FlowDiagram.scale (Editor.diagram s)).
  { unfold Editor.selectAgent.
    destruct (FlowDiagram.selectedAgent (Editor.diagram s)) as [x|];
      [destruct (String.eqb x (AgentNode.id agent))|];
      (split; [exact Hpos2
              | split; [reflexivity
                       | split; [reflexivity
                                | split; [reflexivity
                                         | split; reflexivity]]]]). }
  destruct Hsel as [Hpos2' [Hags [Hcns [Hox [Hoy Hsc]]]]].
  assert (Hmove : Editor.handleMouseMove e2
                    (Editor.handleMouseDown Math_pow Math_sqrt h e1 0 s)
                  = Editor.mk
                      (FlowDiagram.set_agents
                         (Editor.moveAgent key (fst pos2) (snd pos2)
                            (FlowDiagram.agents (Editor.diagram s)))
                         (Editor.selectAgent (AgentNode.id agent)
                            (Editor.diagram s)))
                      None true (Some (Editor.Filed key))
                      (Editor.isPanning s)
                      (Editor.lastPanPoint s)).
  { rewrite Hdown. unfold Editor.handleMouseMove.
    cbn [Editor.diagram Editor.isDragging Editor.dragTarget]. rewrite Hpos2'.
    unfold Editor.set_diagram.
    cbn [Editor.connectionStart Editor.isDragging Editor.dragTarget
         Editor.isPanning Editor.lastPanPoint Editor.diagram].
    now rewrite Hags. }
  rewrite Hmove.
  destruct (moveAgent_get key (fst pos2) (snd pos2)
              (FlowDiagram.agents (Editor.diagram s))) as [Hkeys [Hk Hother]].
  cbn [Editor.diagram FlowDiagram.set_agents FlowDiagram.agents
       FlowDiagram.connections FlowDiagram.offsetX FlowDiagram.offsetY
       FlowDiagram.scale].
  split; [exact (Hk _ Hget)|]. split; [exact Hother|].
  split; [exact Hkeys|]. split; [exact Hcns|]. split; [exact Hox|].
  split; [exact Hoy|]. split; [exact Hsc|].
  unfold Editor.handleMouseUp, Editor.handleMouseMove.
  cbn [Editor.diagram Editor.isDragging Editor.dragTarget Editor.isPanning].
  destruct (FlowDiagram.getMousePosition e3 _); reflexivity.
Qed.

End Drag.

(** Concrete sessions for the pointer statements: the host squares with a
    product and takes the correctly rounded root. *)

Lemma handleMouseDown_on_agent_witness :
  Editor.handleMouseDown (fun v _ => (v * v)%float) sqrt (Scenario.host 7)
    (mkMouseEvent 160 140 0) 0
    (Editor.mk Scenario.started None false None false (0%float, 0%float))
  = Editor.mk
      (FlowDiagram.set_selectedAgent
         (Some (AgentNode.id
                  (AgentNode.new (Scenario.host 1) "planner" 150 150 None)))
         Scenario.started)
      None true (Some (Editor.Filed Scenario.P1)) false (0%float, 0%float).
Proof.
  destruct (handleMouseDown_on_agent (fun v _ => (v * v)%float) sqrt
              (Scenario.host 7) (mkMouseEvent 160 140 0)
              (Editor.mk Scenario.started None false None false
                 (0%float, 0%float))
              (160%float, 140%float) Scenario.P1
              (AgentNode.new (Scenario.host 1) "planner" 150 150 None))
    as [_ [_ H]].
  - vm_compute. reflexivity.
  - vm_compute. reflexivity.
  - apply H. reflexivity.
Defined.

Lemma handleMouseDown_on_empty_space_witness :
  Editor.handleMouseDown (fun v _ => (v * v)%float) sqrt (Scenario.host 7)
    (mkMouseEvent 600 600 0) 0
    (Editor.mk Scenario.started None false None false (0%float, 0%float))
  = Editor.mk (FlowDiagram.set_selectedAgent None Scenario.started)
      None false None true (600%float, 600%float).
Proof.
  apply (handleMouseDown_on_empty_space (fun v _ => (v * v)%float) sqrt
           (Scenario.host 7) (mkMouseEvent 600 600 0)
           (Editor.mk Scenario.started None false None false
              (0%float, 0%float))
           (600%float, 600%float)).
  - vm_compute. reflexivity.
  - assert (H : forallb
                  (fun entry =>
                     negb (Editor.distance (fun v _ => (v * v)%float) sqrt
                             600 600 (snd entry) <=? Editor.nodeRadius)%float)
                  (FlowDiagram.agents Scenario.started) = true)
      by (vm_compute; reflexivity).
    intros entry Hin. rewrite forallb_forall in H. specialize (H entry Hin).
    clear Hin. apply negb_true_iff in H. exact H.
Defined.

Lemma events_never_connect_witness :
  Editor.connectionStart
    (Editor.run (fun v _ => (v * v)%float) sqrt
       [Editor.MouseDown (Scenario.host 7) (mkMouseEvent 160 140 0) 0;
        Editor.MouseMove (mkMouseEvent 200 200 0);
        Editor.MouseUp;
        Editor.Wheel Scenario.wheel1;
        Editor.KeyDown "Delete"]
       (Editor.mk Scenario.threeCycle None false None false
          (0%float, 0%float))) = None.
Proof.
  apply (events_never_connect (fun v _ => (v * v)%float) sqrt).
  reflexivity.
Defined.

Lemma drag_moves_pressed_agent_witness :
  JsMap.get Scenario.P1
    (FlowDiagram.agents
       (Editor.diagram
          (Editor.handleMouseMove (mkMouseEvent 300 320 0)
             (Editor.handleMouseDown (fun v _ => (v * v)%float) sqrt
                (Scenario.host 7) (mkMouseEvent 160 140 0) 0
                (Editor.mk Scenario.started None false None false
                   (0%float, 0%float))))))
  = Some (AgentNode.mk (AgentNode.generateId (Scenario.host 1)) "planner"
            300 320 "PlannerAgent" "idle"
            ["planning"; "reasoning"; "strategy"] (created (Scenario.host 1))).
Proof.
  destruct (drag_moves_pressed_agent (fun v _ => (v * v)%float) sqrt
              (Scenario.host 7) (mkMouseEvent 160 140 0)
              (mkMouseEvent 300 320 0) (mkMouseEvent 0 0 0)
              (Editor.mk Scenario.started None false None false
                 (0%float, 0%float))
              (160%float, 140%float) (300%float, 320%float) Scenario.P1
              (AgentNode.new (Scenario.host 1) "planner" 150 150 None))
    as [H _].
  - apply NoDup_ListNoDup. apply (bool_decide_unpack _). vm_compute. exact I.
  - reflexivity.
  - vm_compute. reflexivity.
  - vm_compute. reflexivity.
  - vm_compute. reflexivity.
  - rewrite H. vm_compute. reflexivity.
Defined.

(** ** When no edge dangles *)

Lemma JsMap_has_replace {V : Type} k k' (v : V) (m : JsMap.t V) :
  JsMap.has k' (JsMap.replace k v m) = JsMap.has k' m.
Proof.
  destruct (JsMap.has k' m) eqn:H.
  - destruct (in_dec string_dec k' (JsMap.keys (JsMap.replace k v m)))
      as [Hin|Hout].
    + destruct (JsMap.has k' (JsMap.replace k v m)) eqn:H'; [reflexivity|].
      now apply JsMap_has_false in H'.
    + rewrite JsMap_keys_replace in Hout. apply JsMap_has_false in Hout.
      congruence.
  - apply JsMap_has_false. rewrite JsMap_keys_replace.
    now apply JsMap_has_false.
Qed.

Lemma JsMap_has_set_mono {V : Type} k k' (v : V) (m : JsMap.t V) :
  JsMap.has k' m = true -> JsMap.has k' (JsMap.set k v m) = true.
Proof.
  intros H. unfold JsMap.set. destruct (JsMap.has k m).
  - now rewrite JsMap_has_replace.
  - rewrite JsMap_has_app, H. reflexivity.
Qed.

Lemma JsMap_has_delete_ne {V : Type} k k' (m : JsMap.t V) :
  k' <> k -> JsMap.has k' (JsMap.delete k m) = JsMap.has k' m.
Proof.
  intros Hne. unfold JsMap.has. now rewrite JsMap_get_delete_ne.
Qed.

Lemma updateAgentStatus_has (agents : list (string * string)) :
  forall (m : JsMap.t AgentNode.t) k,
    JsMap.has k (fold_left Editor.updateOneStatus agents m) = JsMap.has k m.
Proof.
  induction agents as [|u us IH]; intros m k; simpl; [reflexivity|].
  rewrite IH. unfold Editor.updateOneStatus.
  destruct (JsMap.get (fst u) m); [apply JsMap_has_replace | reflexivity].
Qed.

(** One call that keeps endpoints, on a diagram without dangling edges. *)
Lemma exec_no_dangling (c : Api.Command) (d : FlowDiagram.t) :
  keepsEndpoints c d = true ->
  (forall x, In x (JsMap.values (FlowDiagram.connections d)) ->
             Graph.dangling x d = false) ->
  forall x, In x (JsMap.values (FlowDiagram.connections (Api.exec c d))) ->
            Graph.dangling x (Api.exec c d) = false.
Proof.
  unfold Graph.dangling, Graph.live.
  assert (Hmono : forall (d' : FlowDiagram.t),
    FlowDiagram.connections d' = FlowDiagram.connections d ->
    (forall k, JsMap.has k (FlowDiagram.agents d) = true ->
               JsMap.has k (FlowDiagram.agents d') = true) ->
    (forall x, In x (JsMap.values (FlowDiagram.connections d)) ->
       negb (JsMap.has (AgentConnection.sourceId x) (FlowDiagram.agents d))
       || negb (JsMap.has (AgentConnection.targetId x) (FlowDiagram.agents d))
       = false) ->
    forall x, In x (JsMap.values (FlowDiagram.connections d')) ->
       negb (JsMap.has (AgentConnection.sourceId x) (FlowDiagram.agents d'))
       || negb (JsMap.has (AgentConnection.targetId x) (FlowDiagram.agents d'))
       = false).
  { intros d' Hc Hk Hd x Hx. rewrite Hc in Hx. specialize (Hd x Hx).
    apply orb_false_iff in Hd as [H1 H2].
    apply negb_false_iff in H1, H2.
    now rewrite (Hk _ H1), (Hk _ H2). }
  destruct c as [h type x y | agentId | h agentId | agentId property value
                 | agents | h a b kind | connectionId | | | host data];
    cbn [Api.exec keepsEndpoints]; try discriminate; intros Hkeep Hd.
  - (* createAgent *)
    apply Hmono; [reflexivity | | exact Hd].
    intros k Hk. unfold FlowDiagram.createAgent. simpl.
    now apply JsMap_has_set_mono.
  - (* removeAgent *)
    destruct (JsMap.has agentId (FlowDiagram.agents d)) eqn:Hlive.
    + destruct (removeAgent_live agentId d Hlive) as [Ha Hc].
      rewrite Ha, Hc. intros x Hx. apply in_values_iff in Hx as [k Hx].
      apply removeConnectionsOf_sound in Hx as [Hin Hinv].
      apply involves_false in Hinv as [Hs Ht]. simpl in Hs, Ht.
      rewrite !JsMap_has_delete_ne by assumption.
      apply Hd. apply in_values_iff. now exists k.
    + unfold FlowDiagram.removeAgent. unfold JsMap.has in Hlive.
      destruct (JsMap.get agentId (FlowDiagram.agents d)); [discriminate|].
      exact Hd.
  - (* duplicateAgent *)
    unfold FlowDiagram.duplicateAgent.
    destruct (JsMap.get agentId (FlowDiagram.agents d)); cbn [snd];
      [|exact Hd].
    apply Hmono; [reflexivity | | exact Hd].
    intros k Hk. simpl. now apply JsMap_has_set_mono.
  - (* updateAgentProperty *)
    unfold FlowDiagram.updateAgentProperty.
    destruct (JsMap.get agentId (FlowDiagram.agents d)); [|exact Hd].
    apply Hmono; [reflexivity | | exact Hd].
    intros k Hk. simpl. now rewrite JsMap_has_replace.
  - (* updateAgentStatus *)
    apply Hmono; [reflexivity | | exact Hd].
    intros k Hk. unfold Editor.updateAgentStatus. simpl.
    now rewrite updateAgentStatus_has.
  - (* createConnection *)
    apply andb_true_iff in Hkeep as [La Lb]. unfold Graph.live in La, Lb.
    unfold FlowDiagram.createConnection.
    destruct (String.eqb a b); simpl; [exact Hd|].
    destruct (FlowDiagram.findConnection a b (FlowDiagram.connections d));
      simpl; [exact Hd|].
    intros x Hx. apply in_values_iff in Hx as [k Hx].
    unfold JsMap.set in Hx.
    destruct (JsMap.has (AgentConnection.generateId h)
                (FlowDiagram.connections d)).
    + assert (Hrep : forall (m : JsMap.t AgentConnection.t) k0 v e,
                 In e (JsMap.replace k0 v m) -> In e m \/ snd e = v).
      { induction m as [|[k1 v1] m IH]; simpl; [tauto|].
        intros k0 v e. destruct (String.eqb k1 k0); simpl.
        - intros [<-|H]; [now right | left; now right].
        - intros [<-|H]; [left; now left|].
          destruct (IH _ _ _ H); [left; now right | now right]. }
      apply Hrep in Hx as [Hx | Hx]; simpl in Hx.
      * apply Hd. apply in_values_iff. now exists k.
      * subst x. simpl. now rewrite La, Lb.
    + apply in_app_iff in Hx as [Hx | [[= <- <-]|[]]].
      * apply Hd. apply in_values_iff. now exists k.
      * simpl. now rewrite La, Lb.
  - (* removeConnection *)
    unfold FlowDiagram.removeConnection.
    destruct (JsMap.get connectionId (FlowDiagram.connections d)); simpl;
      [|exact Hd].
    intros x Hx. apply in_values_iff in Hx as [k Hx].
    apply JsMap_in_delete in Hx as [Hx _].
    apply Hd. apply in_values_iff. now exists k.
Qed.

(** X19.  Dangling edges come from connecting ids that name no agent and
    from [undo], [redo] and [import] only: on a diagram in which every
    connection joins two live agents, any sequence of the other calls in
    which [createConnection] is given live agents leaves every connection
    joining two live agents.  In particular [removeAgent] then really
    leaves no edge without an endpoint. *)
Theorem no_dangling_without_history (cs : list Api.Command) (d : FlowDiagram.t) :
  connectsLiveOnly cs d = true ->
  (forall x, In x (JsMap.values (FlowDiagram.connections d)) ->
             Graph.dangling x d = false) ->
  forall x, In x (JsMap.values (FlowDiagram.connections (Api.execAll cs d))) ->
            Graph.dangling x (Api.execAll cs d) = false.
Proof.
  unfold Api.execAll. revert d.
  induction cs as [|c cs IH]; intros d Hcs Hd; simpl in *; [exact Hd|].
  apply andb_true_iff in Hcs as [Hc Hcs].
  apply IH; [exact Hcs|]. now apply exec_no_dangling.
Qed.

Lemma no_dangling_without_history_witness :
  Forall
    (fun x =>
       Graph.dangling x
         (Api.execAll
            [Api.CreateConnection (Scenario.host 7) Scenario.E1 Scenario.P1
               "control";
             Api.RemoveAgent Scenario.P1;
             Api.DuplicateAgent (Scenario.host 9) Scenario.E1]
            Scenario.threeCycle) = false)
    (JsMap.values
       (FlowDiagram.connections
          (Api.execAll
             [Api.CreateConnection (Scenario.host 7) Scenario.E1 Scenario.P1
                "control";
              Api.RemoveAgent Scenario.P1;
              Api.DuplicateAgent (Scenario.host 9) Scenario.E1]
             Scenario.threeCycle))).
Proof.
  apply List.Forall_forall.
  apply no_dangling_without_history.
  - vm_compute. reflexivity.
  - assert (H : forallb (fun x => negb (Graph.dangling x Scenario.threeCycle))
                  (JsMap.values (FlowDiagram.connections Scenario.threeCycle))
                = true) by (vm_compute; reflexivity).
    intros x Hx. rewrite forallb_forall in H. specialize (H x Hx). clear Hx.
    apply negb_true_iff in H. exact H.
Defined.
